(** * EventTrackPro: the webhook notification pipeline

    A shallow embedding of the webhook pipeline of [backend/src/routes.ts]
    (field-label lookup, payload construction for [registration.created],
    the subscription lookup of [DatabaseStorage], [triggerWebhooks] and the
    registration endpoints that call it), with the properties the
    specification states about it.

    Conventions.
    - A JavaScript string is a [string]: a sequence of code units below 256
      (the Latin-1 range).  [toLowerCase], [\w] and [\s] are written out on
      that range.
    - A plain JavaScript object is the list of its own properties in
      insertion order ([JsObject]); a database table is the list of its
      rows, and a [where] clause is a [filter].
    - A [jsonb] column gives back the value it was given with the keys of
      every object in the order of the column ([jsonb]); it and the [text]
      columns refuse a string that holds the code unit 0, and the insert
      then throws.
    - Code that can throw returns a [Completion]; [try]/[catch] is
      [try_catch]. *)

From Stdlib Require Import ZArith String Ascii DecimalString.
From stdpp Require Import prelude strings.

Local Set Warnings "-register-all".

Local Open Scope string_scope.
Local Open Scope Z_scope.

(** ** JavaScript strings *)

Module JsString.

Definition code (c : ascii) : nat := nat_of_ascii c.

Definition between (lo hi n : nat) : bool := ((lo <=? n) && (n <=? hi))%nat.

(** [String.prototype.toLowerCase] on one code unit: A-Z, and the
    Latin-1 capitals U+00C0..U+00DE except the multiplication sign. *)
Definition toLowerChar (c : ascii) : ascii :=
  let n := code c in
  if between 65 90 n || (between 192 222 n && negb (n =? 215)%nat)
  then ascii_of_nat (n + 32) else c.

Fixpoint toLowerCase (s : string) : string :=
  match s with
  | EmptyString => EmptyString
  | String c s' => String (toLowerChar c) (toLowerCase s')
  end.

(** The regular-expression class [\w]: [A-Za-z0-9_]. *)
Definition is_word (c : ascii) : bool :=
  let n := code c in
  between 48 57 n || between 65 90 n || (n =? 95)%nat || between 97 122 n.

(** The regular-expression class [\s]: tab, line feed, vertical tab, form
    feed, carriage return, space and the no-break space. *)
Definition is_space (c : ascii) : bool :=
  let n := code c in
  between 9 13 n || (n =? 32)%nat || (n =? 160)%nat.

(** The class [[a-z0-9_]] of the second replacement of the snake_case
    conversion. *)
Definition is_snake (c : ascii) : bool :=
  let n := code c in
  between 97 122 n || between 48 57 n || (n =? 95)%nat.

(** [s.includes(sub)] *)
Fixpoint includes (s sub : string) : bool :=
  String.prefix sub s ||
  match s with
  | EmptyString => false
  | String _ s' => includes s' sub
  end.

(** [s.replace(/\s+/g, '_')]: every maximal run of white space becomes one
    underscore.  [in_run] tells that the preceding code unit was white
    space, whose underscore is already written. *)
Fixpoint replace_spaces_from (in_run : bool) (s : string) : string :=
  match s with
  | EmptyString => EmptyString
  | String c s' =>
      if is_space c
      then (if in_run then replace_spaces_from true s'
            else String "_" (replace_spaces_from true s'))
      else String c (replace_spaces_from false s')
  end.

Definition replace_spaces (s : string) : string := replace_spaces_from false s.

(** [s.replace(/[^a-z0-9_]/g, '')] *)
Fixpoint strip_non_snake (s : string) : string :=
  match s with
  | EmptyString => EmptyString
  | String c s' =>
      if is_snake c then String c (strip_non_snake s') else strip_non_snake s'
  end.

(** [s.split(' ')]: the pieces between single space characters; never the
    empty list. *)
Fixpoint split_space (s : string) : list string :=
  match s with
  | EmptyString => [EmptyString]
  | String c s' =>
      if Ascii.eqb c " "%char then EmptyString :: split_space s'
      else match split_space s' with
           | [] => [String c EmptyString]
           | p :: ps => String c p :: ps
           end
  end.

(** [parts.join(sep)] *)
Fixpoint join (sep : string) (parts : list string) : string :=
  match parts with
  | [] => EmptyString
  | [p] => p
  | p :: ps => p +:+ sep +:+ join sep ps
  end.

(** [n] leading [\w] code units of [s], and what follows them. *)
Fixpoint take_word (n : nat) (s : string) : option (string * string) :=
  match n with
  | O => Some (EmptyString, s)
  | S n' =>
      match s with
      | EmptyString => None
      | String c s' =>
          if is_word c
          then '(g, r) ← take_word n' s'; Some (String c g, r)
          else None
      end
  end.

End JsString.

(** ** JavaScript values and objects *)

(** A JSON value, as [JSON.parse] and the [jsonb] columns deliver it.  A
    number is an integer of magnitude below 2^53 (identifiers, counts,
    capacities), which [String] renders in decimal. *)
Inductive JsValue : Type :=
| JNull
| JBool (b : bool)
| JNum (n : Z)
| JStr (s : string)
| JArr (items : list JsValue)
| JObj (props : list (string * JsValue)).

(** The own enumerable properties of a plain object, in the order
    [Object.entries] lists them. *)
Abbreviation JsObject := (list (string * JsValue)).

Definition decimal (n : Z) : string := NilZero.string_of_int (Z.to_int n).

(** [String(value)] *)
Fixpoint js_String (v : JsValue) : string :=
  match v with
  | JNull => "null"
  | JBool true => "true"
  | JBool false => "false"
  | JNum n => decimal n
  | JStr s => s
  | JArr items =>
      JsString.join ","
        (map (fun x => match x with JNull => EmptyString | _ => js_String x end) items)
  | JObj _ => "[object Object]"
  end.

(** Truthiness of a value, for [!x] and [x || y]. *)
Definition truthy (v : JsValue) : bool :=
  match v with
  | JNull => false
  | JBool b => b
  | JNum n => negb (n =? 0)
  | JStr s => negb (bool_decide (s = EmptyString))
  | JArr _ | JObj _ => true
  end.

Definition truthy_string (s : string) : bool := negb (bool_decide (s = EmptyString)).

(** [x || d] for a nullable text column. *)
Definition or_string (x : option string) (d : string) : string :=
  match x with
  | Some s => if truthy_string s then s else d
  | None => d
  end.

Module JsObject.

(** [o[k]] restricted to own properties. *)
Fixpoint get (k : string) (o : JsObject) : option JsValue :=
  match o with
  | [] => None
  | (k', v) :: o' => if decide (k' = k) then Some v else get k o'
  end.

(** Writing an own property: an existing key keeps its place. *)
Fixpoint put (k : string) (v : JsValue) (o : JsObject) : JsObject :=
  match o with
  | [] => [(k, v)]
  | (k', v') :: o' =>
      if decide (k' = k) then (k', v) :: o' else (k', v') :: put k v o'
  end.

(** The assignment [o[k] = v] on an object whose prototype is
    [Object.prototype].  The key [__proto__] reaches the inherited setter:
    no own property is created. *)
Definition set (k : string) (v : JsValue) (o : JsObject) : JsObject :=
  if decide (k = "__proto__") then o else put k v o.

End JsObject.

(** ** Completions: code that may throw *)

Inductive Completion (A : Type) : Type :=
| Normal (a : A)
| Throw (e : string).
Arguments Normal {A} a.
Arguments Throw {A} e.

Global Instance completion_ret : MRet Completion := @Normal.
Global Instance completion_bind : MBind Completion :=
  fun A B f c => match c with Normal a => f a | Throw e => Throw e end.

(** [try { c } catch (error) { h error }] *)
Definition try_catch {A} (c : Completion A) (h : string -> Completion A) : Completion A :=
  match c with
  | Normal a => Normal a
  | Throw e => h e
  end.

(** [entries.forEach(step)] on an accumulator threaded through the calls. *)
Fixpoint forEach {A B} (step : B -> A -> Completion B) (entries : list A) (acc : B)
  : Completion B :=
  match entries with
  | [] => Normal acc
  | x :: rest => acc' ← step acc x; forEach step rest acc'
  end.

(** ** Field labels *)

(** [FORM_FIELD_LABELS]: the own properties of the object literal. *)
Definition FORM_FIELD_LABELS : list (string * string) :=
  [ ("4a2b99cf-7244-4e93-8f29-2e02c6845960", "First Name");
    ("50592742-6389-40ea-8a85-c4291e99f545", "Last Name");
    ("5a2aa210-8c3d-485e-878b-0c8dceb0f9bc", "Email");
    ("7a006b3a-6516-4981-a333-e92b98970f29", "Phone");
    ("156e810e-d049-4f37-98a9-3763abdb7386", "Tell me a bit about yourself");
    ("7d903ce3-3998-4c37-94f9-8d0257b8d279", "What do you do for work?");
    ("4c72cf83-105b-4cbd-bc9b-dd4f099493a9", "Are you familiar with Notion?");
    ("7d8d5ace-d95e-4dab-bb71-ac8bf272c572", "What is your main currency");
    ("41bf2047-cd0b-41f2-ad7c-4d7bb462ab44", "Select event") ].

(** The property names every object literal inherits from
    [Object.prototype]. *)
Definition Object_prototype_names : list string :=
  [ "constructor"; "__defineGetter__"; "__defineSetter__"; "hasOwnProperty";
    "__lookupGetter__"; "__lookupSetter__"; "isPrototypeOf";
    "propertyIsEnumerable"; "toString"; "valueOf"; "__proto__";
    "toLocaleString" ].

(** What a property read on [FORM_FIELD_LABELS] evaluates to, other than
    [undefined]: a label, or a member inherited from [Object.prototype] (a
    function or an object, never a string). *)
Inductive Property : Type :=
| PLabel (label : string)
| PInherited (name : string).

Fixpoint own_label (k : string) (table : list (string * string)) : option string :=
  match table with
  | [] => None
  | (k', l) :: table' => if decide (k' = k) then Some l else own_label k table'
  end.

(** [FORM_FIELD_LABELS[k]]; [None] is [undefined]. *)
Definition label_of (k : string) : option Property :=
  match own_label k FORM_FIELD_LABELS with
  | Some l => Some (PLabel l)
  | None =>
      if bool_decide (k ∈ Object_prototype_names) then Some (PInherited k) else None
  end.

Definition truthy_property (p : option Property) : bool :=
  match p with
  | Some (PLabel l) => truthy_string l
  | Some (PInherited _) => true
  | None => false
  end.

(** [a || b] on property reads *)
Definition or_property (a b : option Property) : option Property :=
  if truthy_property a then a else b.

(** The match of [/(\w{8})(\w{4})(\w{4})(\w{4})(\w{12})/] at the start
    of [s]: the five groups and the rest of the string. *)
Definition match_groups (s : string)
  : option (string * string * string * string * string * string) :=
  '(g1, r1) ← JsString.take_word 8 s;
  '(g2, r2) ← JsString.take_word 4 r1;
  '(g3, r3) ← JsString.take_word 4 r2;
  '(g4, r4) ← JsString.take_word 4 r3;
  '(g5, r5) ← JsString.take_word 12 r4;
  Some (g1, g2, g3, g4, g5, r5).

(** [key.replace(/(\w{8})(\w{4})(\w{4})(\w{4})(\w{12})/, '$1-$2-$3-$4-$5')]:
    the leftmost match only (the expression has no [g] flag). *)
Fixpoint cleanKey (key : string) : string :=
  match match_groups key with
  | Some (g1, g2, g3, g4, g5, rest) =>
      g1 +:+ "-" +:+ g2 +:+ "-" +:+ g3 +:+ "-" +:+ g4 +:+ "-" +:+ g5 +:+ rest
  | None =>
      match key with
      | EmptyString => EmptyString
      | String c key' => String c (cleanKey key')
      end
  end.

(** [FORM_FIELD_LABELS[cleanedKey] || FORM_FIELD_LABELS[key]], the lookup of
    [extractStandardFields]. *)
Definition lookupLabel (key : string) : option Property :=
  or_property (label_of (cleanKey key)) (label_of key).

(** [FORM_FIELD_LABELS[cleanedKey] || FORM_FIELD_LABELS[key] || key], the
    lookup of the two payload loops. *)
Definition fieldLabel (key : string) : Property :=
  let found := lookupLabel key in
  if truthy_property found then default (PLabel key) found else PLabel key.

(** [label.toLowerCase().replace(/\s+/g, '_').replace(/[^a-z0-9_]/g, '')] *)
Definition snake_case (label : string) : string :=
  JsString.strip_non_snake (JsString.replace_spaces (JsString.toLowerCase label)).

(** The same on what the lookup returned: a value that is not a string has
    no [toLowerCase] method, and the call throws. *)
Definition snakeCaseLabel (p : Property) : Completion string :=
  match p with
  | PLabel l => Normal (snake_case l)
  | PInherited _ => Throw "TypeError: fieldLabel.toLowerCase is not a function"
  end.

(** ** Rows of the tables ([shared/schema.ts]) *)

Record Event : Type := {
  ev_id : Z;
  ev_title : string;
  ev_description : option string;
  ev_date : string;
  ev_startTime : option string;
  ev_endTime : option string;
  ev_location : option string;
  ev_capacity : Z;
  ev_formId : option Z;
  ev_createdAt : string
}.

(** [formData] is an object: [reg_formData] lists its entries as
    [Object.entries] does. *)
Record Registration : Type := {
  reg_id : Z;
  reg_eventId : Z;
  reg_formData : JsObject;
  reg_status : option string;
  reg_webhookStatus : option string;
  reg_attended : option bool;
  reg_attendanceNotes : option string;
  reg_createdAt : string
}.

Record Webhook : Type := {
  wh_id : Z;
  wh_name : string;
  wh_url : string;
  wh_secret : option string;
  wh_events : list string;
  wh_active : option bool;
  wh_createdAt : string
}.

(** ** The payload of [registration.created] *)

(** The three variables of the first loop over the form data. *)
Record Contact : Type := {
  firstName : string;
  lastName : string;
  email : string
}.

Definition is_string (v : JsValue) : option string :=
  match v with JStr s => Some s | _ => None end.

(** One call of the callback of [Object.entries(formData).forEach] that looks
    for common field names. *)
Definition scanField (c : Contact) (entry : string * JsValue) : Contact :=
  let '(key, value) := entry in
  let keyLower := JsString.toLowerCase key in
  if decide (key = "eventName") then c
  else if JsString.includes keyLower "first" || JsString.includes keyLower "fname"
  then {| firstName := js_String value; lastName := lastName c; email := email c |}
  else if JsString.includes keyLower "last" || JsString.includes keyLower "lname"
  then {| firstName := firstName c; lastName := js_String value; email := email c |}
  else if bool_decide (keyLower = "name") || bool_decide (keyLower = "fullname")
  then
    match is_string value with
    | Some s =>
        if negb (truthy_string (firstName c)) && negb (truthy_string (lastName c))
        then
          let nameParts := JsString.split_space s in
          if (1 <? length nameParts)%nat
          then {| firstName := default EmptyString (head nameParts);
                  lastName := JsString.join " " (tail nameParts);
                  email := email c |}
          else {| firstName := s; lastName := lastName c; email := email c |}
        else c
    | None => c
    end
  else if JsString.includes keyLower "email"
  then {| firstName := firstName c; lastName := lastName c; email := js_String value |}
  else c.

Definition scanFormData (formData : JsObject) : Contact :=
  fold_left scanField formData
    {| firstName := EmptyString; lastName := EmptyString; email := EmptyString |}.

Definition nullable (x : option string) : JsValue :=
  match x with Some s => JStr s | None => JNull end.

(** [fieldLabel === l] *)
Definition is_label (p : Property) (l : string) : bool :=
  match p with
  | PLabel l' => bool_decide (l' = l)
  | PInherited _ => false
  end.

(** One call of the callback of the loop that adds the form fields.
    [debugKey] is [true] in [POST /api/registrations], whose callback writes
    [webhookPayload[`form_${key}`]], and [false] in
    [POST /api/registrations/:id/webhook], whose callback has no such line;
    the callbacks are otherwise the same. *)
Definition addFormField (debugKey : bool) (webhookPayload : JsObject)
    (entry : string * JsValue) : Completion JsObject :=
  let '(key, value) := entry in
  let label := fieldLabel key in
  snakeCase ← snakeCaseLabel label;
  let p1 := JsObject.set snakeCase value webhookPayload in
  let p2 := if debugKey then JsObject.set ("form_" +:+ key) value p1 else p1 in
  mret
    (if is_label label "First Name"
     then JsObject.set "first_name" (JStr (js_String value)) p2
     else if is_label label "Last Name"
     then JsObject.set "last_name" (JStr (js_String value)) p2
     else if is_label label "Email"
     then JsObject.set "email" (JStr (js_String value)) p2
     else p2).

(** [capacity || 0] *)
Definition or_zero (n : Z) : Z := if (n =? 0) then 0 else n.

(** The payload [POST /api/registrations] builds after the registration is
    stored; [eventDataForWebhook] is the second read of the event, which
    the code allows to be [undefined]. *)
Definition registrationCreatedPayload (registration : Registration)
    (eventDataForWebhook : option Event) : Completion JsObject :=
  let c := scanFormData (reg_formData registration) in
  let eventTitle := or_string (ev_title <$> eventDataForWebhook) "Unknown Event" in
  let eventDescription := or_string (eventDataForWebhook ≫= ev_description) "" in
  let eventDate := or_string (ev_date <$> eventDataForWebhook) "" in
  let eventLocation := or_string (eventDataForWebhook ≫= ev_location) "" in
  let eventStartTime := or_string (eventDataForWebhook ≫= ev_startTime) "" in
  let eventEndTime := or_string (eventDataForWebhook ≫= ev_endTime) "" in
  let eventCapacity := or_zero (default 0 (ev_capacity <$> eventDataForWebhook)) in
  let webhookPayload : JsObject :=
    [ ("event_title", JStr eventTitle);
      ("event_description", JStr eventDescription);
      ("event_date", JStr eventDate);
      ("event_location", JStr eventLocation);
      ("event_start_time", JStr eventStartTime);
      ("event_end_time", JStr eventEndTime);
      ("event_capacity", JNum eventCapacity);
      ("first_name", JStr (firstName c));
      ("last_name", JStr (lastName c));
      ("email", JStr (email c));
      ("registration_id", JNum (reg_id registration));
      ("registration_status", nullable (reg_status registration));
      ("webhook_status", JStr (or_string (reg_webhookStatus registration) "pending"));
      ("submitted_at", JStr (reg_createdAt registration)) ] in
  forEach (addFormField true) (reg_formData registration) webhookPayload.

(** The payload [POST /api/registrations/:id/webhook] builds.  Its first
    loop computes [firstName], [lastName] and [email] as above and the
    object literal does not use them. *)
Definition manualTriggerPayload (registration : Registration)
    (eventDetails : Event) (now : string) : Completion JsObject :=
  let webhookPayload : JsObject :=
    [ ("event_title", JStr (or_string (Some (ev_title eventDetails)) "Unknown Event"));
      ("event_description", JStr (or_string (ev_description eventDetails) ""));
      ("event_date", JStr (or_string (Some (ev_date eventDetails)) ""));
      ("event_location", JStr (or_string (ev_location eventDetails) ""));
      ("event_start_time", JStr (or_string (ev_startTime eventDetails) ""));
      ("event_end_time", JStr (or_string (ev_endTime eventDetails) ""));
      ("event_capacity", JNum (or_zero (ev_capacity eventDetails)));
      ("manually_triggered", JBool true);
      ("triggered_at", JStr now);
      ("registration_id", JNum (reg_id registration));
      ("registration_status", nullable (reg_status registration));
      ("webhook_status", JStr (or_string (reg_webhookStatus registration) "pending"));
      ("submitted_at", JStr (reg_createdAt registration)) ] in
  forEach (addFormField false) (reg_formData registration) webhookPayload.

(** The keys one call of the callback writes. *)
Definition written_keys (debugKey : bool) (key : string) : list string :=
  match fieldLabel key with
  | PLabel l => snake_case l :: (if debugKey then ["form_" +:+ key] else [])
  | PInherited _ => []
  end.

(** What one call of the callback leaves under the snake_case key of its
    field: the value, and for the three known labels [String(value)], written
    last. *)
Definition stored (label : string) (value : JsValue) : JsValue :=
  if bool_decide (label ∈ ["First Name"; "Last Name"; "Email"])
  then JStr (js_String value) else value.

(** No key of the form data names a member of [Object.prototype]. *)
Definition plain_keys (formData : JsObject) : Prop :=
  Forall (fun e => e.1 ∉ Object_prototype_names) formData.

(** An identifier without its dashes, as the form data stores it. *)
Fixpoint undashed (s : string) : string :=
  match s with
  | EmptyString => EmptyString
  | String c s' =>
      if Ascii.eqb c "-"%char then undashed s' else String c (undashed s')
  end.

(** ** What a [jsonb] column keeps *)

(** The number of bytes of [s] in UTF-8: one for a code unit below 128, two
    for the others of the Latin-1 range. *)
Fixpoint utf8_length (s : string) : nat :=
  match s with
  | EmptyString => 0%nat
  | String c s' =>
      ((if JsString.code c <? 128 then 1 else 2) + utf8_length s')%nat
  end.

(** The order of the bytes of two keys of the same length in UTF-8, which is
    the order of their code units. *)
Fixpoint bytes_lt (a b : string) : bool :=
  match a, b with
  | _, EmptyString => false
  | EmptyString, String _ _ => true
  | String c a', String d b' =>
      (JsString.code c <? JsString.code d)%nat
      || ((JsString.code c =? JsString.code d)%nat && bytes_lt a' b')
  end.

(** The order of the keys of a [jsonb] object: a shorter key first, keys of
    the same length by their bytes. *)
Definition jsonb_key_lt (a b : string) : bool :=
  (utf8_length a <? utf8_length b)%nat
  || ((utf8_length a =? utf8_length b)%nat && bytes_lt a b).

(** One more pair of the object that is read in: a key that is there
    already gets the later value. *)
Fixpoint jsonb_insert (k : string) (v : JsValue) (o : JsObject) : JsObject :=
  match o with
  | [] => [(k, v)]
  | (k', v') :: o' =>
      if decide (k' = k) then (k, v) :: o'
      else if jsonb_key_lt k k' then (k, v) :: (k', v') :: o'
      else (k', v') :: jsonb_insert k v o'
  end.

Fixpoint parse_digits (acc : Z) (s : string) : option Z :=
  match s with
  | EmptyString => Some acc
  | String c s' =>
      if JsString.between 48 57 (JsString.code c)
      then parse_digits (10 * acc + Z.of_nat (JsString.code c - 48)) s'
      else None
  end.

(** An array index: the decimal form of an integer from 0 to 2^32 - 2.  An
    object lists the properties with such keys first, in ascending order. *)
Definition is_index (k : string) : bool :=
  match parse_digits 0 k with
  | Some n => (n <=? 4294967294) && bool_decide (decimal n = k)
  | None => false
  end.

(** [Object.entries] of the object [JSON.parse] makes of the text of a
    [jsonb] object. *)
Definition entries_order (o : JsObject) : JsObject :=
  (filter (fun kv => is_index kv.1 = true) o
   ++ filter (fun kv => is_index kv.1 ≠ true) o)%list.

(** What is read from a [jsonb] column that was given [v]. *)
Fixpoint jsonb (v : JsValue) : JsValue :=
  match v with
  | JArr items => JArr (map jsonb items)
  | JObj props =>
      JObj (entries_order
              (fold_left (fun o kv => jsonb_insert kv.1 (jsonb kv.2) o) props []))
  | _ => v
  end.

Definition jsonb_object (o : JsObject) : JsObject :=
  entries_order (fold_left (fun o' kv => jsonb_insert kv.1 (jsonb kv.2) o') o []).

(** A string with the code unit 0, which neither a [text] nor a [jsonb]
    column takes. *)
Definition has_nul (s : string) : bool :=
  existsb (fun c => (JsString.code c =? 0)%nat) (list_ascii_of_string s).

Fixpoint json_has_nul (v : JsValue) : bool :=
  match v with
  | JStr s => has_nul s
  | JArr items => existsb json_has_nul items
  | JObj props => existsb (fun kv => has_nul kv.1 || json_has_nul kv.2) props
  | _ => false
  end.

(** ** Storage ([DatabaseStorage]) *)

Record Storage : Type := {
  events : list Event;
  registrations : list Registration;
  webhooks : list Webhook;
  (** the next value of the serial column [registrations.id] *)
  registrations_id_seq : Z
}.

(** [InsertRegistration]: what [insertRegistrationSchema] lets through. *)
Record InsertRegistration : Type := {
  ins_eventId : Z;
  ins_formData : JsObject;
  ins_status : option string;
  ins_webhookStatus : option string;
  ins_attended : option bool;
  ins_attendanceNotes : option string
}.

(** [Partial<InsertRegistration>]: [None] is a key that is not supplied. *)
Record RegistrationUpdate : Type := {
  upd_eventId : option Z;
  upd_formData : option JsObject;
  upd_status : option (option string);
  upd_webhookStatus : option (option string);
  upd_attended : option (option bool);
  upd_attendanceNotes : option (option string)
}.

(** [{ webhookStatus: "sent" }] *)
Definition webhookStatus_sent : RegistrationUpdate :=
  {| upd_eventId := None; upd_formData := None; upd_status := None;
     upd_webhookStatus := Some (Some "sent"); upd_attended := None;
     upd_attendanceNotes := None |}.

Definition apply_update (u : RegistrationUpdate) (r : Registration) : Registration :=
  {| reg_id := reg_id r;
     reg_eventId := default (reg_eventId r) (upd_eventId u);
     reg_formData := default (reg_formData r) (jsonb_object <$> upd_formData u);
     reg_status := default (reg_status r) (upd_status u);
     reg_webhookStatus := default (reg_webhookStatus r) (upd_webhookStatus u);
     reg_attended := default (reg_attended r) (upd_attended u);
     reg_attendanceNotes := default (reg_attendanceNotes r) (upd_attendanceNotes u);
     reg_createdAt := reg_createdAt r |}.

(** [select().from(events).where(eq(events.id, id))], first row *)
Definition getEvent (st : Storage) (id : Z) : option Event :=
  head (filter (fun e => ev_id e = id) (events st)).

Definition getRegistration (st : Storage) (id : Z) : option Registration :=
  head (filter (fun r => reg_id r = id) (registrations st)).

Definition getWebhook (st : Storage) (id : Z) : option Webhook :=
  head (filter (fun w => wh_id w = id) (webhooks st)).

(** [select count( * ) from registrations where event_id = eventId] *)
Definition getEventRegistrationCount (st : Storage) (eventId : Z) : Z :=
  Z.of_nat (length (filter (fun r => reg_eventId r = eventId) (registrations st))).

(** The values [createRegistration] hands to the insert hold a code unit 0:
    the database refuses them. *)
Definition registration_refused (insertRegistration : InsertRegistration) : bool :=
  json_has_nul (JObj (ins_formData insertRegistration))
  || has_nul (or_string (ins_status insertRegistration) "confirmed")
  || has_nul (or_string (ins_webhookStatus insertRegistration) "not_sent")
  || has_nul (default EmptyString (ins_attendanceNotes insertRegistration)).

(** [createRegistration]: the insert throws on values the database refuses;
    the row that [returning()] gives has the form data as the [jsonb] column
    gives it back. *)
Definition createRegistration (st : Storage) (now : string)
    (insertRegistration : InsertRegistration) : Completion (Storage * Registration) :=
  if registration_refused insertRegistration
  then Throw "invalid input for the database"
  else
    let registration :=
      {| reg_id := registrations_id_seq st;
         reg_eventId := ins_eventId insertRegistration;
         reg_formData := jsonb_object (ins_formData insertRegistration);
         reg_status := Some (or_string (ins_status insertRegistration) "confirmed");
         reg_webhookStatus :=
           Some (or_string (ins_webhookStatus insertRegistration) "not_sent");
         reg_attended := Some (default false (ins_attended insertRegistration));
         reg_attendanceNotes :=
           match ins_attendanceNotes insertRegistration with
           | Some n => if truthy_string n then Some n else None
           | None => None
           end;
         reg_createdAt := now |} in
    Normal
      ({| events := events st;
          registrations := registrations st ++ [registration];
          webhooks := webhooks st;
          registrations_id_seq := registrations_id_seq st + 1 |},
       registration).

(** [update(registrations).set(u).where(eq(registrations.id, id))] *)
Definition updateRegistration (st : Storage) (id : Z) (u : RegistrationUpdate)
  : Storage :=
  {| events := events st;
     registrations :=
       map (fun r => if decide (reg_id r = id) then apply_update u r else r)
         (registrations st);
     webhooks := webhooks st;
     registrations_id_seq := registrations_id_seq st |}.

(** [where(and(eq(webhooks.active, true), events::jsonb @> [eventType]))] *)
Definition getWebhooksByEvent (st : Storage) (eventType : string) : list Webhook :=
  filter (fun w => wh_active w = Some true ∧ eventType ∈ wh_events w) (webhooks st).

(** ** Outbound requests *)

Record Request : Type := {
  req_url : string;
  req_method : string;
  req_headers : list (string * string);
  req_body : string
}.

(** How a [fetch] call ends: the promise rejects, or a response arrives with
    a status and a body that [response.text()] reads ([Some]) or fails to
    read ([None]). *)
Inductive FetchResult : Type :=
| Rejected (message : string)
| Responded (status : Z) (text : option string).

(** [response.ok] *)
Definition response_ok (status : Z) : bool := (200 <=? status) && (status <=? 299).

(** [headers[k]] on a [Record<string, string>] *)
Fixpoint header (k : string) (headers : list (string * string)) : option string :=
  match headers with
  | [] => None
  | (k', v) :: headers' => if decide (k' = k) then Some v else header k headers'
  end.

Fixpoint set_header (k v : string) (headers : list (string * string))
  : list (string * string) :=
  match headers with
  | [] => [(k, v)]
  | (k', v') :: headers' =>
      if decide (k' = k) then (k', v) :: headers' else (k', v') :: set_header k v headers'
  end.

(** What [Promise.allSettled] reports for one promise. *)
Inductive Settled (A : Type) : Type :=
| fulfilled (value : A)
| rejected (reason : string).
Arguments fulfilled {A} value.
Arguments rejected {A} reason.

Definition settle {A} (c : Completion A) : Settled A :=
  match c with
  | Normal a => fulfilled a
  | Throw e => rejected e
  end.

(** The network: how the [fetch] of a request to a subscriber ends. *)
Definition Network : Type := Webhook -> Request -> FetchResult.

(** ** HTTP replies of the endpoints *)

Inductive Body : Type :=
| Message (message : string)
| ValidationError
| RegistrationJson (registration : Registration)
| TriggerReport (message : string) (webhookStatus : option string)
| TestReport (success : bool) (statusCode : Z) (response : string)
| TestFailure (error : string).

(** What handling one request does: the storage it leaves, the reply it
    sends, and the requests it issued to subscribers. *)
Record Handled : Type := {
  storage : Storage;
  status : Z;
  body : Body;
  requests : list (Webhook * Request)
}.

(** ** Requests in flight *)

(** An [async] function: it returns, or it awaits one access to the storage
    and goes on with what the access gave.  While it waits, the server may
    serve the accesses of other requests. *)
Inductive Async (A : Type) : Type :=
| Return (a : A)
| Await (access : Storage -> Storage * Async A).
Arguments Return {A} a.
Arguments Await {A} access.

(** The function with nothing served between its awaits. *)
Fixpoint run {A} (p : Async A) (st : Storage) : Storage * A :=
  match p with
  | Return a => (st, a)
  | Await access => let '(st', p') := access st in run p' st'
  end.

(** Two requests in flight.  [schedule] tells whose access is served next,
    [true] for the first request; when it is used up the first request runs
    to its end, then the second. *)
Fixpoint interleave {A B} (schedule : list bool) (p : Async A) (q : Async B)
    (st : Storage) : Storage * A * B :=
  match schedule with
  | [] =>
      let '(st1, a) := run p st in
      let '(st2, b) := run q st1 in
      (st2, a, b)
  | true :: schedule' =>
      match p with
      | Return _ => interleave schedule' p q st
      | Await access => let '(st', p') := access st in interleave schedule' p' q st'
      end
  | false :: schedule' =>
      match q with
      | Return _ => interleave schedule' p q st
      | Await access => let '(st', q') := access st in interleave schedule' p q' st'
      end
  end.

(** What a handler answers, and the requests it issued to subscribers. *)
Definition Answer : Type := Z * Body * list (Webhook * Request).

Definition answer_status (a : Answer) : Z := a.1.1.

(** A handled request as the storage it left and the answer. *)
Definition answered (h : Handled) : Storage * Answer :=
  (storage h, (status h, body h, requests h)).

Section Pipeline.

(** [crypto.createHmac('sha256', secret).update(text).digest('hex')] *)
Variable hmac_sha256_hex : string -> string -> string.

(** [JSON.stringify] *)
Variable JSON_stringify : JsObject -> string.

(** ** The dispatcher *)

(** The headers and the body [triggerWebhooks] prepares for one webhook. *)
Definition deliveryRequest (payload : JsObject) (webhook : Webhook) : Request :=
  let headers := [("Content-Type", "application/json")] in
  let headers :=
    match wh_secret webhook with
    | Some secret =>
        if truthy_string secret
        then set_header "X-Webhook-Signature"
               (hmac_sha256_hex secret (JSON_stringify payload)) headers
        else headers
    | None => headers
    end in
  let headers := set_header "Content-Type" "application/json" headers in
  let jsonPayload := JSON_stringify payload in
  {| req_url := wh_url webhook; req_method := "POST";
     req_headers := headers; req_body := jsonPayload |}.

(** The callback of [webhooks.map]: the request it issues and the value its
    promise settles with. *)
Definition deliver (fetch : Network) (payload : JsObject) (webhook : Webhook)
  : (Webhook * Request) * Completion bool :=
  let request := deliveryRequest payload webhook in
  ((webhook, request),
   try_catch
     (match fetch webhook request with
      | Rejected message => Throw message
      | Responded status text =>
          if negb (response_ok status)
          then Throw ("Failed to send data to webhook: " +:+ decimal status)
          else match text with
               | Some result => Normal true
               | None => Throw "response.text() rejected"
               end
      end)
     (fun _ => Normal false)).

(** A delivery succeeded: the subscriber answered the request with a 2xx
    status and its response was read. *)
Definition delivered (fetch : Network) (payload : JsObject) (webhook : Webhook) : Prop :=
  exists status text,
    fetch webhook (deliveryRequest payload webhook) = Responded status (Some text) ∧
    200 <= status <= 299.

(** The signature header of a request, for the secret of its webhook: it
    is there exactly for a non-empty secret, and is then the HMAC of the
    body of that request. *)
Definition signed_with (secret : option string) (request : Request) : Prop :=
  (is_Some (header "X-Webhook-Signature" (req_headers request)) <->
   exists s, secret = Some s ∧ s ≠ EmptyString) ∧
  (forall s, secret = Some s -> s ≠ EmptyString ->
     header "X-Webhook-Signature" (req_headers request)
     = Some (hmac_sha256_hex s (req_body request))).

(** [r.status === 'fulfilled' && r.value === true] *)
Definition fulfilled_true (r : Settled bool) : bool :=
  match r with
  | fulfilled value => value
  | rejected _ => false
  end.

Definition triggerWebhooks (st : Storage) (fetch : Network) (eventType : string)
    (payload : JsObject) : list (Webhook * Request) * Completion bool :=
  let webhooks := getWebhooksByEvent st eventType in
  if (length webhooks =? 0)%nat then ([], Normal false)
  else
    let promises := map (deliver fetch payload) webhooks in
    let results := map (fun p => settle (snd p)) promises in
    (map fst promises,
     try_catch (Normal (existsb fulfilled_true results)) (fun _ => Normal false)).

(** ** [POST /api/registrations] *)

Definition reply (st : Storage) (code : Z) (b : Body) : Handled :=
  {| storage := st; status := code; body := b; requests := [] |}.

(** The handler from its insert on, on the storage it finds then. *)
Definition register (st : Storage) (now : string) (fetch : Network)
    (data : InsertRegistration) : Handled :=
  match createRegistration st now data with
  | Throw _ => reply st 500 (Message "Failed to create registration")
  | Normal (st1, registration) =>
      let eventDataForWebhook := getEvent st1 (reg_eventId registration) in
      match registrationCreatedPayload registration eventDataForWebhook with
      | Throw _ => reply st1 500 (Message "Failed to create registration")
      | Normal webhookPayload =>
          let '(sent, success) :=
            triggerWebhooks st1 fetch "registration.created" webhookPayload in
          let st2 :=
            match success with
            | Normal true =>
                updateRegistration st1 (reg_id registration) webhookStatus_sent
            | _ => st1
            end in
          {| storage := st2; status := 201;
             body := RegistrationJson registration; requests := sent |}
      end
  end.

(** The handler with no other request served between its awaits: every
    access to the storage finds what the one before left.
    [registration_handler] below is the handler with its awaits.
    [validatedData] is what [validateBody] returned, [None] for [null]. *)
Definition post_registrations (st : Storage) (now : string) (fetch : Network)
    (validatedData : option InsertRegistration) : Handled :=
  match validatedData with
  | None => reply st 400 ValidationError
  | Some data =>
      let eventId := ins_eventId data in
      match getEvent st eventId with
      | None => reply st 404 (Message "Event not found")
      | Some eventInfo =>
          let registrationCount := getEventRegistrationCount st eventId in
          if bool_decide (registrationCount >= ev_capacity eventInfo)
          then reply st 400 (Message "Event is at full capacity")
          else register st now fetch data
      end
  end.

(** The handler of [POST /api/registrations] with its awaits, from the
    insert on: the insert, the read of the event, the lookup of the
    subscribers inside [triggerWebhooks], and the update of the webhook
    status. *)
Definition registration_insert (now : string) (fetch : Network)
    (data : InsertRegistration) : Async Answer :=
  Await (fun st =>
    match createRegistration st now data with
    | Throw _ => (st, Return (500, Message "Failed to create registration", []))
    | Normal (st1, registration) =>
        (st1,
         Await (fun st => (st,
           let eventDataForWebhook := getEvent st (reg_eventId registration) in
           match registrationCreatedPayload registration eventDataForWebhook with
           | Throw _ => Return (500, Message "Failed to create registration", [])
           | Normal webhookPayload =>
               Await (fun st => (st,
                 let '(sent, success) :=
                   triggerWebhooks st fetch "registration.created" webhookPayload in
                 match success with
                 | Normal true =>
                     Await (fun st =>
                       (updateRegistration st (reg_id registration)
                          webhookStatus_sent,
                        Return (201, RegistrationJson registration, sent)))
                 | _ => Return (201, RegistrationJson registration, sent)
                 end))
           end)))
    end).

(** The whole handler: the two reads of the capacity check come before the
    insert, each behind an await of its own. *)
Definition registration_handler (now : string) (fetch : Network)
    (validatedData : option InsertRegistration) : Async Answer :=
  match validatedData with
  | None => Return (400, ValidationError, [])
  | Some data =>
      let eventId := ins_eventId data in
      Await (fun st => (st,
        match getEvent st eventId with
        | None => Return (404, Message "Event not found", [])
        | Some eventInfo =>
            Await (fun st => (st,
              let registrationCount := getEventRegistrationCount st eventId in
              if bool_decide (registrationCount >= ev_capacity eventInfo)
              then Return (400, Message "Event is at full capacity", [])
              else registration_insert now fetch data))
        end))
  end.

(** ** [POST /api/registrations/:id/webhook] *)

(** [id] is [parseInt(req.params.id)], [None] for [NaN]. *)
Definition post_registration_webhook (st : Storage) (now : string) (fetch : Network)
    (id : option Z) : Handled :=
  match id with
  | None => reply st 400 (Message "Invalid registration ID")
  | Some id =>
      match getRegistration st id with
      | None => reply st 404 (Message "Registration not found")
      | Some registration =>
          match getEvent st (reg_eventId registration) with
          | None => reply st 404 (Message "Associated event not found")
          | Some eventDetails =>
              match manualTriggerPayload registration eventDetails now with
              | Throw _ => reply st 500 (Message "Failed to process webhook")
              | Normal webhookPayload =>
                  let '(sent, success) :=
                    triggerWebhooks st fetch "registration.created" webhookPayload in
                  match success with
                  | Normal true =>
                      {| storage := updateRegistration st id webhookStatus_sent;
                         status := 200;
                         body := TriggerReport "Webhook triggered successfully"
                                   (Some "sent");
                         requests := sent |}
                  | Normal false =>
                      {| storage := st; status := 200;
                         body := TriggerReport "No webhooks were triggered"
                                   (reg_webhookStatus registration);
                         requests := sent |}
                  | Throw _ =>
                      {| storage := st; status := 500;
                         body := Message "Failed to trigger webhook";
                         requests := sent |}
                  end
              end
          end
      end
  end.

(** ** [POST /api/webhooks/test] *)

(** The own enumerable properties a spread [...data] copies. *)
Definition own_entries (v : JsValue) : JsObject :=
  match v with
  | JObj props => props
  | JArr items => imap (fun i x => (decimal (Z.of_nat i), x)) items
  | JStr s =>
      imap (fun i c => (decimal (Z.of_nat i), JStr (String c EmptyString)))
        (list_ascii_of_string s)
  | _ => []
  end.

Definition spread (v : JsValue) (o : JsObject) : JsObject :=
  fold_left (fun o' kv => JsObject.put (fst kv) (snd kv) o') (own_entries v) o.

Definition falsy (v : option JsValue) : bool :=
  match v with
  | Some x => negb (truthy x)
  | None => true
  end.

(** The fields of [req.body]; [None] is a missing field. *)
Record TestBody : Type := {
  webhookId : Z;
  eventType : option JsValue;
  data : option JsValue
}.

(** The headers and the body the endpoint prepares. *)
Definition testRequest (payload : JsObject) (webhook : Webhook) : Request :=
  let headers := [("Content-Type", "application/json")] in
  let headers :=
    match wh_secret webhook with
    | Some secret =>
        if truthy_string secret
        then set_header "X-Webhook-Signature"
               (hmac_sha256_hex secret (JSON_stringify payload)) headers
        else headers
    | None => headers
    end in
  {| req_url := wh_url webhook; req_method := "POST";
     req_headers := headers; req_body := JSON_stringify payload |}.

Definition post_webhooks_test (st : Storage) (now : string) (fetch : Network)
    (b : TestBody) : Handled :=
  if (webhookId b =? 0) || falsy (eventType b) || falsy (data b)
  then reply st 400 (Message "Missing required fields: webhookId, eventType, data")
  else
    match getWebhook st (webhookId b) with
    | None => reply st 404 (Message "Webhook not found")
    | Some webhook =>
        if negb (bool_decide (wh_active webhook = Some true))
        then reply st 400 (Message "Cannot test inactive webhook")
        else
          let payload :=
            spread (default JNull (data b))
              [ ("event_type", default JNull (eventType b));
                ("test", JBool true);
                ("timestamp", JStr now) ] in
          let request := testRequest payload webhook in
          match fetch webhook request with
          | Responded statusCode text =>
              let responseText := default "Unable to read response" text in
              {| storage := st; status := 200;
                 body := TestReport (response_ok statusCode) statusCode
                           (String.substring 0 1000 responseText);
                 requests := [(webhook, request)] |}
          | Rejected message =>
              {| storage := st; status := 400;
                 body := TestFailure
                           ("Failed to send webhook: " +:+
                            (if truthy_string message then message else "Unknown error"));
                 requests := [(webhook, request)] |}
          end
    end.

End Pipeline.

(** ** Well-formed storage and sample data *)

(** The identifiers in use lie below the next value of the sequence. *)
Definition fresh_ids (st : Storage) : Prop :=
  Forall (fun r => reg_id r < registrations_id_seq st) (registrations st).

(** What the event keys of the payload hold when the event is missing. *)
Definition event_defaults : JsObject :=
  [ ("event_title", JStr "Unknown Event");
    ("event_description", JStr "");
    ("event_date", JStr "");
    ("event_location", JStr "");
    ("event_start_time", JStr "");
    ("event_end_time", JStr "");
    ("event_capacity", JNum 0) ].

(** Stand-ins for the HMAC and for [JSON.stringify] in the examples. *)
Definition sample_hmac (secret text : string) : string :=
  "hmac(" +:+ secret +:+ "," +:+ text +:+ ")".

Definition sample_stringify (o : JsObject) : string :=
  "{" +:+ JsString.join "," (map (fun kv => kv.1 +:+ ":" +:+ js_String kv.2) o) +:+ "}".

(** A network on which every subscriber answers 200. *)
Definition all_ok : Network := fun _ _ => Responded 200 (Some "ok").

(** A network on which every subscriber answers 500. *)
Definition all_failing : Network := fun _ _ => Responded 500 (Some "error").

Definition launch : Event :=
  {| ev_id := 1; ev_title := "Launch"; ev_description := None;
     ev_date := "2025-01-01"; ev_startTime := None; ev_endTime := None;
     ev_location := None; ev_capacity := 2; ev_formId := None;
     ev_createdAt := "2024-12-01T00:00:00.000Z" |}.

Definition zapier_hook : Webhook :=
  {| wh_id := 1; wh_name := "zapier"; wh_url := "https://hooks.example/a";
     wh_secret := Some "s3cr3t"; wh_events := ["registration.created"];
     wh_active := Some true; wh_createdAt := "2024-12-01T00:00:00.000Z" |}.

Definition events_only_hook : Webhook :=
  {| wh_id := 2; wh_name := "events"; wh_url := "https://hooks.example/b";
     wh_secret := Some "s3cr3t"; wh_events := ["event.created"];
     wh_active := Some true; wh_createdAt := "2024-12-01T00:00:00.000Z" |}.

Definition unsigned_hook : Webhook :=
  {| wh_id := 3; wh_name := "plain"; wh_url := "https://hooks.example/c";
     wh_secret := None; wh_events := ["registration.created"];
     wh_active := Some true; wh_createdAt := "2024-12-01T00:00:00.000Z" |}.

Definition sample_storage : Storage :=
  {| events := [launch]; registrations := [];
     webhooks := [zapier_hook; events_only_hook; unsigned_hook];
     registrations_id_seq := 1 |}.

Definition submission (formData : JsObject) : InsertRegistration :=
  {| ins_eventId := 1; ins_formData := formData; ins_status := None;
     ins_webhookStatus := None; ins_attended := None; ins_attendanceNotes := None |}.

Definition ada_form : JsObject :=
  [ ("4a2b99cf72444e938f292e02c6845960", JStr "Ada");
    ("5a2aa2108c3d485e878b0c8dceb0f9bc", JStr "ada@x.com") ].

Definition sample_registration (formData : JsObject) : Registration :=
  {| reg_id := 7; reg_eventId := 1; reg_formData := formData;
     reg_status := Some "confirmed"; reg_webhookStatus := Some "not_sent";
     reg_attended := Some false; reg_attendanceNotes := None;
     reg_createdAt := "2025-01-01T10:00:00.000Z" |}.

(** The storage after two registrations for [launch]. *)
Definition full_storage : Storage :=
  let once :=
    storage (post_registrations sample_hmac sample_stringify sample_storage
               "2025-01-01T10:00:00.000Z" all_ok (Some (submission ada_form))) in
  storage (post_registrations sample_hmac sample_stringify once
             "2025-01-01T10:05:00.000Z" all_ok (Some (submission ada_form))).

(** ** Proof automation *)

(** Closes the cases of a statement about the signature header once the
    secret is known to be absent, empty or non-empty. *)
Ltac signed_cases :=
  repeat split; eauto;
  first [ done
        | by intros [? ?]
        | by intros (? & [= <-] & ?)
        | by intros (? & ? & ?)
        | by intros ? [= <-] ].


(** ** Attendance: the participant's name *)

(** [fieldLabel === l] on the lookup of [extractStandardFields], which has
    no fallback to the key. *)
Definition found_label (p : option Property) (l : string) : bool :=
  match p with
  | Some q => is_label q l
  | None => false
  end.

(** [extractStandardFields]: the callback of its loop, then the loop. *)
Definition standardField (c : Contact) (entry : string * JsValue) : Contact :=
  let '(key, value) := entry in
  let label := lookupLabel key in
  if found_label label "First Name"
  then {| firstName := js_String value; lastName := lastName c; email := email c |}
  else if found_label label "Last Name"
  then {| firstName := firstName c; lastName := js_String value; email := email c |}
  else if found_label label "Email"
  then {| firstName := firstName c; lastName := lastName c; email := js_String value |}
  else c.

Definition extractStandardFields (formData : JsObject) : Contact :=
  fold_left standardField formData
    {| firstName := EmptyString; lastName := EmptyString; email := EmptyString |}.

(** The test of the [for] loop of [extractParticipantName] on one entry. *)
Definition name_like (entry : string * JsValue) : option string :=
  let '(key, value) := entry in
  let k := JsString.toLowerCase key in
  match value with
  | JStr s =>
      if JsString.includes k "name" || bool_decide (k = "fullname")
         || bool_decide (k = "full_name") || bool_decide (k = "participant")
      then Some s else None
  | _ => None
  end.

(** [[firstName, lastName].filter(Boolean).join(' ')] *)
Definition join_truthy (parts : list string) : string :=
  JsString.join " " (filter (fun s => truthy_string s = true) parts).

(** [extractParticipantName] on form data that is an object. *)
Definition extractParticipantName (formData : JsObject) : string :=
  let c := extractStandardFields formData in
  if truthy_string (firstName c) || truthy_string (lastName c)
  then join_truthy [firstName c; lastName c]
  else default "Unknown Participant" (head (omap name_like formData)).

(** ** The rest of the storage *)

(** [InsertEvent] *)
Record InsertEvent : Type := {
  ie_title : string;
  ie_description : option string;
  ie_date : string;
  ie_startTime : option string;
  ie_endTime : option string;
  ie_location : option string;
  ie_capacity : Z;
  ie_formId : option Z
}.

(** The object handed to [update(events).set]: [None] is a key that is not
    there.  [Partial<InsertEvent>] has no [id] and no [createdAt]; the spread
    [{ ...event }] of the link endpoint has them. *)
Record EventUpdate : Type := {
  eu_id : option Z;
  eu_title : option string;
  eu_description : option (option string);
  eu_date : option string;
  eu_startTime : option (option string);
  eu_endTime : option (option string);
  eu_location : option (option string);
  eu_capacity : option Z;
  eu_formId : option (option Z);
  eu_createdAt : option string
}.

(** [InsertWebhook] *)
Record InsertWebhook : Type := {
  iw_name : string;
  iw_url : string;
  iw_secret : option string;
  iw_events : list string;
  iw_active : option bool
}.

(** [Partial<InsertWebhook>] *)
Record WebhookUpdate : Type := {
  wu_name : option string;
  wu_url : option string;
  wu_secret : option (option string);
  wu_events : option (list string);
  wu_active : option (option bool)
}.

(** [x || null] *)
Definition or_null (x : option string) : option string :=
  match x with
  | Some s => if truthy_string s then Some s else None
  | None => None
  end.

Definition with_events (st : Storage) (evs : list Event) : Storage :=
  {| events := evs; registrations := registrations st; webhooks := webhooks st;
     registrations_id_seq := registrations_id_seq st |}.

Definition with_registrations (st : Storage) (rs : list Registration) : Storage :=
  {| events := events st; registrations := rs; webhooks := webhooks st;
     registrations_id_seq := registrations_id_seq st |}.

Definition with_webhooks (st : Storage) (ws : list Webhook) : Storage :=
  {| events := events st; registrations := registrations st; webhooks := ws;
     registrations_id_seq := registrations_id_seq st |}.

(** The values [createEvent] hands to the insert hold a code unit 0: the
    database refuses them. *)
Definition event_refused (insertEvent : InsertEvent) : bool :=
  has_nul (ie_title insertEvent)
  || has_nul (default EmptyString (ie_description insertEvent))
  || has_nul (ie_date insertEvent)
  || has_nul (default EmptyString (ie_startTime insertEvent))
  || has_nul (default EmptyString (ie_endTime insertEvent))
  || has_nul (default EmptyString (ie_location insertEvent)).

(** [createEvent]; [id] is the value the database gives the serial column.
    The insert throws on values the database refuses.  The row never has a
    form: [formId: null]. *)
Definition createEvent (st : Storage) (id : Z) (now : string)
    (insertEvent : InsertEvent) : Completion (Storage * Event) :=
  if event_refused insertEvent then Throw "invalid input for the database"
  else
    let event :=
      {| ev_id := id;
         ev_title := ie_title insertEvent;
         ev_description := or_null (ie_description insertEvent);
         ev_date := ie_date insertEvent;
         ev_startTime := or_null (ie_startTime insertEvent);
         ev_endTime := or_null (ie_endTime insertEvent);
         ev_location := or_null (ie_location insertEvent);
         ev_capacity := ie_capacity insertEvent;
         ev_formId := None;
         ev_createdAt := now |} in
    Normal (with_events st (events st ++ [event]), event).

Definition no_event_values (u : EventUpdate) : bool :=
  match u with
  | {| eu_id := None; eu_title := None; eu_description := None; eu_date := None;
       eu_startTime := None; eu_endTime := None; eu_location := None;
       eu_capacity := None; eu_formId := None; eu_createdAt := None |} => true
  | _ => false
  end.

Definition apply_event_update (u : EventUpdate) (e : Event) : Event :=
  {| ev_id := default (ev_id e) (eu_id u);
     ev_title := default (ev_title e) (eu_title u);
     ev_description := default (ev_description e) (eu_description u);
     ev_date := default (ev_date e) (eu_date u);
     ev_startTime := default (ev_startTime e) (eu_startTime u);
     ev_endTime := default (ev_endTime e) (eu_endTime u);
     ev_location := default (ev_location e) (eu_location u);
     ev_capacity := default (ev_capacity e) (eu_capacity u);
     ev_formId := default (ev_formId e) (eu_formId u);
     ev_createdAt := default (ev_createdAt e) (eu_createdAt u) |}.

(** [updateEvent]: the storage it leaves and the first row that
    [returning()] gives.  The [set] of the query builder throws on an object
    without values. *)
Definition updateEvent (st : Storage) (id : Z) (eventUpdate : EventUpdate)
  : Completion (Storage * option Event) :=
  if no_event_values eventUpdate then Throw "No values to set"
  else
    Normal
      (with_events st
         (map (fun e => if decide (ev_id e = id) then apply_event_update eventUpdate e
                        else e) (events st)),
       head (map (apply_event_update eventUpdate)
               (filter (fun e => ev_id e = id) (events st)))).

(** [deleteEvent]: [rowCount > 0] *)
Definition deleteEvent (st : Storage) (id : Z) : Storage * bool :=
  (with_events st (filter (fun e => ev_id e ≠ id) (events st)),
   bool_decide (filter (fun e => ev_id e = id) (events st) ≠ [])).

Definition getRegistrationsByEvent (st : Storage) (eventId : Z) : list Registration :=
  filter (fun r => reg_eventId r = eventId) (registrations st).

Definition deleteRegistration (st : Storage) (id : Z) : Storage * bool :=
  (with_registrations st (filter (fun r => reg_id r ≠ id) (registrations st)),
   bool_decide (filter (fun r => reg_id r = id) (registrations st) ≠ [])).

(** [createWebhook]; [id] is the value the database gives the serial
    column. *)
Definition createWebhook (st : Storage) (id : Z) (now : string)
    (insertWebhook : InsertWebhook) : Storage * Webhook :=
  let webhook :=
    {| wh_id := id;
       wh_name := iw_name insertWebhook;
       wh_url := iw_url insertWebhook;
       wh_secret := or_null (iw_secret insertWebhook);
       wh_events := iw_events insertWebhook;
       wh_active := Some (default true (iw_active insertWebhook));
       wh_createdAt := now |} in
  (with_webhooks st (webhooks st ++ [webhook]), webhook).

Definition no_webhook_values (u : WebhookUpdate) : bool :=
  match u with
  | {| wu_name := None; wu_url := None; wu_secret := None; wu_events := None;
       wu_active := None |} => true
  | _ => false
  end.

Definition apply_webhook_update (u : WebhookUpdate) (w : Webhook) : Webhook :=
  {| wh_id := wh_id w;
     wh_name := default (wh_name w) (wu_name u);
     wh_url := default (wh_url w) (wu_url u);
     wh_secret := default (wh_secret w) (wu_secret u);
     wh_events := default (wh_events w) (wu_events u);
     wh_active := default (wh_active w) (wu_active u);
     wh_createdAt := wh_createdAt w |}.

Definition updateWebhook (st : Storage) (id : Z) (webhookUpdate : WebhookUpdate)
  : Completion (Storage * option Webhook) :=
  if no_webhook_values webhookUpdate then Throw "No values to set"
  else
    Normal
      (with_webhooks st
         (map (fun w => if decide (wh_id w = id)
                        then apply_webhook_update webhookUpdate w else w)
            (webhooks st)),
       head (map (apply_webhook_update webhookUpdate)
               (filter (fun w => wh_id w = id) (webhooks st)))).

Definition deleteWebhook (st : Storage) (id : Z) : Storage * bool :=
  (with_webhooks st (filter (fun w => wh_id w ≠ id) (webhooks st)),
   bool_decide (filter (fun w => wh_id w = id) (webhooks st) ≠ [])).

(** [updateRegistration] as the endpoints call it with a request body: the
    [set] throws on an object without values, and the update on values the
    database refuses; the row is the first that [returning()] gives. *)
Definition no_registration_values (u : RegistrationUpdate) : bool :=
  match u with
  | {| upd_eventId := None; upd_formData := None; upd_status := None;
       upd_webhookStatus := None; upd_attended := None;
       upd_attendanceNotes := None |} => true
  | _ => false
  end.

(** The values of an update hold a code unit 0. *)
Definition update_refused (u : RegistrationUpdate) : bool :=
  json_has_nul (JObj (default [] (upd_formData u)))
  || has_nul (default EmptyString (default None (upd_status u)))
  || has_nul (default EmptyString (default None (upd_webhookStatus u)))
  || has_nul (default EmptyString (default None (upd_attendanceNotes u))).

Definition updateRegistrationRow (st : Storage) (id : Z) (u : RegistrationUpdate)
  : Completion (Storage * option Registration) :=
  if no_registration_values u then Throw "No values to set"
  else if update_refused u then Throw "invalid input for the database"
  else
    Normal (updateRegistration st id u,
            getRegistration (updateRegistration st id u) id).

(** [getEventWithRegistrationCount] *)
Definition getEventWithRegistrationCount (st : Storage) (id : Z) : option (Event * Z) :=
  match getEvent st id with
  | Some event => Some (event, getEventRegistrationCount st id)
  | None => None
  end.

(** ** Replies with a JSON body *)

Record Replied : Type := {
  reply_storage : Storage;
  reply_code : Z;
  reply_json : JsValue;
  reply_requests : list (Webhook * Request)
}.

Definition message_json (m : string) : JsValue := JObj [("message", JStr m)].

Definition replied (st : Storage) (code : Z) (m : string) : Replied :=
  {| reply_storage := st; reply_code := code; reply_json := message_json m;
     reply_requests := [] |}.

Definition nullable_bool (x : option bool) : JsValue :=
  match x with Some b => JBool b | None => JNull end.

Definition nullable_num (x : option Z) : JsValue :=
  match x with Some n => JNum n | None => JNull end.

(** The rows as [res.json] and [JSON.stringify] see them. *)
Definition event_json (e : Event) : JsObject :=
  [ ("id", JNum (ev_id e));
    ("title", JStr (ev_title e));
    ("description", nullable (ev_description e));
    ("date", JStr (ev_date e));
    ("startTime", nullable (ev_startTime e));
    ("endTime", nullable (ev_endTime e));
    ("location", nullable (ev_location e));
    ("capacity", JNum (ev_capacity e));
    ("formId", nullable_num (ev_formId e));
    ("createdAt", JStr (ev_createdAt e)) ].

Definition registration_json (r : Registration) : JsObject :=
  [ ("id", JNum (reg_id r));
    ("eventId", JNum (reg_eventId r));
    ("formData", JObj (reg_formData r));
    ("status", nullable (reg_status r));
    ("webhookStatus", nullable (reg_webhookStatus r));
    ("attended", nullable_bool (reg_attended r));
    ("attendanceNotes", nullable (reg_attendanceNotes r));
    ("createdAt", JStr (reg_createdAt r)) ].

(** ** The event-type pattern of [POST /api/webhooks/trigger] *)

Definition is_lower (c : ascii) : bool := JsString.between 97 122 (JsString.code c).

(** [[a-z]+$] *)
Fixpoint lower_to_end (s : string) : bool :=
  match s with
  | EmptyString => false
  | String c EmptyString => is_lower c
  | String c s' => is_lower c && lower_to_end s'
  end.

(** [[a-z]*\.[a-z]+$], after [seen] told whether a letter came before *)
Fixpoint lower_dot_lower (seen : bool) (s : string) : bool :=
  match s with
  | EmptyString => false
  | String c s' =>
      if is_lower c then lower_dot_lower true s'
      else if Ascii.eqb c "."%char then seen && lower_to_end s'
      else false
  end.

(** [s.match(/^[a-z]+\.[a-z]+$/)] is not [null] *)
Definition event_type_matches (s : string) : bool := lower_dot_lower false s.

(** [typeof v === 'object'] for a value that is not [null] *)
Definition is_object (v : JsValue) : bool :=
  match v with
  | JObj _ | JArr _ => true
  | _ => false
  end.

(** [requireAuth]: [req.session && req.session.userId] *)
Definition requireAuth (userId : option Z) : bool :=
  match userId with
  | Some n => negb (n =? 0)
  | None => false
  end.

(** A row of [forms]. *)
Record Form : Type := {
  form_id : Z;
  form_title : string;
  form_description : option string;
  form_fields : JsValue;
  form_successMessage : option string;
  form_showRemainingSpots : option bool;
  form_enableWaitlist : option bool;
  form_requireAllFields : option bool;
  form_themeColor : option string;
  form_buttonStyle : option string;
  form_createdAt : string
}.

Definition getForm (forms : list Form) (id : Z) : option Form :=
  head (filter (fun f => form_id f = id) forms).

(** [{ ...event }] *)
Definition event_as_update (e : Event) : EventUpdate :=
  {| eu_id := Some (ev_id e);
     eu_title := Some (ev_title e);
     eu_description := Some (ev_description e);
     eu_date := Some (ev_date e);
     eu_startTime := Some (ev_startTime e);
     eu_endTime := Some (ev_endTime e);
     eu_location := Some (ev_location e);
     eu_capacity := Some (ev_capacity e);
     eu_formId := Some (ev_formId e);
     eu_createdAt := Some (ev_createdAt e) |}.

(** [POST /api/events/:eventId/form/:formId]; the identifiers are what
    [parseInt] gave, [None] for [NaN]. *)
Definition post_event_form (st : Storage) (forms : list Form) (userId : option Z)
    (eventId formId : option Z) : Replied :=
  if negb (requireAuth userId) then replied st 401 "Authentication required"
  else
    match eventId, formId with
    | Some eventId, Some formId =>
        match getEvent st eventId with
        | None => replied st 404 "Event not found"
        | Some event =>
            match getForm forms formId with
            | None => replied st 404 "Form not found"
            | Some form =>
                match updateEvent st eventId (event_as_update event) with
                | Normal (st', updatedEvent) =>
                    {| reply_storage := st'; reply_code := 200;
                       reply_json :=
                         match updatedEvent with
                         | Some e => JObj (event_json e)
                         | None => JNull
                         end;
                       reply_requests := [] |}
                | Throw _ => replied st 500 "Failed to link form to event"
                end
            end
        end
    | _, _ => replied st 400 "Invalid ID parameters"
    end.

(** [max(0, capacity - registrationCount)] *)
Definition available_spots (capacity registrationCount : Z) : Z :=
  Z.max 0 (capacity - registrationCount).

(** [!location || location.toLowerCase() === "online"] *)
Definition is_online (location : option string) : bool :=
  match location with
  | Some l =>
      negb (truthy_string l) || bool_decide (JsString.toLowerCase l = "online")
  | None => true
  end.

(** What [validateBody] does with a body: it returns the parsed data, or
    it answers 400 with a JSON body of its own and returns [null]. *)
Inductive Validated (A : Type) : Type :=
| Accepted (data : A)
| Refused (answer : JsValue).
Arguments Accepted {A} data.
Arguments Refused {A} answer.

(** The body of [PATCH /api/registrations/:id], as the handler reads it:
    what [validateBody] made of it, and ['attended' in req.body]. *)
Record PatchBody : Type := {
  patch_validated : Validated RegistrationUpdate;
  patch_has_attended : bool
}.

Section Endpoints.

Variable hmac_sha256_hex : string -> string -> string.
Variable JSON_stringify : JsObject -> string.

Local Abbreviation triggerWebhooks := (triggerWebhooks hmac_sha256_hex JSON_stringify).

(** ** [PATCH /api/registrations/:id] *)

Definition attendancePayload (event : Event) (registration : Registration)
    (now : string) : JsObject :=
  [ ("event_id", JNum (ev_id event));
    ("event_title", JStr (ev_title event));
    ("registration_id", JNum (reg_id registration));
    ("participant_name", JStr (extractParticipantName (reg_formData registration)));
    ("attended", nullable_bool (reg_attended registration));
    ("attendance_notes", JStr (or_string (reg_attendanceNotes registration) ""));
    ("updated_at", JStr now) ].

Definition patch_registration (st : Storage) (now : string) (fetch : Network)
    (id : option Z) (b : PatchBody) : Replied :=
  match patch_validated b with
  | Refused answer =>
      {| reply_storage := st; reply_code := 400;
         reply_json := answer; reply_requests := [] |}
  | Accepted validatedData =>
      match id with
      | None => replied st 400 "Invalid registration ID"
      | Some id =>
          match updateRegistrationRow st id validatedData with
          | Throw _ => replied st 500 "Failed to update registration"
          | Normal (st', None) => replied st' 404 "Registration not found"
          | Normal (st', Some registration) =>
              let sent :=
                if patch_has_attended b
                then match getEvent st' (reg_eventId registration) with
                     | Some event =>
                         (triggerWebhooks st' fetch "attendance.updated"
                            (attendancePayload event registration now)).1
                     | None => []
                     end
                else [] in
              {| reply_storage := st'; reply_code := 200;
                 reply_json := JObj (registration_json registration);
                 reply_requests := sent |}
          end
      end
  end.

(** ** [POST /api/webhooks/trigger] *)

Definition enrich (data : JsValue) (now : string) : JsObject :=
  JsObject.put "manual_trigger" (JBool true)
    (JsObject.put "triggered_at" (JStr now) (spread data [])).

Definition post_webhooks_trigger (st : Storage) (now : string) (fetch : Network)
    (eventType data : option JsValue) : Replied :=
  if falsy eventType then replied st 400 "Invalid event type"
  else
    match eventType with
    | Some (JStr eventType) =>
        if negb (event_type_matches eventType)
        then replied st 400 "Invalid event type"
        else if falsy data || negb (is_object (default JNull data))
        then replied st 400 "Invalid payload data"
        else
          let enrichedData := enrich (default JNull data) now in
          let '(sent, success) := triggerWebhooks st fetch eventType enrichedData in
          {| reply_storage := st;
             reply_code := match success with Throw _ => 500 | Normal _ => 200 end;
             reply_json :=
               message_json
                 match success with
                 | Normal true => "Webhook triggered successfully"
                 | Normal false => "No webhooks were triggered"
                 | Throw _ => "Failed to trigger webhook"
                 end;
             reply_requests := sent |}
    | _ =>
        (* [eventType.match] is not a function *)
        replied st 500 "Failed to trigger webhook"
    end.

(** ** [POST /api/webhooks/test-event] *)

Definition eventCreatedPayload (event : Event) (registrationCount : Z)
    (origin now : string) : JsObject :=
  [ ("id", JNum (ev_id event));
    ("title", JStr (ev_title event));
    ("description", nullable (ev_description event));
    ("date", JStr (ev_date event));
    ("location", nullable (ev_location event));
    ("is_online", JBool (is_online (ev_location event)));
    ("capacity", JNum (ev_capacity event));
    ("registrations_count", JNum registrationCount);
    ("available_spots", JNum (available_spots (ev_capacity event) registrationCount));
    ("event_url", JStr (origin +:+ "/events/" +:+ decimal (ev_id event)));
    ("created_at", JStr now);
    ("start_time", nullable (or_null (ev_startTime event)));
    ("end_time", nullable (or_null (ev_endTime event))) ].

(** [eventId] is the number in the body, [0] when it is missing; [origin] is
    [req.protocol + "://" + req.get('host')]. *)
Definition post_webhooks_test_event (st : Storage) (now : string) (fetch : Network)
    (origin : string) (eventId : Z) : Replied :=
  if eventId =? 0 then replied st 400 "Missing eventId in request body"
  else
    match getEventWithRegistrationCount st eventId with
    | None => replied st 404 "Event not found"
    | Some (event, registrationCount) =>
        let '(sent, _) :=
          triggerWebhooks st fetch "event.created"
            (eventCreatedPayload event registrationCount origin now) in
        {| reply_storage := st; reply_code := 200;
           reply_json :=
             JObj [ ("success", JBool true);
                    ("message", JStr "Event webhook triggered successfully") ];
           reply_requests := sent |}
    end.

(** ** [POST /api/events] *)

(** [validatedData] is what [validateBody] made of the body; [id] is the
    value the database gives the new row. *)
Definition post_events (st : Storage) (id : Z) (now : string) (fetch : Network)
    (userId : option Z) (validatedData : Validated InsertEvent) : Replied :=
  if negb (requireAuth userId) then replied st 401 "Authentication required"
  else
    match validatedData with
    | Refused answer =>
        {| reply_storage := st; reply_code := 400;
           reply_json := answer; reply_requests := [] |}
    | Accepted data =>
        match createEvent st id now data with
        | Throw _ => replied st 500 "Failed to create event"
        | Normal (st', event) =>
            let '(sent, _) :=
              triggerWebhooks st' fetch "event.created" (event_json event) in
            {| reply_storage := st'; reply_code := 201;
               reply_json := JObj (event_json event); reply_requests := sent |}
        end
    end.

(** ** [validateZapierSignature] *)

Inductive Verdict : Type :=
| next
| unauthorized.

(** [signature] is the header [x-webhook-signature]; [webhookId] is
    [parseInt(req.params.id)], [None] for [NaN], for which the query fails
    and the [catch] calls [next]. *)
Definition validateZapierSignature (st : Storage) (signature : option string)
    (webhookId : option Z) (body : JsObject) : Verdict :=
  if negb (truthy_string (default EmptyString signature)) then next
  else
    match webhookId ≫= getWebhook st with
    | None => next
    | Some webhook =>
        match wh_secret webhook with
        | None => next
        | Some secret =>
            if negb (truthy_string secret) then next
            else
              let payload := JSON_stringify body in
              let expectedSignature := hmac_sha256_hex secret payload in
              if bool_decide (default EmptyString signature = expectedSignature)
              then next else unauthorized
        end
    end.

(** ** [handleTriggerWebhook] of the registration table *)

(** The two requests the handler sends to the server, and whether it shows
    success: the manual trigger, then, when that answered with a 2xx status,
    a [PATCH] with the body [{ webhookStatus: 'sent' }]. *)
Definition handleTriggerWebhook (st : Storage) (now : string) (fetch : Network)
    (registrationId : Z) : Storage * bool :=
  let response :=
    post_registration_webhook hmac_sha256_hex JSON_stringify st now fetch
      (Some registrationId) in
  if negb (response_ok (status response)) then (storage response, false)
  else
    let patched :=
      patch_registration (storage response) now fetch (Some registrationId)
        {| patch_validated := Accepted webhookStatus_sent;
           patch_has_attended := false |} in
    (reply_storage patched, true).

End Endpoints.

(** ** Users *)

Record User : Type := {
  user_id : Z;
  user_username : string;
  user_password : string;
  user_password_hash : option string;
  user_uuid : option string;
  user_email : option string;
  user_role : option string;
  user_parent_id : option string;
  user_active : option bool;
  user_last_login : option string;
  user_created_at : option string
}.

(** [InsertUser] *)
Record InsertUser : Type := {
  iu_username : string;
  iu_password : string;
  iu_email : option string;
  iu_role : option string
}.

(** [Partial<InsertUser>] *)
Record UserUpdate : Type := {
  uu_username : option string;
  uu_password : option string;
  uu_email : option (option string);
  uu_role : option (option string)
}.

Definition getUser (users : list User) (id : Z) : option User :=
  head (filter (fun u => user_id u = id) users).

Definition getUserByUsername (users : list User) (username : string) : option User :=
  head (filter (fun u => user_username u = username) users).

Section Credentials.

(** [bcrypt.hash(password, 10)], by the salt it draws, and
    [bcrypt.compare(password, hash)]. *)
Variable bcrypt_hash : string -> string -> string.
Variable bcrypt_compare : string -> string -> bool.

(** [createUser]; [id] and [now] are what the database gives the serial
    column and [created_at].  The column [username] is unique. *)
Definition createUser (users : list User) (id : Z) (now salt : string)
    (insertUser : InsertUser) : Completion (list User * User) :=
  let hashedPassword := bcrypt_hash salt (iu_password insertUser) in
  match getUserByUsername users (iu_username insertUser) with
  | Some _ => Throw "duplicate key value violates unique constraint"
  | None =>
      let user :=
        {| user_id := id;
           user_username := iu_username insertUser;
           user_password := iu_password insertUser;
           user_password_hash := Some hashedPassword;
           user_uuid := None;
           user_email := iu_email insertUser;
           user_role := iu_role insertUser;
           user_parent_id := None;
           user_active := Some true;
           user_last_login := None;
           user_created_at := Some now |} in
      Normal ((users ++ [user])%list, user)
  end.

(** What [set] receives in [updateUser]: with a password, the updates
    without their password and with its hash; else the updates. *)
Definition apply_user_update (salt : string) (updates : UserUpdate) (u : User) : User :=
  let with_password := truthy_string (default EmptyString (uu_password updates)) in
  {| user_id := user_id u;
     user_username := default (user_username u) (uu_username updates);
     user_password :=
       if with_password then user_password u
       else default (user_password u) (uu_password updates);
     user_password_hash :=
       if with_password
       then Some (bcrypt_hash salt (default EmptyString (uu_password updates)))
       else user_password_hash u;
     user_uuid := user_uuid u;
     user_email := default (user_email u) (uu_email updates);
     user_role := default (user_role u) (uu_role updates);
     user_parent_id := user_parent_id u;
     user_active := user_active u;
     user_last_login := user_last_login u;
     user_created_at := user_created_at u |}.

Definition no_user_values (u : UserUpdate) : bool :=
  match u with
  | {| uu_username := None; uu_password := None; uu_email := None; uu_role := None |} =>
      true
  | _ => false
  end.

Definition updateUser (users : list User) (id : Z) (salt : string)
    (updates : UserUpdate) : Completion (list User * option User) :=
  if no_user_values updates then Throw "No values to set"
  else
    let taken :=
      match uu_username updates with
      | Some name =>
          bool_decide
            (filter (fun u => user_id u = id) users ≠ [] ∧
             filter (fun u => user_username u = name ∧ user_id u ≠ id) users ≠ [])
      | None => false
      end in
    if taken then Throw "duplicate key value violates unique constraint"
    else
      Normal
        (map (fun u => if decide (user_id u = id)
                       then apply_user_update salt updates u else u) users,
         head (map (apply_user_update salt updates)
                 (filter (fun u => user_id u = id) users))).

Definition verifyUserCredentials (users : list User) (username password : string)
  : option User :=
  match getUserByUsername users username with
  | None => None
  | Some user =>
      if bool_decide (password = user_password user) then Some user
      else
        match user_password_hash user with
        | Some h =>
            if truthy_string h && bcrypt_compare password h then Some user else None
        | None => None
        end
  end.

End Credentials.

(** ** Predicates of the statements *)

(** Every code unit of [s] is a word character. *)
Definition all_word (s : string) : Prop :=
  Forall (fun c => JsString.is_word c = true) (list_ascii_of_string s).

(** Every code unit of [s] is one of [a-z0-9_]. *)
Definition all_snake (s : string) : Prop :=
  Forall (fun c => JsString.is_snake c = true) (list_ascii_of_string s).

(** The keys of the object literal of each payload. *)
Definition created_payload_keys : list string :=
  [ "event_title"; "event_description"; "event_date"; "event_location";
    "event_start_time"; "event_end_time"; "event_capacity"; "first_name";
    "last_name"; "email"; "registration_id"; "registration_status";
    "webhook_status"; "submitted_at" ].

Definition manual_payload_keys : list string :=
  [ "event_title"; "event_description"; "event_date"; "event_location";
    "event_start_time"; "event_end_time"; "event_capacity"; "manually_triggered";
    "triggered_at"; "registration_id"; "registration_status"; "webhook_status";
    "submitted_at" ].

(** A registration without its webhook status. *)
Definition without_webhookStatus (r : Registration) : Registration :=
  {| reg_id := reg_id r; reg_eventId := reg_eventId r; reg_formData := reg_formData r;
     reg_status := reg_status r; reg_webhookStatus := None;
     reg_attended := reg_attended r; reg_attendanceNotes := reg_attendanceNotes r;
     reg_createdAt := reg_createdAt r |}.

(** No event has more registrations than its capacity allows. *)
Definition within_capacity (st : Storage) : Prop :=
  forall id event,
    getEvent st id = Some event ->
    getEventRegistrationCount st id <= Z.max 0 (ev_capacity event).

(** Every code unit of [s] is one of [a-z]. *)
Definition all_lower (s : string) : Prop :=
  Forall (fun c => is_lower c = true) (list_ascii_of_string s).

(** ** Sample data *)

(** The update [{ active: false }]. *)
Definition switch_off : WebhookUpdate :=
  {| wu_name := None; wu_url := None; wu_secret := None; wu_events := None;
     wu_active := Some (Some false) |}.

(** The storage after a registration for [launch] that no subscriber took. *)
Definition undelivered_storage : Storage :=
  storage (post_registrations sample_hmac sample_stringify sample_storage
             "2025-01-01T10:00:00.000Z" all_failing (Some (submission ada_form))).

(** The update [{ password: newPassword }]. *)
Definition change_password (newPassword : string) : UserUpdate :=
  {| uu_username := None; uu_password := Some newPassword; uu_email := None;
     uu_role := None |}.

(** Stand-ins for bcrypt in the examples. *)
Definition sample_bcrypt_hash (salt password : string) : string :=
  "$2b$10$" +:+ salt +:+ "$" +:+ password.

Definition sample_bcrypt_compare (password hash : string) : bool :=
  bool_decide (hash = "$2b$10$salt$" +:+ password).

Definition ada_account : InsertUser :=
  {| iu_username := "ada"; iu_password := "first"; iu_email := None;
     iu_role := None |}.

(** A body for [POST /api/events] that names a form, and one whose title
    holds the code unit 0. *)
Definition workshop : InsertEvent :=
  {| ie_title := "Workshop"; ie_description := None; ie_date := "2025-02-01";
     ie_startTime := None; ie_endTime := None; ie_location := Some "";
     ie_capacity := 10; ie_formId := Some 3 |}.

Definition broken_workshop : InsertEvent :=
  {| ie_title := String "W" (String "000" "s"); ie_description := None;
     ie_date := "2025-02-01"; ie_startTime := None; ie_endTime := None;
     ie_location := None; ie_capacity := 10; ie_formId := None |}.

(** * Properties *)

(** ** Own properties of an object *)

Module JsObjectFacts.
Import JsObject.

Lemma get_put_eq k v o : get k (put k v o) = Some v.
Proof.
  induction o as [|[k' v'] o IH]; simpl; repeat case_decide; simpl;
    repeat case_decide; simplify_eq; done.
Qed.

Lemma get_put_ne k k' v o : k ≠ k' -> get k' (put k v o) = get k' o.
Proof.
  intros Hne. induction o as [|[k0 v0] o IH]; simpl; repeat case_decide; simpl;
    repeat case_decide; simplify_eq; done.
Qed.

Lemma get_set_eq k v o : k ≠ "__proto__" -> get k (set k v o) = Some v.
Proof. intros Hk. unfold set. case_decide; [done|]. apply get_put_eq. Qed.

Lemma get_set_ne k k' v o : k ≠ k' -> get k' (set k v o) = get k' o.
Proof. intros Hne. unfold set. case_decide; [done|]. by apply get_put_ne. Qed.

(** A write never removes a property. *)
Lemma get_set_is_Some k k' v o : is_Some (get k' o) -> is_Some (get k' (set k v o)).
Proof.
  intros Hs. unfold set. case_decide; [done|].
  destruct (decide (k = k')) as [->|Hne].
  - rewrite get_put_eq. eauto.
  - by rewrite get_put_ne.
Qed.

End JsObjectFacts.

(** ** The label lookup *)

Module LabelFacts.

Lemma length_app s1 s2 :
  String.length (s1 +:+ s2) = (String.length s1 + String.length s2)%nat.
Proof. induction s1 as [|c s1 IH]; simpl; [done|]. by rewrite IH. Qed.

Lemma take_word_length n s g r :
  JsString.take_word n s = Some (g, r) -> String.length g = n.
Proof.
  revert s g r. induction n as [|n IH]; intros s g r; simpl.
  - by intros [= <- <-].
  - destruct s as [|c s]; [done|]. destruct (JsString.is_word c); [|done].
    destruct (JsString.take_word n s) as [[g' r']|] eqn:E; simpl; [|done].
    intros [= <- <-]. simpl. f_equal. eauto.
Qed.

Lemma cleanKey_eq key :
  cleanKey key =
  match match_groups key with
  | Some (g1, g2, g3, g4, g5, rest) =>
      g1 +:+ "-" +:+ g2 +:+ "-" +:+ g3 +:+ "-" +:+ g4 +:+ "-" +:+ g5 +:+ rest
  | None =>
      match key with
      | EmptyString => EmptyString
      | String c key' => String c (cleanKey key')
      end
  end.
Proof. by destruct key. Qed.

(** The replacement leaves the key alone or yields at least 36 code units. *)
Lemma cleanKey_unchanged_or_long key :
  cleanKey key = key ∨ (36 <= String.length (cleanKey key))%nat.
Proof.
  induction key as [|c key IH]; [by left|].
  rewrite cleanKey_eq.
  destruct (match_groups (String c key)) as [[[[[[g1 g2] g3] g4] g5] rest]|] eqn:E.
  - right. unfold match_groups in E.
    apply bind_Some in E as ([h1 r1] & E1 & E).
    apply bind_Some in E as ([h2 r2] & E2 & E).
    apply bind_Some in E as ([h3 r3] & E3 & E).
    apply bind_Some in E as ([h4 r4] & E4 & E).
    apply bind_Some in E as ([h5 r5] & E5 & E).
    simplify_eq.
    apply take_word_length in E1, E2, E3, E4, E5.
    rewrite !length_app. simpl. lia.
  - destruct IH as [->|IH]; [by left|right]. simpl. lia.
Qed.

Lemma prototype_names_short k :
  k ∈ Object_prototype_names -> (String.length k < 36)%nat.
Proof.
  revert k. apply Forall_forall. unfold Object_prototype_names.
  repeat constructor; simpl; lia.
Qed.

Lemma cleanKey_prototype_name key :
  cleanKey key ∈ Object_prototype_names -> cleanKey key = key.
Proof.
  intros Hin. apply prototype_names_short in Hin.
  destruct (cleanKey_unchanged_or_long key); [done|lia].
Qed.

(** Every label of the table is a non-empty string. *)
Lemma own_label_truthy k l :
  own_label k FORM_FIELD_LABELS = Some l -> truthy_string l = true.
Proof.
  unfold FORM_FIELD_LABELS. simpl.
  repeat (case_decide; [by intros [= <-]|]). done.
Qed.

Lemma label_of_own k l :
  own_label k FORM_FIELD_LABELS = Some l -> label_of k = Some (PLabel l).
Proof. unfold label_of. by intros ->. Qed.

Lemma label_of_none k :
  own_label k FORM_FIELD_LABELS = None -> k ∉ Object_prototype_names ->
  label_of k = None.
Proof. unfold label_of. intros -> Hk. by rewrite bool_decide_eq_false_2. Qed.

(** The label the lookup settles on for a key that names no member of
    [Object.prototype]: the table's entry for the cleaned key, else its
    entry for the key, else the key. *)
Lemma fieldLabel_plain key :
  key ∉ Object_prototype_names ->
  fieldLabel key =
  PLabel (default (default key (own_label key FORM_FIELD_LABELS))
            (own_label (cleanKey key) FORM_FIELD_LABELS)).
Proof.
  intros Hkey. unfold fieldLabel, lookupLabel, or_property.
  destruct (own_label (cleanKey key) FORM_FIELD_LABELS) as [l|] eqn:Ec.
  - rewrite (label_of_own _ _ Ec). unfold truthy_property.
    by rewrite !(own_label_truthy _ _ Ec).
  - assert (label_of (cleanKey key) = None) as ->.
    { apply label_of_none; [done|]. intros Hin.
      apply Hkey. by rewrite <- (cleanKey_prototype_name _ Hin). }
    unfold truthy_property at 1.
    destruct (own_label key FORM_FIELD_LABELS) as [l|] eqn:Ek.
    + rewrite (label_of_own _ _ Ek). unfold truthy_property.
      by rewrite !(own_label_truthy _ _ Ek).
    + by rewrite (label_of_none _ Ek Hkey).
Qed.

End LabelFacts.

(** ** The loop that adds the form fields *)

Module PayloadFacts.
Import JsObject JsObjectFacts LabelFacts.

Lemma forEach_cons {A B} (step : B -> A -> Completion B) x l acc :
  forEach step (x :: l) acc =
  match step acc x with
  | Normal acc' => forEach step l acc'
  | Throw e => Throw e
  end.
Proof. done. Qed.

Lemma forEach_app {A B} (step : B -> A -> Completion B) l1 l2 acc :
  forEach step (l1 ++ l2) acc =
  match forEach step l1 acc with
  | Normal acc' => forEach step l2 acc'
  | Throw e => Throw e
  end.
Proof.
  revert acc. induction l1 as [|x l1 IH]; intros acc; [done|].
  rewrite <- app_comm_cons, !forEach_cons. destruct (step acc x); [apply IH|done].
Qed.

(** The three known labels, and their snake_case keys. *)
Lemma is_label_true l l' : is_label (PLabel l) l' = true <-> l = l'.
Proof. simpl. by rewrite bool_decide_eq_true. Qed.

Lemma is_label_false l l' : is_label (PLabel l) l' = false <-> l ≠ l'.
Proof. simpl. by rewrite bool_decide_eq_false. Qed.

(** One call on a key whose label is a string. *)
Lemma addFormField_label b p key value l :
  fieldLabel key = PLabel l ->
  addFormField b p (key, value) =
  Normal
    (let p1 := set (snake_case l) value p in
     let p2 := if b then set ("form_" +:+ key) value p1 else p1 in
     if is_label (PLabel l) "First Name"
     then set "first_name" (JStr (js_String value)) p2
     else if is_label (PLabel l) "Last Name"
     then set "last_name" (JStr (js_String value)) p2
     else if is_label (PLabel l) "Email"
     then set "email" (JStr (js_String value)) p2
     else p2).
Proof. unfold addFormField. by intros ->. Qed.

Lemma addFormField_throws b p key value name :
  fieldLabel key = PInherited name ->
  exists e, addFormField b p (key, value) = Throw e.
Proof. unfold addFormField. intros ->. by eexists. Qed.

Lemma form_key_not_special key :
  "form_" +:+ key ≠ "__proto__" ∧ "form_" +:+ key ≠ "first_name" ∧
  "form_" +:+ key ≠ "last_name" ∧ "form_" +:+ key ≠ "email".
Proof. by repeat split. Qed.

Lemma addFormField_get_other b p key value p' x :
  addFormField b p (key, value) = Normal p' ->
  x ∉ written_keys b key ->
  get x p' = get x p.
Proof.
  unfold written_keys. destruct (fieldLabel key) as [l|name] eqn:El.
  - rewrite (addFormField_label _ _ _ _ _ El). intros [= <-] Hx. cbv zeta.
    assert (snake_case l ≠ x) as Hs by (intros <-; apply Hx; left).
    assert (get x (if b then set ("form_" +:+ key) value (set (snake_case l) value p)
                   else set (snake_case l) value p) = get x p) as Hp2.
    { destruct b.
      - rewrite get_set_ne, get_set_ne; [done..|].
        intros <-. apply Hx. right. left.
      - by rewrite get_set_ne. }
    unfold is_label.
    repeat (case_bool_decide; [subst l; by rewrite get_set_ne by exact Hs|]).
    done.
  - destruct (addFormField_throws b p key value name El) as [e ->]. done.
Qed.

Lemma addFormField_is_Some b p key value p' x :
  addFormField b p (key, value) = Normal p' ->
  is_Some (get x p) -> is_Some (get x p').
Proof.
  destruct (fieldLabel key) as [l|name] eqn:El.
  - rewrite (addFormField_label _ _ _ _ _ El). intros [= <-] Hx. cbv zeta.
    unfold is_label. repeat case_bool_decide; destruct b;
      repeat apply get_set_is_Some; done.
  - destruct (addFormField_throws b p key value name El) as [e ->]. done.
Qed.

Lemma stored_known l value :
  l ∈ ["First Name"; "Last Name"; "Email"] -> stored l value = JStr (js_String value).
Proof. intros Hl. unfold stored. by rewrite bool_decide_eq_true_2. Qed.

Lemma stored_other l value :
  l ≠ "First Name" -> l ≠ "Last Name" -> l ≠ "Email" -> stored l value = value.
Proof.
  intros H1 H2 H3. unfold stored. rewrite bool_decide_eq_false_2; [done|].
  rewrite !elem_of_cons, elem_of_nil. intuition.
Qed.

Lemma addFormField_get_snake b p key value l p' :
  fieldLabel key = PLabel l ->
  snake_case l ≠ "__proto__" ->
  addFormField b p (key, value) = Normal p' ->
  get (snake_case l) p' = Some (stored l value).
Proof.
  intros El Hs. rewrite (addFormField_label _ _ _ _ _ El). intros [= <-].
  cbv zeta. unfold is_label.
  repeat (case_bool_decide;
          [subst l; rewrite stored_known by set_solver;
           by apply get_set_eq|]).
  rewrite stored_other by done.
  destruct b; [|by rewrite get_set_eq].
  destruct (decide ("form_" +:+ key = snake_case l)) as [Heq|Hne].
  - rewrite Heq. by rewrite get_set_eq.
  - rewrite get_set_ne by done. by rewrite get_set_eq.
Qed.

Lemma addFormField_get_form p key value l p' :
  fieldLabel key = PLabel l ->
  addFormField true p (key, value) = Normal p' ->
  get ("form_" +:+ key) p' = Some value.
Proof.
  intros El. rewrite (addFormField_label _ _ _ _ _ El). intros [= <-].
  cbv zeta. destruct (form_key_not_special key) as (H0 & H1 & H2 & H3).
  unfold is_label. repeat case_bool_decide; rewrite ?get_set_ne by done;
    by rewrite get_set_eq.
Qed.

Lemma forEach_plain b formData p :
  plain_keys formData -> exists p', forEach (addFormField b) formData p = Normal p'.
Proof.
  intros Hplain. revert p.
  induction Hplain as [|[key value] formData Hkey _ IH]; intros p; [by eexists|].
  rewrite forEach_cons. simpl in Hkey.
  rewrite (addFormField_label _ _ _ _ _ (fieldLabel_plain _ Hkey)). apply IH.
Qed.

Lemma forEach_get_other b formData p p' x :
  forEach (addFormField b) formData p = Normal p' ->
  (forall e, e ∈ formData -> x ∉ written_keys b e.1) ->
  get x p' = get x p.
Proof.
  revert p. induction formData as [|[key value] formData IH]; intros p.
  - by intros [= <-].
  - rewrite forEach_cons.
    destruct (addFormField b p (key, value)) as [p1|] eqn:E1; [|done].
    intros Hrest Hx. rewrite (IH _ Hrest).
    + apply (addFormField_get_other _ _ _ _ _ _ E1). apply (Hx (key, value)). left.
    + intros e He. apply Hx. by right.
Qed.

Lemma forEach_is_Some b formData p p' x :
  forEach (addFormField b) formData p = Normal p' ->
  is_Some (get x p) -> is_Some (get x p').
Proof.
  revert p. induction formData as [|[key value] formData IH]; intros p.
  - by intros [= <-].
  - rewrite forEach_cons.
    destruct (addFormField b p (key, value)) as [p1|] eqn:E1; [|done].
    intros Hrest Hx. apply (IH _ Hrest). by apply (addFormField_is_Some _ _ _ _ _ _ E1).
Qed.

(** What the loop leaves for the entry [(key, value)] of the form data: the
    last writer of a key wins. *)
Lemma forEach_field b pre key value post p :
  plain_keys (pre ++ (key, value) :: post) ->
  exists p' l,
    forEach (addFormField b) (pre ++ (key, value) :: post) p = Normal p' ∧
    fieldLabel key = PLabel l ∧
    (snake_case l ≠ "__proto__" -> is_Some (get (snake_case l) p')) ∧
    (snake_case l ≠ "__proto__" ->
     (forall e, e ∈ post -> snake_case l ∉ written_keys b e.1) ->
     get (snake_case l) p' = Some (stored l value)) ∧
    (b = true -> is_Some (get ("form_" +:+ key) p')) ∧
    (b = true ->
     (forall e, e ∈ post -> "form_" +:+ key ∉ written_keys b e.1) ->
     get ("form_" +:+ key) p' = Some value).
Proof.
  intros Hplain. apply Forall_app in Hplain as [Hpre Hrest].
  apply Forall_cons in Hrest as [Hkey Hpost]. simpl in Hkey.
  destruct (forEach_plain b pre p Hpre) as [p0 E0].
  pose proof (fieldLabel_plain _ Hkey) as El.
  set (l := default _ _) in El.
  destruct (forEach_plain b [(key, value)] p0) as [p1 E1].
  { by apply Forall_singleton. }
  rewrite forEach_cons in E1.
  destruct (addFormField b p0 (key, value)) as [p1'|] eqn:Estep; [|done].
  injection E1 as ->.
  destruct (forEach_plain b post p1 Hpost) as [p' E'].
  exists p', l.
  split. { by rewrite forEach_app, E0, forEach_cons, Estep. }
  split; [done|].
  split; [|split; [|split]].
  - intros Hs. apply (forEach_is_Some _ _ _ _ _ E').
    rewrite (addFormField_get_snake _ _ _ _ _ _ El Hs Estep). eauto.
  - intros Hs Hlater. rewrite (forEach_get_other _ _ _ _ _ E' Hlater).
    apply (addFormField_get_snake _ _ _ _ _ _ El Hs Estep).
  - intros ->. apply (forEach_is_Some _ _ _ _ _ E').
    rewrite (addFormField_get_form _ _ _ _ _ El Estep). eauto.
  - intros -> Hlater. rewrite (forEach_get_other _ _ _ _ _ E' Hlater).
    apply (addFormField_get_form _ _ _ _ _ El Estep).
Qed.

End PayloadFacts.

(** ** The field label resolver *)

(** C5 (amended).  For every key that does not name a member of
    [Object.prototype], the lookup returns a string: the table's label of
    the cleaned (separator-normalised) key when it has one, else the table's
    label of the key itself when it has one, else the key unchanged.  The
    result is the empty string only for the empty key. *)
Theorem fieldLabel_falls_back_to_key (key : string) :
  key ∉ Object_prototype_names ->
  exists l,
    fieldLabel key = PLabel l ∧
    (forall l', own_label (cleanKey key) FORM_FIELD_LABELS = Some l' -> l = l') ∧
    (forall l', own_label (cleanKey key) FORM_FIELD_LABELS = None ->
                own_label key FORM_FIELD_LABELS = Some l' -> l = l') ∧
    (own_label (cleanKey key) FORM_FIELD_LABELS = None ->
     own_label key FORM_FIELD_LABELS = None -> l = key) ∧
    (l = EmptyString -> key = EmptyString).
Proof.
  intros Hkey. eexists. split; [by apply LabelFacts.fieldLabel_plain|].
  destruct (own_label (cleanKey key) FORM_FIELD_LABELS) as [lc|] eqn:Ec;
    destruct (own_label key FORM_FIELD_LABELS) as [lk|] eqn:Ek; simpl;
    repeat split; try congruence; intros ->.
  - by apply LabelFacts.own_label_truthy in Ec.
  - by apply LabelFacts.own_label_truthy in Ec.
  - by apply LabelFacts.own_label_truthy in Ek.
Qed.

Lemma fieldLabel_falls_back_to_key_witness :
  exists l,
    fieldLabel "nickname" = PLabel l ∧
    (forall l', own_label (cleanKey "nickname") FORM_FIELD_LABELS = Some l' -> l = l') ∧
    (forall l', own_label (cleanKey "nickname") FORM_FIELD_LABELS = None ->
                own_label "nickname" FORM_FIELD_LABELS = Some l' -> l = l') ∧
    (own_label (cleanKey "nickname") FORM_FIELD_LABELS = None ->
     own_label "nickname" FORM_FIELD_LABELS = None -> l = "nickname") ∧
    (l = EmptyString -> "nickname" = EmptyString).
Proof. apply (fieldLabel_falls_back_to_key "nickname"). compute_done. Defined.

(** C5, as stated, fails.  The empty key is in neither form in the table and
    the lookup returns it: an empty string.  The key [constructor] is in
    neither form in the table either, and the lookup returns the inherited
    member instead of the key. *)
Lemma fieldLabel_empty_key_counterexample :
  own_label (cleanKey "") FORM_FIELD_LABELS = None ∧
  own_label "" FORM_FIELD_LABELS = None ∧
  fieldLabel "" = PLabel "" ∧
  own_label (cleanKey "constructor") FORM_FIELD_LABELS = None ∧
  own_label "constructor" FORM_FIELD_LABELS = None ∧
  fieldLabel "constructor" = PInherited "constructor" ∧
  (exists e, snakeCaseLabel (fieldLabel "constructor") = Throw e).
Proof. repeat split; try by vm_compute. by eexists. Qed.

(** C6.  For every identifier of the table, the identifier and its
    dash-free form of 32 code units resolve to the same label, the table's
    own, in the lookup of the payload loops and in that of
    [extractStandardFields]. *)
Theorem dashed_and_undashed_resolve_alike (id label : string) :
  (id, label) ∈ FORM_FIELD_LABELS ->
  fieldLabel id = PLabel label ∧
  fieldLabel (undashed id) = PLabel label ∧
  lookupLabel id = Some (PLabel label) ∧
  lookupLabel (undashed id) = Some (PLabel label) ∧
  String.length (undashed id) = 32%nat ∧
  cleanKey (undashed id) = id.
Proof.
  revert id label.
  assert (Forall (fun e =>
            fieldLabel e.1 = PLabel e.2 ∧
            fieldLabel (undashed e.1) = PLabel e.2 ∧
            lookupLabel e.1 = Some (PLabel e.2) ∧
            lookupLabel (undashed e.1) = Some (PLabel e.2) ∧
            String.length (undashed e.1) = 32%nat ∧
            cleanKey (undashed e.1) = e.1) FORM_FIELD_LABELS) as Hall.
  { unfold FORM_FIELD_LABELS. repeat constructor; by vm_compute. }
  intros id label Hin. rewrite Forall_forall in Hall. apply (Hall (id, label) Hin).
Qed.

Lemma dashed_and_undashed_resolve_alike_witness :
  fieldLabel "5a2aa210-8c3d-485e-878b-0c8dceb0f9bc" = PLabel "Email" ∧
  fieldLabel (undashed "5a2aa210-8c3d-485e-878b-0c8dceb0f9bc") = PLabel "Email" ∧
  lookupLabel "5a2aa210-8c3d-485e-878b-0c8dceb0f9bc" = Some (PLabel "Email") ∧
  lookupLabel (undashed "5a2aa210-8c3d-485e-878b-0c8dceb0f9bc") = Some (PLabel "Email") ∧
  String.length (undashed "5a2aa210-8c3d-485e-878b-0c8dceb0f9bc") = 32%nat ∧
  cleanKey (undashed "5a2aa210-8c3d-485e-878b-0c8dceb0f9bc")
  = "5a2aa210-8c3d-485e-878b-0c8dceb0f9bc".
Proof.
  apply (dashed_and_undashed_resolve_alike
           "5a2aa210-8c3d-485e-878b-0c8dceb0f9bc" "Email").
  compute_done.
Defined.

(** ** The dispatcher *)

Section DispatchFacts.

Variable hmac_sha256_hex : string -> string -> string.
Variable JSON_stringify : JsObject -> string.

Local Abbreviation deliveryRequest := (deliveryRequest hmac_sha256_hex JSON_stringify).
Local Abbreviation deliver := (deliver hmac_sha256_hex JSON_stringify).
Local Abbreviation delivered := (delivered hmac_sha256_hex JSON_stringify).
Local Abbreviation triggerWebhooks := (triggerWebhooks hmac_sha256_hex JSON_stringify).
Local Abbreviation signed_with := (signed_with hmac_sha256_hex).

Lemma response_ok_spec status : response_ok status = true <-> 200 <= status <= 299.
Proof. unfold response_ok. rewrite andb_true_iff, !Z.leb_le. done. Qed.

(** The promise of one delivery never rejects: it is fulfilled with [true]
    or with [false]. *)
Lemma deliver_settles fetch payload w :
  exists b, (deliver fetch payload w).2 = Normal b ∧
            (b = true <-> delivered fetch payload w).
Proof.
  unfold deliver, delivered. simpl.
  destruct (fetch w (deliveryRequest payload w)) as [m|status [text|]] eqn:E; simpl.
  - exists false. split; [done|]. split; [done|]. by intros (? & ? & ? & ?).
  - destruct (response_ok status) eqn:Eok; simpl.
    + exists true. split; [done|]. split; [|done]. intros _.
      exists status, text. split; [done|]. by apply response_ok_spec.
    + exists false. split; [done|]. split; [done|].
      intros (s' & t' & [= <- <-] & Hs). apply response_ok_spec in Hs. congruence.
  - destruct (response_ok status); simpl; exists false;
      (split; [done|]); (split; [done|]); by intros (? & ? & ? & ?).
Qed.

Lemma existsb_fmap {A B} (f : A -> B) (g : B -> bool) l :
  existsb g (map f l) = existsb (fun x => g (f x)) l.
Proof. induction l as [|x l IH]; simpl; [done|]. by rewrite IH. Qed.

Lemma deliver_request fetch payload w :
  (deliver fetch payload w).1 = (w, deliveryRequest payload w).
Proof. done. Qed.

Lemma fulfilled_true_settle fetch payload w :
  fulfilled_true (settle (deliver fetch payload w).2) = true <->
  delivered fetch payload w.
Proof.
  destruct (deliver_settles fetch payload w) as (b & -> & Hb). simpl. done.
Qed.

Lemma triggerWebhooks_requests st fetch eventType payload :
  (triggerWebhooks st fetch eventType payload).1 =
  map (fun w => (w, deliveryRequest payload w)) (getWebhooksByEvent st eventType).
Proof.
  unfold triggerWebhooks.
  destruct (getWebhooksByEvent st eventType) as [|w ws]; [done|].
  cbn [length Nat.eqb fst]. by rewrite map_map.
Qed.

Lemma triggerWebhooks_result st fetch eventType payload :
  (triggerWebhooks st fetch eventType payload).2 =
  Normal (existsb (fun w => fulfilled_true (settle (deliver fetch payload w).2))
            (getWebhooksByEvent st eventType)).
Proof.
  unfold triggerWebhooks.
  destruct (getWebhooksByEvent st eventType) as [|w ws]; [done|].
  cbn [length Nat.eqb snd try_catch]. by rewrite !map_map, existsb_fmap.
Qed.

(** C1.  The aggregate result of a dispatch is never an error; it is [true]
    exactly when some active subscriber of the event type answered its
    delivery with a 2xx response, read to its end; with no subscriber it is [false] and no
    request is issued; and what happens to the delivery to one subscriber
    changes neither the outcome of the delivery to another subscriber nor
    an aggregate that another delivery made [true]. *)
Theorem triggerWebhooks_at_least_one (st : Storage) (fetch : Network)
    (eventType : string) (payload : JsObject) :
  exists b,
    (triggerWebhooks st fetch eventType payload).2 = Normal b ∧
    (b = true <->
     exists w, w ∈ getWebhooksByEvent st eventType ∧ delivered fetch payload w) ∧
    (getWebhooksByEvent st eventType = [] ->
     b = false ∧ (triggerWebhooks st fetch eventType payload).1 = []) ∧
    (forall (fetch' : Network) (w0 : Webhook),
       (forall w req, w ≠ w0 -> fetch' w req = fetch w req) ->
       (forall w, w ≠ w0 -> deliver fetch' payload w = deliver fetch payload w) ∧
       ((exists w, w ∈ getWebhooksByEvent st eventType ∧ w ≠ w0 ∧
                   delivered fetch payload w) ->
        (triggerWebhooks st fetch' eventType payload).2 = Normal true)).
Proof.
  eexists. split; [apply triggerWebhooks_result|].
  assert (forall f : Network,
            existsb (fun w => fulfilled_true (settle (deliver f payload w).2))
              (getWebhooksByEvent st eventType) = true <->
            exists w, w ∈ getWebhooksByEvent st eventType ∧ delivered f payload w)
    as Hagg.
  { intros f. rewrite existsb_exists. split.
    - intros (w & Hin & Hw). exists w. split; [by apply list_elem_of_In|].
      by apply fulfilled_true_settle.
    - intros (w & Hin & Hw). exists w. split; [by apply list_elem_of_In|].
      by apply fulfilled_true_settle. }
  split; [apply Hagg|]. split.
  - intros Hnone. rewrite triggerWebhooks_requests, Hnone. done.
  - intros fetch' w0 Hsame.
    assert (forall w, w ≠ w0 -> deliver fetch' payload w = deliver fetch payload w)
      as Hsib.
    { intros w Hw. unfold deliver. by rewrite (Hsame _ _ Hw). }
    split; [done|]. intros (w & Hin & Hw & Hok).
    rewrite triggerWebhooks_result. f_equal. apply Hagg. exists w. split; [done|].
    destruct Hok as (status & text & Hf & Hs). exists status, text.
    by rewrite (Hsame _ _ Hw).
Qed.

Lemma header_set_header_eq k v hs : header k (set_header k v hs) = Some v.
Proof.
  induction hs as [|[k' v'] hs IH]; simpl; repeat case_decide; simpl;
    repeat case_decide; simplify_eq; done.
Qed.

Lemma header_set_header_ne k k' v hs :
  k ≠ k' -> header k' (set_header k v hs) = header k' hs.
Proof.
  intros Hne. induction hs as [|[k0 v0] hs IH]; simpl; repeat case_decide; simpl;
    repeat case_decide; simplify_eq; done.
Qed.

Lemma truthy_string_spec s : truthy_string s = true <-> s ≠ EmptyString.
Proof. unfold truthy_string. rewrite negb_true_iff, bool_decide_eq_false. done. Qed.

Lemma deliveryRequest_signed payload w :
  signed_with (wh_secret w) (deliveryRequest payload w) ∧
  req_body (deliveryRequest payload w) = JSON_stringify payload ∧
  req_url (deliveryRequest payload w) = wh_url w ∧
  req_method (deliveryRequest payload w) = "POST" ∧
  header "Content-Type" (req_headers (deliveryRequest payload w))
  = Some "application/json".
Proof.
  unfold signed_with, deliveryRequest. simpl.
  destruct (wh_secret w) as [s|]; [destruct (truthy_string s) eqn:Es|]; simpl.
  - apply truthy_string_spec in Es. signed_cases.
  - assert (s = EmptyString) as ->.
    { destruct (decide (s = EmptyString)) as [|Hs]; [done|].
      apply truthy_string_spec in Hs. congruence. }
    signed_cases.
  - signed_cases.
Qed.

Lemma testRequest_signed payload w :
  signed_with (wh_secret w)
    (testRequest hmac_sha256_hex JSON_stringify payload w) ∧
  req_body (testRequest hmac_sha256_hex JSON_stringify payload w)
  = JSON_stringify payload.
Proof.
  unfold signed_with, testRequest. simpl.
  destruct (wh_secret w) as [s|]; [destruct (truthy_string s) eqn:Es|]; simpl.
  - apply truthy_string_spec in Es. signed_cases.
  - assert (s = EmptyString) as ->.
    { destruct (decide (s = EmptyString)) as [|Hs]; [done|].
      apply truthy_string_spec in Hs. congruence. }
    signed_cases.
  - signed_cases.
Qed.

(** C3.  Every request the fan-out issues, and every request the test
    endpoint issues, carries the header [X-Webhook-Signature] exactly when
    the webhook has a non-empty secret, and the header then is the hex
    HMAC-SHA256, under that secret, of the body of that same request, which
    in the fan-out is the serialised payload. *)
Theorem signature_header_iff_secret :
  (forall st fetch eventType payload w request,
     (w, request) ∈ (triggerWebhooks st fetch eventType payload).1 ->
     signed_with (wh_secret w) request ∧
     req_body request = JSON_stringify payload) ∧
  (forall st now fetch b w request,
     (w, request) ∈
       requests (post_webhooks_test hmac_sha256_hex JSON_stringify st now fetch b) ->
     signed_with (wh_secret w) request).
Proof.
  split.
  - intros st fetch eventType payload w request.
    rewrite triggerWebhooks_requests. intros Hin.
    apply list_elem_of_fmap in Hin as (w' & [= -> ->] & _).
    destruct (deliveryRequest_signed payload w') as (Hs & Hb & _). done.
  - intros st now fetch b w request. unfold post_webhooks_test.
    destruct (_ || _); [by intros ?%elem_of_nil|].
    destruct (getWebhook st (webhookId b)) as [webhook|]; [|by intros ?%elem_of_nil].
    destruct (negb _); [by intros ?%elem_of_nil|].
    destruct (fetch webhook _); simpl;
      intros [= -> ->]%list_elem_of_singleton; apply testRequest_signed.
Qed.

(** C4.  The lookup returns exactly the stored webhooks that are active and
    whose events contain the event type, each as often as it is stored; so a
    webhook subscribed to [event.created] alone is sent no request when
    [registration.created] is dispatched. *)
Theorem getWebhooksByEvent_exact :
  (forall st eventType w,
     w ∈ getWebhooksByEvent st eventType <->
     w ∈ webhooks st ∧ wh_active w = Some true ∧ eventType ∈ wh_events w) ∧
  (forall st eventType,
     getWebhooksByEvent st eventType `sublist_of` webhooks st ∧
     (NoDup (webhooks st) -> NoDup (getWebhooksByEvent st eventType))) ∧
  (forall st fetch payload w request,
     wh_events w = ["event.created"] ->
     (w, request) ∉ (triggerWebhooks st fetch "registration.created" payload).1).
Proof.
  assert (forall st eventType w,
            w ∈ getWebhooksByEvent st eventType <->
            w ∈ webhooks st ∧ wh_active w = Some true ∧ eventType ∈ wh_events w)
    as Hmem.
  { intros st eventType w. unfold getWebhooksByEvent.
    rewrite list_elem_of_filter. tauto. }
  split; [done|]. split.
  - intros st eventType. unfold getWebhooksByEvent. split.
    + apply sublist_filter.
    + apply NoDup_filter.
  - intros st fetch payload w request Hev. rewrite triggerWebhooks_requests.
    intros Hin. apply list_elem_of_fmap in Hin as (w' & [= <- _] & Hin).
    apply Hmem in Hin as (_ & _ & Hin). rewrite Hev in Hin.
    by apply list_elem_of_singleton in Hin.
Qed.

End DispatchFacts.

Lemma triggerWebhooks_at_least_one_witness :
  (triggerWebhooks sample_hmac sample_stringify sample_storage all_ok
     "registration.created" []).2 = Normal true ∧
  (triggerWebhooks sample_hmac sample_stringify sample_storage all_failing
     "registration.created" []).2 = Normal false ∧
  (triggerWebhooks sample_hmac sample_stringify sample_storage all_ok
     "attendance.updated" []) = ([], Normal false).
Proof.
  assert (getWebhooksByEvent sample_storage "registration.created"
          = [zapier_hook; unsigned_hook]) as Hsubs by (by vm_compute).
  split; [|split].
  - destruct (triggerWebhooks_at_least_one sample_hmac sample_stringify sample_storage
                all_ok "registration.created" []) as (b & -> & Hiff & _).
    f_equal. apply Hiff. exists zapier_hook. split.
    + rewrite Hsubs. left.
    + exists 200, "ok". split; [reflexivity|lia].
  - destruct (triggerWebhooks_at_least_one sample_hmac sample_stringify sample_storage
                all_failing "registration.created" []) as (b & -> & Hiff & _).
    f_equal. destruct b; [|done]. destruct (proj1 Hiff eq_refl) as (w & _ & Hw).
    destruct Hw as (status & text & [= <- _] & Hs). lia.
  - destruct (triggerWebhooks_at_least_one sample_hmac sample_stringify sample_storage
                all_ok "attendance.updated" []) as (b & Hb & _ & Hnone & _).
    destruct (Hnone eq_refl) as [-> Hsent].
    by destruct (triggerWebhooks _ _ _ _ _ _) as [? ?]; simpl in *; subst.
Defined.

Lemma signature_header_iff_secret_witness :
  header "X-Webhook-Signature"
    (req_headers (deliveryRequest sample_hmac sample_stringify [] zapier_hook))
  = Some (sample_hmac "s3cr3t" (sample_stringify [])) ∧
  header "X-Webhook-Signature"
    (req_headers (deliveryRequest sample_hmac sample_stringify [] unsigned_hook))
  = None.
Proof.
  assert ((triggerWebhooks sample_hmac sample_stringify sample_storage all_ok
             "registration.created" []).1
          = [(zapier_hook, deliveryRequest sample_hmac sample_stringify [] zapier_hook);
             (unsigned_hook,
              deliveryRequest sample_hmac sample_stringify [] unsigned_hook)])
    as Hsent by (by vm_compute).
  split.
  - destruct (proj1 (signature_header_iff_secret sample_hmac sample_stringify)
                sample_storage all_ok "registration.created" [] zapier_hook
                (deliveryRequest sample_hmac sample_stringify [] zapier_hook))
      as [[_ Hsig] Hbody].
    + rewrite Hsent. left.
    + rewrite (Hsig "s3cr3t"); [by rewrite Hbody|done|done].
  - destruct (proj1 (signature_header_iff_secret sample_hmac sample_stringify)
                sample_storage all_ok "registration.created" [] unsigned_hook
                (deliveryRequest sample_hmac sample_stringify [] unsigned_hook))
      as [[Hiff _] _].
    + rewrite Hsent. right. left.
    + destruct (header _ _) as [sig|]; [|done].
      destruct (proj1 Hiff (mk_is_Some _ _ eq_refl)) as (s & Hs & _). done.
Defined.

Lemma getWebhooksByEvent_exact_witness :
  events_only_hook ∈ webhooks sample_storage ∧
  (events_only_hook,
   deliveryRequest sample_hmac sample_stringify [] events_only_hook)
  ∉ (triggerWebhooks sample_hmac sample_stringify sample_storage all_ok
       "registration.created" []).1.
Proof.
  split.
  - right. left.
  - apply (proj2 (proj2 (getWebhooksByEvent_exact sample_hmac sample_stringify))).
    reflexivity.
Defined.

(** ** The registration endpoints *)

Section RegistrationFacts.

Variable hmac_sha256_hex : string -> string -> string.
Variable JSON_stringify : JsObject -> string.

Local Abbreviation triggerWebhooks := (triggerWebhooks hmac_sha256_hex JSON_stringify).
Local Abbreviation post_registrations :=
  (post_registrations hmac_sha256_hex JSON_stringify).
Local Abbreviation post_registration_webhook :=
  (post_registration_webhook hmac_sha256_hex JSON_stringify).

(** C7.  A registration for an event whose registrations have reached its
    capacity is answered 400 "Event is at full capacity"; the storage is left
    as it was and no request is issued to any subscriber. *)
Theorem full_event_is_rejected (st : Storage) (now : string) (fetch : Network)
    (data : InsertRegistration) (eventInfo : Event) :
  getEvent st (ins_eventId data) = Some eventInfo ->
  getEventRegistrationCount st (ins_eventId data) >= ev_capacity eventInfo ->
  post_registrations st now fetch (Some data) =
  {| storage := st; status := 400; body := Message "Event is at full capacity";
     requests := [] |}.
Proof.
  intros Hev Hfull. unfold post_registrations. rewrite Hev.
  by rewrite bool_decide_eq_true_2.
Qed.

(** Reading a row after an update that keeps identifiers. *)
Lemma head_filter_map (f : Registration -> Registration) id l :
  (forall r, reg_id (f r) = reg_id r) ->
  head (filter (fun r => reg_id r = id) (map f l))
  = f <$> head (filter (fun r => reg_id r = id) l).
Proof.
  intros Hid. induction l as [|r l IH]; [done|].
  cbn [map]. rewrite !filter_cons, Hid. by case_decide.
Qed.

Lemma getRegistration_update st id' u id :
  getRegistration (updateRegistration st id' u) id
  = (fun r => if decide (reg_id r = id') then apply_update u r else r)
      <$> getRegistration st id.
Proof.
  unfold getRegistration, updateRegistration. cbn [registrations].
  apply head_filter_map. intros r. by case_decide.
Qed.

(** What a successful insert leaves and returns. *)
Lemma createRegistration_Normal st now data st1 registration :
  createRegistration st now data = Normal (st1, registration) ->
  registration_refused data = false ∧
  events st1 = events st ∧
  registrations st1 = (registrations st ++ [registration])%list ∧
  webhooks st1 = webhooks st ∧
  registrations_id_seq st1 = registrations_id_seq st + 1 ∧
  reg_id registration = registrations_id_seq st ∧
  reg_eventId registration = ins_eventId data ∧
  reg_formData registration = jsonb_object (ins_formData data) ∧
  reg_webhookStatus registration
  = Some (or_string (ins_webhookStatus data) "not_sent").
Proof.
  unfold createRegistration. destruct (registration_refused data); [done|].
  by intros [= <- <-].
Qed.

Lemma createRegistration_Throw st now data e :
  createRegistration st now data = Throw e -> registration_refused data = true.
Proof. unfold createRegistration. by destruct (registration_refused data). Qed.

Lemma getRegistration_create_old st now data st1 registration id r :
  createRegistration st now data = Normal (st1, registration) ->
  getRegistration st id = Some r ->
  getRegistration st1 id = Some r.
Proof.
  intros (_ & _ & Hrows & _)%createRegistration_Normal.
  unfold getRegistration. rewrite Hrows, filter_app.
  intros Hr. apply head_app_Some. by left.
Qed.

Lemma getRegistration_create_new st now data st1 registration :
  fresh_ids st ->
  createRegistration st now data = Normal (st1, registration) ->
  getRegistration st1 (reg_id registration) = Some registration.
Proof.
  intros Hfresh (_ & _ & Hrows & _ & _ & Hid & _)%createRegistration_Normal.
  unfold fresh_ids in Hfresh. unfold getRegistration. rewrite Hrows, filter_app.
  assert (filter (fun r => reg_id r = reg_id registration) (registrations st) = [])
    as ->.
  { rewrite Hid. clear Hrows.
    induction (registrations st) as [|r l IH]; [done|].
    apply Forall_cons in Hfresh as [Hr Hl].
    rewrite filter_cons. case_decide; [lia|by apply IH]. }
  cbn [app]. rewrite filter_cons. by case_decide.
Qed.

Lemma triggerWebhooks_total st fetch eventType payload :
  exists b, (triggerWebhooks st fetch eventType payload).2 = Normal b.
Proof. eexists. apply triggerWebhooks_result. Qed.

(** A status that is [sent] stays [sent] under the update of the tracker. *)
Lemma sent_stays_sent st id' id r :
  getRegistration st id = Some r ->
  reg_webhookStatus r = Some "sent" ->
  exists r', getRegistration (updateRegistration st id' webhookStatus_sent) id = Some r' ∧
             reg_webhookStatus r' = Some "sent".
Proof.
  intros Hr Hs. rewrite getRegistration_update, Hr. eexists. split; [done|].
  by case_decide.
Qed.

(** Both endpoints keep the identifiers below the sequence. *)
Lemma fresh_ids_update st id u :
  fresh_ids st -> fresh_ids (updateRegistration st id u).
Proof.
  unfold fresh_ids, updateRegistration. cbn [registrations registrations_id_seq].
  intros Hfresh. apply Forall_fmap. eapply Forall_impl; [exact Hfresh|].
  intros r Hr. cbn. by case_decide.
Qed.

Lemma fresh_ids_create st now data st1 registration :
  createRegistration st now data = Normal (st1, registration) ->
  fresh_ids st -> fresh_ids st1.
Proof.
  intros (_ & _ & Hrows & _ & Hseq & Hid & _)%createRegistration_Normal.
  unfold fresh_ids. rewrite Hrows, Hseq. intros Hfresh. apply Forall_app. split.
  - eapply Forall_impl; [exact Hfresh|]. intros r Hr. cbn in *. lia.
  - apply Forall_singleton. lia.
Qed.

(** The handler from the insert on, by what the insert does. *)
Lemma register_refused st now fetch data e :
  createRegistration st now data = Throw e ->
  register hmac_sha256_hex JSON_stringify st now fetch data
  = reply st 500 (Message "Failed to create registration").
Proof. unfold register. by intros ->. Qed.

Lemma fresh_ids_register st now fetch data :
  fresh_ids st ->
  fresh_ids (storage (register hmac_sha256_hex JSON_stringify st now fetch data)).
Proof.
  intros Hfresh. unfold register.
  destruct (createRegistration st now data) as [[st1 registration]|] eqn:Hcreate;
    [|done].
  pose proof (fresh_ids_create _ _ _ _ _ Hcreate Hfresh) as Hcreated.
  destruct (registrationCreatedPayload registration _) as [payload|]; [|done].
  destruct (triggerWebhooks st1 fetch "registration.created" payload)
    as [sent [[|]|]]; cbn [storage]; try done.
  by apply fresh_ids_update.
Qed.

Lemma fresh_ids_post_registrations st now fetch input :
  fresh_ids st -> fresh_ids (storage (post_registrations st now fetch input)).
Proof.
  intros Hfresh. unfold post_registrations.
  destruct input as [data|]; [|done].
  destruct (getEvent st (ins_eventId data)); [|done].
  case_bool_decide; [done|]. by apply fresh_ids_register.
Qed.

Lemma fresh_ids_post_registration_webhook st now fetch input :
  fresh_ids st -> fresh_ids (storage (post_registration_webhook st now fetch input)).
Proof.
  intros Hfresh. unfold post_registration_webhook.
  destruct input as [id|]; [|done].
  destruct (getRegistration st id) as [registration|]; [|done].
  destruct (getEvent st (reg_eventId registration)); [|done].
  destruct (manualTriggerPayload registration _ now) as [payload|]; [|done].
  destruct (triggerWebhooks st fetch "registration.created" payload)
    as [sent [[|]|]]; cbn [storage]; try done.
  by apply fresh_ids_update.
Qed.

(** C2 (amended).  When a dispatch for a stored registration reports
    success, the stored [webhookStatus] of that registration is [sent]
    afterwards; when it reports failure the status is the one the
    registration had before the dispatch.  For a new registration that is
    the status its submission supplied, and [not_sent] when it supplied
    none or an empty one.  A submission that the database refuses is
    answered 500: no registration is stored and nothing is dispatched.
    Neither endpoint changes a status that is [sent]. *)
Theorem webhookStatus_follows_dispatch :
  (forall st now fetch data eventInfo st1 registration payload,
     fresh_ids st ->
     getEvent st (ins_eventId data) = Some eventInfo ->
     getEventRegistrationCount st (ins_eventId data) < ev_capacity eventInfo ->
     createRegistration st now data = Normal (st1, registration) ->
     registrationCreatedPayload registration (Some eventInfo) = Normal payload ->
     exists success,
       (triggerWebhooks st1 fetch "registration.created" payload).2 = Normal success ∧
       reg_webhookStatus registration
       = Some (or_string (ins_webhookStatus data) "not_sent") ∧
       reg_webhookStatus <$>
         getRegistration (storage (post_registrations st now fetch (Some data)))
           (reg_id registration)
       = Some (if success then Some "sent" else reg_webhookStatus registration)) ∧
  (forall st now fetch data eventInfo e,
     getEvent st (ins_eventId data) = Some eventInfo ->
     getEventRegistrationCount st (ins_eventId data) < ev_capacity eventInfo ->
     createRegistration st now data = Throw e ->
     post_registrations st now fetch (Some data)
     = {| storage := st; status := 500;
          body := Message "Failed to create registration"; requests := [] |}) ∧
  (forall st now fetch id registration eventDetails payload,
     getRegistration st id = Some registration ->
     getEvent st (reg_eventId registration) = Some eventDetails ->
     manualTriggerPayload registration eventDetails now = Normal payload ->
     exists success,
       (triggerWebhooks st fetch "registration.created" payload).2 = Normal success ∧
       reg_webhookStatus <$>
         getRegistration (storage (post_registration_webhook st now fetch (Some id))) id
       = Some (if success then Some "sent" else reg_webhookStatus registration)) ∧
  (forall st now fetch id r,
     getRegistration st id = Some r ->
     reg_webhookStatus r = Some "sent" ->
     (forall input,
        exists r',
          getRegistration (storage (post_registrations st now fetch input)) id = Some r' ∧
          reg_webhookStatus r' = Some "sent") ∧
     (forall input,
        exists r',
          getRegistration (storage (post_registration_webhook st now fetch input)) id
          = Some r' ∧
          reg_webhookStatus r' = Some "sent")).
Proof.
  split; [|split; [|split]].
  - intros st now fetch data eventInfo st1 registration payload Hfresh Hev Hroom
      Hcreate Hp.
    destruct (triggerWebhooks_total st1 fetch "registration.created" payload)
      as [success Hsuccess].
    pose proof (createRegistration_Normal _ _ _ _ _ Hcreate)
      as (_ & Hevents & _ & _ & _ & _ & Hevent & _ & Hstatus).
    exists success. split; [done|]. split; [done|].
    unfold post_registrations. rewrite Hev.
    rewrite bool_decide_eq_false_2 by lia.
    unfold register. rewrite Hcreate.
    assert (getEvent st1 (reg_eventId registration) = Some eventInfo) as ->.
    { unfold getEvent. by rewrite Hevents, Hevent. }
    rewrite Hp.
    destruct (triggerWebhooks st1 fetch "registration.created" payload)
      as [sent result] eqn:Et.
    cbn [snd] in Hsuccess. subst result. cbn [storage].
    pose proof (getRegistration_create_new st now data _ _ Hfresh Hcreate) as Hnew.
    destruct success.
    + rewrite getRegistration_update, Hnew. cbn. by case_decide.
    + by rewrite Hnew.
  - intros st now fetch data eventInfo e Hev Hroom Hcreate.
    unfold post_registrations. rewrite Hev.
    rewrite bool_decide_eq_false_2 by lia. by eapply register_refused.
  - intros st now fetch id registration eventDetails payload Hr Hev Hp.
    destruct (triggerWebhooks_total st fetch "registration.created" payload)
      as [success Hsuccess].
    exists success. split; [done|].
    unfold post_registration_webhook. rewrite Hr, Hev, Hp.
    destruct (triggerWebhooks st fetch "registration.created" payload)
      as [sent result] eqn:Et.
    cbn [snd] in Hsuccess. subst result.
    assert (reg_id registration = id) as Hid.
    { unfold getRegistration in Hr. apply head_Some_elem_of in Hr.
      by apply list_elem_of_filter in Hr as [? _]. }
    destruct success; cbn [storage].
    + rewrite getRegistration_update, Hr. cbn. by case_decide.
    + by rewrite Hr.
  - intros st now fetch id r Hr Hsent. split.
    + intros [data|]; unfold post_registrations; [|by eauto].
      destruct (getEvent st (ins_eventId data)) as [eventInfo|]; [|by eauto].
      case_bool_decide; [by eauto|]. unfold register.
      destruct (createRegistration st now data) as [[st1 registration]|] eqn:Hcreate;
        [|by eauto].
      pose proof (getRegistration_create_old _ _ _ _ _ id r Hcreate Hr) as Hold.
      destruct (registrationCreatedPayload registration _); [|by eauto].
      destruct (triggerWebhooks st1 fetch "registration.created" a)
        as [sent [[|]|]]; cbn [storage]; eauto.
      by eapply sent_stays_sent.
    + intros [id'|]; unfold post_registration_webhook; [|by eauto].
      destruct (getRegistration st id') as [registration|]; [|by eauto].
      destruct (getEvent st (reg_eventId registration)); [|by eauto].
      destruct (manualTriggerPayload registration _ now); [|by eauto].
      destruct (triggerWebhooks st fetch "registration.created" a)
        as [sent [[|]|]]; cbn [storage]; eauto.
      by eapply sent_stays_sent.
Qed.

End RegistrationFacts.

Lemma full_event_is_rejected_witness :
  getEventRegistrationCount full_storage 1 = 2 ∧
  post_registrations sample_hmac sample_stringify full_storage
    "2025-01-01T10:10:00.000Z" all_ok (Some (submission ada_form)) =
  {| storage := full_storage; status := 400;
     body := Message "Event is at full capacity"; requests := [] |}.
Proof.
  split; [by vm_compute|].
  apply (full_event_is_rejected sample_hmac sample_stringify full_storage
           "2025-01-01T10:10:00.000Z" all_ok (submission ada_form) launch).
  - by vm_compute.
  - by vm_compute.
Defined.

Lemma webhookStatus_follows_dispatch_witness :
  reg_webhookStatus <$>
    getRegistration
      (storage (post_registrations sample_hmac sample_stringify sample_storage
                  "2025-01-01T10:00:00.000Z" all_ok (Some (submission ada_form))))
      1
  = Some (Some "sent") ∧
  reg_webhookStatus <$>
    getRegistration
      (storage (post_registrations sample_hmac sample_stringify sample_storage
                  "2025-01-01T10:00:00.000Z" all_failing (Some (submission ada_form))))
      1
  = Some (Some "not_sent").
Proof.
  split.
  - edestruct (proj1 (webhookStatus_follows_dispatch sample_hmac sample_stringify)
                 sample_storage "2025-01-01T10:00:00.000Z" all_ok
                 (submission ada_form) launch)
      as (success & Hsuccess & _ & Hstatus).
    + apply Forall_nil_2.
    + by vm_compute.
    + by vm_compute.
    + vm_compute. reflexivity.
    + vm_compute. reflexivity.
    + vm_compute in Hsuccess. injection Hsuccess as <-. exact Hstatus.
  - edestruct (proj1 (webhookStatus_follows_dispatch sample_hmac sample_stringify)
                 sample_storage "2025-01-01T10:00:00.000Z" all_failing
                 (submission ada_form) launch)
      as (success & Hsuccess & _ & Hstatus).
    + apply Forall_nil_2.
    + by vm_compute.
    + by vm_compute.
    + vm_compute. reflexivity.
    + vm_compute. reflexivity.
    + vm_compute in Hsuccess. injection Hsuccess as <-. exact Hstatus.
Defined.

(** C2, as stated, fails.  The submission carries the webhook status
    [sent]; every delivery fails, the dispatch reports failure, and the
    stored status of the new registration is [sent]. *)
Lemma webhookStatus_counterexample :
  let data :=
    {| ins_eventId := 1; ins_formData := ada_form; ins_status := None;
       ins_webhookStatus := Some "sent"; ins_attended := None;
       ins_attendanceNotes := None |} in
  let reply :=
    post_registrations sample_hmac sample_stringify sample_storage
      "2025-01-01T10:00:00.000Z" all_failing (Some data) in
  status reply = 201 ∧
  (exists st1 registration payload,
     createRegistration sample_storage "2025-01-01T10:00:00.000Z" data
     = Normal (st1, registration) ∧
     registrationCreatedPayload registration (Some launch) = Normal payload ∧
     (triggerWebhooks sample_hmac sample_stringify st1 all_failing
        "registration.created" payload).2 = Normal false) ∧
  reg_webhookStatus <$> getRegistration (storage reply) 1 = Some (Some "sent").
Proof.
  cbv zeta. split; [by vm_compute|]. split; [|by vm_compute].
  eexists _, _, _. split; [by vm_compute|]. split; by vm_compute.
Qed.

(** ** The payload of [registration.created] *)

Import JsObject.




(** *** Splitting a full name *)

Lemma includes_space_cons c s :
  JsString.includes (String c s) " " = false ->
  Ascii.eqb c " "%char = false ∧ JsString.includes s " " = false.
Proof.
  cbn [JsString.includes]. intros H.
  apply orb_false_iff in H as [Hp Hs]. split; [|done].
  destruct (Ascii.eqb_spec c " "%char) as [->|]; [|done].
  by destruct s.
Qed.

Lemma append_String c s t : String c s +:+ t = String c (s +:+ t).
Proof. done. Qed.

Lemma append_empty_l t : EmptyString +:+ t = t.
Proof. done. Qed.

Lemma split_space_nonempty s : JsString.split_space s ≠ [].
Proof.
  destruct s as [|c s]; [done|]. cbn [JsString.split_space].
  destruct (Ascii.eqb c " "); [done|]. by destruct (JsString.split_space s).
Qed.

Lemma split_space_first a b :
  JsString.includes a " " = false ->
  JsString.split_space (a +:+ " " +:+ b) = a :: JsString.split_space b.
Proof.
  induction a as [|c a IH]; intros Ha; [done|].
  apply includes_space_cons in Ha as [Hc Ha].
  rewrite append_String. cbn [JsString.split_space]. by rewrite Hc, (IH Ha).
Qed.

Lemma split_space_whole s :
  JsString.includes s " " = false -> JsString.split_space s = [s].
Proof.
  induction s as [|c s IH]; intros Hs; [done|].
  apply includes_space_cons in Hs as [Hc Hs].
  cbn [JsString.split_space]. by rewrite Hc, (IH Hs).
Qed.

Lemma join_cons_cons sep p q ps :
  JsString.join sep (p :: q :: ps) = p +:+ sep +:+ JsString.join sep (q :: ps).
Proof. done. Qed.

Lemma join_split_space s : JsString.join " " (JsString.split_space s) = s.
Proof.
  induction s as [|c s IH]; [done|]. cbn [JsString.split_space].
  destruct (JsString.split_space s) as [|p ps] eqn:E.
  { by destruct (split_space_nonempty s). }
  destruct (Ascii.eqb_spec c " "%char) as [->|Hc].
  - rewrite join_cons_cons, IH. done.
  - destruct ps as [|q ps].
    + cbn [JsString.join] in *. by rewrite IH.
    + rewrite join_cons_cons in *. rewrite append_String. by rewrite IH.
Qed.

Lemma scanField_full_name c key a b :
  JsString.toLowerCase key = "name" ->
  firstName c = EmptyString -> lastName c = EmptyString ->
  JsString.includes a " " = false ->
  scanField c (key, JStr (a +:+ " " +:+ b))
  = {| firstName := a; lastName := b; email := email c |} ∧
  scanField c (key, JStr a)
  = {| firstName := a; lastName := lastName c; email := email c |}.
Proof.
  intros Hk Hf Hl Ha.
  assert (key ≠ "eventName") as Hkey by (by intros ->).
  assert (forall s,
            scanField c (key, JStr s) =
            if (1 <? length (JsString.split_space s))%nat
            then {| firstName := default EmptyString (head (JsString.split_space s));
                    lastName := JsString.join " " (tail (JsString.split_space s));
                    email := email c |}
            else {| firstName := s; lastName := lastName c; email := email c |})
    as Hscan.
  { intros s. unfold scanField. rewrite decide_False by done. rewrite Hk, Hf, Hl.
    done. }
  rewrite !Hscan, (split_space_first a b Ha), (split_space_whole a Ha).
  split; [|done].
  destruct (JsString.split_space b) as [|p ps] eqn:Eb.
  { by destruct (split_space_nonempty b). }
  cbn [length Nat.ltb Nat.leb head tail default]. rewrite <- Eb.
  by rewrite join_split_space.
Qed.

(** The branch for [fullname] is never taken: the key contains [lname]. *)
Lemma scanField_fullname c value :
  scanField c ("fullname", value)
  = {| firstName := firstName c; lastName := js_String value; email := email c |}.
Proof. done. Qed.

Lemma registrationCreatedPayload_contact registration ev :
  plain_keys (reg_formData registration) ->
  exists payload,
    registrationCreatedPayload registration ev = Normal payload ∧
    ((forall e, e ∈ reg_formData registration -> "first_name" ∉ written_keys true e.1) ->
     get "first_name" payload
     = Some (JStr (firstName (scanFormData (reg_formData registration))))) ∧
    ((forall e, e ∈ reg_formData registration -> "last_name" ∉ written_keys true e.1) ->
     get "last_name" payload
     = Some (JStr (lastName (scanFormData (reg_formData registration))))) ∧
    ((forall e, e ∈ reg_formData registration -> "email" ∉ written_keys true e.1) ->
     get "email" payload
     = Some (JStr (email (scanFormData (reg_formData registration))))).
Proof.
  intros Hplain. unfold registrationCreatedPayload.
  edestruct (PayloadFacts.forEach_plain true (reg_formData registration))
    as [payload Hrun]; [done|].
  exists payload. split; [exact Hrun|].
  repeat split; intros Hno;
    by rewrite (PayloadFacts.forEach_get_other _ _ _ _ _ Hrun Hno).
Qed.







(** * Further properties of the code *)

(** ** Identifier normalisation *)

Lemma undashed_app s t : undashed (s +:+ t) = undashed s +:+ undashed t.
Proof.
  induction s as [|c s IH]; [done|]. rewrite append_String. cbn [undashed].
  destruct (Ascii.eqb c "-"); [done|]. by rewrite append_String, IH.
Qed.

Lemma take_word_app n s g r : JsString.take_word n s = Some (g, r) -> s = g +:+ r.
Proof.
  revert s g r. induction n as [|n IH]; intros s g r; simpl.
  - by intros [= <- <-].
  - destruct s as [|c s]; [done|]. destruct (JsString.is_word c); [|done].
    destruct (JsString.take_word n s) as [[g' r']|] eqn:E; simpl; [|done].
    intros [= <- <-]. rewrite append_String. f_equal. eauto.
Qed.

Lemma match_groups_inv s g1 g2 g3 g4 g5 rest :
  match_groups s = Some (g1, g2, g3, g4, g5, rest) ->
  s = g1 +:+ g2 +:+ g3 +:+ g4 +:+ g5 +:+ rest ∧
  String.length g1 = 8%nat ∧ String.length g2 = 4%nat ∧ String.length g3 = 4%nat ∧
  String.length g4 = 4%nat ∧ String.length g5 = 12%nat.
Proof.
  unfold match_groups. intros E.
  apply bind_Some in E as ([h1 r1] & E1 & E).
  apply bind_Some in E as ([h2 r2] & E2 & E).
  apply bind_Some in E as ([h3 r3] & E3 & E).
  apply bind_Some in E as ([h4 r4] & E4 & E).
  apply bind_Some in E as ([h5 r5] & E5 & E).
  simplify_eq.
  pose proof (take_word_app _ _ _ _ E1). pose proof (take_word_app _ _ _ _ E2).
  pose proof (take_word_app _ _ _ _ E3). pose proof (take_word_app _ _ _ _ E4).
  pose proof (take_word_app _ _ _ _ E5).
  apply LabelFacts.take_word_length in E1, E2, E3, E4, E5.
  subst. done.
Qed.

(** X1.  The normalisation of a key only inserts dashes: without its dashes
    the result is the key without its dashes; and a key of fewer than 32
    code units is left as it is. *)
Theorem cleanKey_only_inserts_dashes (key : string) :
  undashed (cleanKey key) = undashed key ∧
  ((String.length key < 32)%nat -> cleanKey key = key).
Proof.
  split.
  - induction key as [|c key IH]; [done|].
    rewrite LabelFacts.cleanKey_eq.
    destruct (match_groups (String c key)) as [[[[[[g1 g2] g3] g4] g5] rest]|] eqn:E.
    + apply match_groups_inv in E as (-> & _). by rewrite !undashed_app.
    + cbn [undashed]. by rewrite IH.
  - induction key as [|c key IH]; [done|]. intros Hlen.
    rewrite LabelFacts.cleanKey_eq.
    destruct (match_groups (String c key)) as [[[[[[g1 g2] g3] g4] g5] rest]|] eqn:E.
    + apply match_groups_inv in E as (E & H1 & H2 & H3 & H4 & H5).
      rewrite E in Hlen. rewrite !LabelFacts.length_app in Hlen. lia.
    + f_equal. apply IH. simpl in Hlen. lia.
Qed.

Lemma take_word_exact g r :
  all_word g -> JsString.take_word (String.length g) (g +:+ r) = Some (g, r).
Proof.
  unfold all_word. induction g as [|c g IH]; intros Hg; [done|].
  cbn [list_ascii_of_string] in Hg. apply Forall_cons in Hg as [Hc Hg].
  rewrite append_String. cbn [String.length JsString.take_word]. rewrite Hc.
  by rewrite (IH Hg).
Qed.

Lemma undashed_word g : all_word g -> undashed g = g.
Proof.
  unfold all_word. induction g as [|c g IH]; intros Hg; [done|].
  cbn [list_ascii_of_string] in Hg. apply Forall_cons in Hg as [Hc Hg].
  cbn [undashed]. destruct (Ascii.eqb_spec c "-"%char) as [->|_]; [done|].
  by rewrite (IH Hg).
Qed.

(** X2.  A key that starts with 32 word characters gets dashes after its
    8th, 12th, 16th and 20th character, whatever follows; removing the dashes
    from the 36 characters gives the 32 back. *)
Theorem cleanKey_canonical (g1 g2 g3 g4 g5 rest : string) :
  all_word g1 -> all_word g2 -> all_word g3 -> all_word g4 -> all_word g5 ->
  String.length g1 = 8%nat -> String.length g2 = 4%nat -> String.length g3 = 4%nat ->
  String.length g4 = 4%nat -> String.length g5 = 12%nat ->
  cleanKey (g1 +:+ g2 +:+ g3 +:+ g4 +:+ g5 +:+ rest)
  = g1 +:+ "-" +:+ g2 +:+ "-" +:+ g3 +:+ "-" +:+ g4 +:+ "-" +:+ g5 +:+ rest ∧
  undashed (g1 +:+ "-" +:+ g2 +:+ "-" +:+ g3 +:+ "-" +:+ g4 +:+ "-" +:+ g5)
  = g1 +:+ g2 +:+ g3 +:+ g4 +:+ g5.
Proof.
  intros W1 W2 W3 W4 W5 L1 L2 L3 L4 L5. split.
  - rewrite LabelFacts.cleanKey_eq.
    assert (match_groups (g1 +:+ g2 +:+ g3 +:+ g4 +:+ g5 +:+ rest)
            = Some (g1, g2, g3, g4, g5, rest)) as ->; [|done].
    unfold match_groups.
    apply bind_Some. eexists (_, _). split.
    { rewrite <- L1. by apply take_word_exact. }
    apply bind_Some. eexists (_, _). split.
    { rewrite <- L2. by apply take_word_exact. }
    apply bind_Some. eexists (_, _). split.
    { rewrite <- L3. by apply take_word_exact. }
    apply bind_Some. eexists (_, _). split.
    { rewrite <- L4. by apply take_word_exact. }
    apply bind_Some. eexists (_, _). split.
    { rewrite <- L5. by apply take_word_exact. }
    done.
  - rewrite !undashed_app. change (undashed "-") with EmptyString.
    rewrite !append_empty_l. by rewrite !undashed_word.
Qed.

Lemma cleanKey_canonical_witness :
  cleanKey ("4a2b99cf" +:+ "7244" +:+ "4e93" +:+ "8f29" +:+ "2e02c6845960" +:+ "")
  = "4a2b99cf" +:+ "-" +:+ "7244" +:+ "-" +:+ "4e93" +:+ "-" +:+ "8f29" +:+ "-"
    +:+ "2e02c6845960" +:+ "" ∧
  undashed ("4a2b99cf" +:+ "-" +:+ "7244" +:+ "-" +:+ "4e93" +:+ "-" +:+ "8f29" +:+ "-"
            +:+ "2e02c6845960")
  = "4a2b99cf" +:+ "7244" +:+ "4e93" +:+ "8f29" +:+ "2e02c6845960".
Proof.
  apply (cleanKey_canonical "4a2b99cf" "7244" "4e93" "8f29" "2e02c6845960" "");
    try reflexivity; repeat constructor.
Defined.

(** ** The snake_case conversion *)

Lemma is_snake_plain c :
  JsString.is_snake c = true ->
  JsString.toLowerChar c = c ∧ JsString.is_space c = false.
Proof.
  destruct c as [[|] [|] [|] [|] [|] [|] [|] [|]]; intros H; vm_compute in H;
    try discriminate; by vm_compute.
Qed.

Lemma strip_non_snake_all s : all_snake (JsString.strip_non_snake s).
Proof.
  unfold all_snake. induction s as [|c s IH]; [constructor|].
  cbn [JsString.strip_non_snake]. destruct (JsString.is_snake c) eqn:Ec; [|done].
  cbn [list_ascii_of_string]. by constructor.
Qed.

Lemma strip_non_snake_id s : all_snake s -> JsString.strip_non_snake s = s.
Proof.
  unfold all_snake. induction s as [|c s IH]; intros Hs; [done|].
  cbn [list_ascii_of_string] in Hs. apply Forall_cons in Hs as [Hc Hs].
  cbn [JsString.strip_non_snake]. by rewrite Hc, (IH Hs).
Qed.

Lemma toLowerCase_id s : all_snake s -> JsString.toLowerCase s = s.
Proof.
  unfold all_snake. induction s as [|c s IH]; intros Hs; [done|].
  cbn [list_ascii_of_string] in Hs. apply Forall_cons in Hs as [Hc Hs].
  cbn [JsString.toLowerCase]. destruct (is_snake_plain c Hc) as [-> _].
  by rewrite (IH Hs).
Qed.

Lemma replace_spaces_id b s : all_snake s -> JsString.replace_spaces_from b s = s.
Proof.
  unfold all_snake. revert b. induction s as [|c s IH]; intros b Hs; [done|].
  cbn [list_ascii_of_string] in Hs. apply Forall_cons in Hs as [Hc Hs].
  cbn [JsString.replace_spaces_from]. destruct (is_snake_plain c Hc) as [_ ->].
  by rewrite (IH _ Hs).
Qed.

Lemma toLowerCase_length s : String.length (JsString.toLowerCase s) = String.length s.
Proof. induction s as [|c s IH]; [done|]. simpl. by rewrite IH. Qed.

Lemma replace_spaces_length b s :
  (String.length (JsString.replace_spaces_from b s) <= String.length s)%nat.
Proof.
  revert b. induction s as [|c s IH]; intros b; [done|].
  cbn [JsString.replace_spaces_from].
  pose proof (IH true). pose proof (IH false).
  destruct (JsString.is_space c); [destruct b|]; simpl; lia.
Qed.

Lemma strip_non_snake_length s :
  (String.length (JsString.strip_non_snake s) <= String.length s)%nat.
Proof.
  induction s as [|c s IH]; [done|]. cbn [JsString.strip_non_snake].
  destruct (JsString.is_snake c); simpl; lia.
Qed.

(** X3.  A snake_case key has only the characters a-z, 0-9 and underscore,
    is no longer than the label it comes from, and is its own snake_case
    key. *)
Theorem snake_case_normal_form (label : string) :
  all_snake (snake_case label) ∧
  (String.length (snake_case label) <= String.length label)%nat ∧
  snake_case (snake_case label) = snake_case label.
Proof.
  split; [apply strip_non_snake_all|]. split.
  - unfold snake_case.
    pose proof (strip_non_snake_length
                  (JsString.replace_spaces (JsString.toLowerCase label))).
    pose proof (replace_spaces_length false (JsString.toLowerCase label)).
    pose proof (toLowerCase_length label). unfold JsString.replace_spaces in *. lia.
  - pose proof (strip_non_snake_all
                  (JsString.replace_spaces (JsString.toLowerCase label))) as Hall.
    fold (snake_case label) in Hall. unfold snake_case at 1.
    rewrite (toLowerCase_id _ Hall). unfold JsString.replace_spaces.
    rewrite (replace_spaces_id _ _ Hall). by apply strip_non_snake_id.
Qed.

(** ** The two payloads *)



(** ** Registration and the network *)

Section EndpointFacts.

Variable hmac_sha256_hex : string -> string -> string.
Variable JSON_stringify : JsObject -> string.

Local Abbreviation deliveryRequest := (deliveryRequest hmac_sha256_hex JSON_stringify).
Local Abbreviation delivered := (delivered hmac_sha256_hex JSON_stringify).
Local Abbreviation triggerWebhooks := (triggerWebhooks hmac_sha256_hex JSON_stringify).
Local Abbreviation post_registrations :=
  (post_registrations hmac_sha256_hex JSON_stringify).
Local Abbreviation post_registration_webhook :=
  (post_registration_webhook hmac_sha256_hex JSON_stringify).
Local Abbreviation post_webhooks_test :=
  (post_webhooks_test hmac_sha256_hex JSON_stringify).
Local Abbreviation patch_registration :=
  (patch_registration hmac_sha256_hex JSON_stringify).
Local Abbreviation post_webhooks_trigger :=
  (post_webhooks_trigger hmac_sha256_hex JSON_stringify).
Local Abbreviation post_webhooks_test_event :=
  (post_webhooks_test_event hmac_sha256_hex JSON_stringify).
Local Abbreviation post_events := (post_events hmac_sha256_hex JSON_stringify).
Local Abbreviation validateZapierSignature :=
  (validateZapierSignature hmac_sha256_hex JSON_stringify).
Local Abbreviation handleTriggerWebhook :=
  (handleTriggerWebhook hmac_sha256_hex JSON_stringify).

Lemma requests_whatever_network st fetch fetch' eventType payload :
  (triggerWebhooks st fetch eventType payload).1
  = (triggerWebhooks st fetch' eventType payload).1.
Proof. by rewrite !triggerWebhooks_requests. Qed.

Lemma update_sent_without st id :
  map without_webhookStatus (registrations (updateRegistration st id webhookStatus_sent))
  = map without_webhookStatus (registrations st).
Proof.
  unfold updateRegistration. cbn [registrations]. rewrite map_map.
  apply map_ext. intros r. by case_decide.
Qed.

(** X5.  What the network does to the deliveries changes nothing of a
    registration but its webhook status: the reply of
    [POST /api/registrations], the requests it issues and the stored rows
    without their webhook status are the same on any two networks. *)
Theorem registration_whatever_network (st : Storage) (now : string)
    (fetch fetch' : Network) (input : option InsertRegistration) :
  let r := post_registrations st now fetch input in
  let r' := post_registrations st now fetch' input in
  status r = status r' ∧ body r = body r' ∧ requests r = requests r' ∧
  events (storage r) = events (storage r') ∧
  webhooks (storage r) = webhooks (storage r') ∧
  registrations_id_seq (storage r) = registrations_id_seq (storage r') ∧
  map without_webhookStatus (registrations (storage r))
  = map without_webhookStatus (registrations (storage r')).
Proof.
  unfold post_registrations. destruct input as [data|]; [|done].
  destruct (getEvent st (ins_eventId data)); [|done].
  case_bool_decide; [done|]. unfold register.
  destruct (createRegistration st now data) as [[st1 registration]|]; [|done].
  destruct (registrationCreatedPayload registration _) as [payload|]; [|done].
  pose proof (requests_whatever_network st1 fetch fetch' "registration.created" payload)
    as Hreq.
  destruct (triggerWebhooks st1 fetch "registration.created" payload) as [sent success].
  destruct (triggerWebhooks st1 fetch' "registration.created" payload)
    as [sent' success'].
  cbn [fst] in Hreq. subst sent'. cbn [storage status body requests].
  repeat split; try done;
    destruct success as [[|]|]; destruct success' as [[|]|];
    try done; by rewrite ?update_sent_without.
Qed.

Lemma count_update_sent st id eventId :
  getEventRegistrationCount (updateRegistration st id webhookStatus_sent) eventId
  = getEventRegistrationCount st eventId.
Proof.
  unfold getEventRegistrationCount, updateRegistration. cbn [registrations]. f_equal.
  induction (registrations st) as [|r l IH]; [done|].
  cbn [map]. rewrite !filter_cons.
  assert (reg_eventId (if decide (reg_id r = id)
                       then apply_update webhookStatus_sent r else r)
          = reg_eventId r) as -> by (by case_decide).
  case_decide; simpl; by rewrite IH.
Qed.

Lemma count_create st now data st1 registration eventId :
  createRegistration st now data = Normal (st1, registration) ->
  getEventRegistrationCount st1 eventId
  = getEventRegistrationCount st eventId
    + (if decide (ins_eventId data = eventId) then 1 else 0).
Proof.
  intros (_ & _ & Hrows & _ & _ & _ & Hevent & _)%createRegistration_Normal.
  unfold getEventRegistrationCount. rewrite Hrows.
  rewrite filter_app, length_app, filter_cons, filter_nil, Hevent.
  case_decide; simpl; lia.
Qed.

(** The handler from its insert on: what it stores and what it answers. *)
Lemma register_stores st now fetch data :
  registration_refused data = false ->
  events (storage (register hmac_sha256_hex JSON_stringify st now fetch data))
  = events st ∧
  forall eventId,
    getEventRegistrationCount
      (storage (register hmac_sha256_hex JSON_stringify st now fetch data)) eventId
    = getEventRegistrationCount st eventId
      + (if decide (ins_eventId data = eventId) then 1 else 0).
Proof.
  intros Hok. unfold register.
  destruct (createRegistration st now data) as [[st1 registration]|e] eqn:Hcreate.
  - pose proof (fun eventId => count_create _ _ _ _ _ eventId Hcreate) as Hcount.
    apply createRegistration_Normal in Hcreate as (_ & Hevents & _).
    destruct (registrationCreatedPayload registration _) as [payload|]; [|done].
    destruct (triggerWebhooks st1 fetch "registration.created" payload)
      as [sent [[|]|]]; cbn [storage]; try done.
    split; [done|]. intros eventId. by rewrite count_update_sent.
  - apply createRegistration_Throw in Hcreate. congruence.
Qed.

Lemma register_answers st now fetch data :
  registration_refused data = false ->
  plain_keys (jsonb_object (ins_formData data)) ->
  status (register hmac_sha256_hex JSON_stringify st now fetch data) = 201.
Proof.
  intros Hok Hplain. unfold register, createRegistration. rewrite Hok.
  cbv beta iota zeta. unfold registrationCreatedPayload. cbn [reg_formData].
  edestruct (PayloadFacts.forEach_plain true (jsonb_object (ins_formData data)))
    as [payload Hrun]; [exact Hplain|].
  rewrite Hrun.
  by destruct (triggerWebhooks _ fetch "registration.created" payload)
    as [sent [[|]|]].
Qed.

(** The handler with its awaits, run with nothing in between, is the
    handler. *)
Lemma run_registration_insert st now fetch data :
  run (registration_insert hmac_sha256_hex JSON_stringify now fetch data) st
  = answered (register hmac_sha256_hex JSON_stringify st now fetch data).
Proof.
  unfold registration_insert, register, answered. cbn [run].
  destruct (createRegistration st now data) as [[st1 registration]|]; [|done].
  cbn [run]. destruct (registrationCreatedPayload registration _); [|done].
  cbn [run].
  by destruct (triggerWebhooks st1 fetch "registration.created" _)
    as [sent [[|]|]].
Qed.

Lemma run_registration_handler st now fetch input :
  run (registration_handler hmac_sha256_hex JSON_stringify now fetch input) st
  = answered (post_registrations st now fetch input).
Proof.
  unfold registration_handler, post_registrations.
  destruct input as [data|]; [|done]. cbn [run].
  destruct (getEvent st (ins_eventId data)); [|done]. cbn [run].
  case_bool_decide; [done|]. apply run_registration_insert.
Qed.


(** ** Deleting a registration *)

Lemma filter_id_after_delete id (l : list Registration) :
  filter (fun r => reg_id r = id) (filter (fun r => reg_id r ≠ id) l) = [].
Proof.
  induction l as [|r l IH]; [done|]. rewrite filter_cons.
  case_decide; [|done]. rewrite filter_cons. by case_decide.
Qed.

Lemma filter_other_after_delete id id' (l : list Registration) :
  id' ≠ id ->
  filter (fun r => reg_id r = id') (filter (fun r => reg_id r ≠ id) l)
  = filter (fun r => reg_id r = id') l.
Proof.
  intros Hne. induction l as [|r l IH]; [done|]. rewrite !filter_cons.
  repeat case_decide; rewrite ?filter_cons; repeat case_decide;
    rewrite ?IH; congruence.
Qed.

Lemma count_after_delete id eventId (l : list Registration) :
  (length (filter (fun r => reg_eventId r = eventId)
             (filter (fun r => reg_id r ≠ id) l))
   <= length (filter (fun r => reg_eventId r = eventId) l))%nat.
Proof.
  induction l as [|r l IH]; [done|]. rewrite !filter_cons.
  repeat case_decide; rewrite ?filter_cons; repeat case_decide; simpl; lia.
Qed.

Lemma count_after_delete_lt id (l : list Registration) r :
  head (filter (fun r => reg_id r = id) l) = Some r ->
  (length (filter (fun x => reg_eventId x = reg_eventId r)
             (filter (fun x => reg_id x ≠ id) l))
   < length (filter (fun x => reg_eventId x = reg_eventId r) l))%nat.
Proof.
  induction l as [|x l IH]; [done|]. rewrite !filter_cons.
  pose proof (count_after_delete id (reg_eventId r) l) as Hle.
  destruct (decide (reg_id x = id)) as [Hx|Hx].
  - intros [= ->]. rewrite decide_False by (by intros ?).
    rewrite decide_True by done. simpl. lia.
  - intros Hr. specialize (IH Hr). rewrite decide_True by done.
    rewrite filter_cons. case_decide; simpl; lia.
Qed.

(** X7.  After [deleteRegistration] the identifier is gone and every other
    registration is read as before; the result tells whether a row was
    there; no event has more registrations than before, and the event of the
    deleted registration has fewer. *)
Theorem deleteRegistration_removes (st : Storage) (id : Z) :
  let st' := (deleteRegistration st id).1 in
  getRegistration st' id = None ∧
  (forall id', id' ≠ id -> getRegistration st' id' = getRegistration st id') ∧
  ((deleteRegistration st id).2 = true <-> is_Some (getRegistration st id)) ∧
  (forall eventId,
     getEventRegistrationCount st' eventId <= getEventRegistrationCount st eventId) ∧
  (forall r, getRegistration st id = Some r ->
     getEventRegistrationCount st' (reg_eventId r)
     < getEventRegistrationCount st (reg_eventId r)) ∧
  events st' = events st ∧ webhooks st' = webhooks st.
Proof.
  unfold deleteRegistration, getRegistration, getEventRegistrationCount.
  cbn [fst snd with_registrations registrations events webhooks].
  repeat split.
  - by rewrite filter_id_after_delete.
  - intros id' Hne. by rewrite filter_other_after_delete.
  - intros Hb%bool_decide_eq_true. by apply head_is_Some.
  - intros Hs%head_is_Some. by apply bool_decide_eq_true.
  - intros eventId. pose proof (count_after_delete id eventId (registrations st)). lia.
  - intros r Hr. pose proof (count_after_delete_lt id (registrations st) r Hr). lia.
Qed.

(** X8.  In a storage where no event is beyond its capacity, deleting a
    registration frees its seat: the next registration for the same event is
    not refused for capacity.  When the database takes the submission the
    registration is stored, and the answer is 201, or 500 if the payload
    cannot be built; when it refuses the submission the answer is 500 and
    nothing is stored. *)
Theorem deleted_registration_frees_a_seat (st : Storage) (now : string)
    (fetch : Network) (id : Z) (r : Registration) (event : Event)
    (data : InsertRegistration) :
  within_capacity st ->
  getRegistration st id = Some r ->
  getEvent st (reg_eventId r) = Some event ->
  ins_eventId data = reg_eventId r ->
  let st' := (deleteRegistration st id).1 in
  let reply := post_registrations st' now fetch (Some data) in
  body reply ≠ Message "Event is at full capacity" ∧
  (registration_refused data = false ->
   (status reply = 201 ∨ status reply = 500) ∧
   getEventRegistrationCount (storage reply) (reg_eventId r)
   = getEventRegistrationCount st' (reg_eventId r) + 1) ∧
  (registration_refused data = true ->
   status reply = 500 ∧ storage reply = st').
Proof.
  intros Hcap Hr Hev Hdata st' reply.
  assert (getEventRegistrationCount st' (reg_eventId r)
          < getEventRegistrationCount st (reg_eventId r)) as Hlt.
  { unfold getEventRegistrationCount.
    pose proof (count_after_delete_lt id (registrations st) r Hr).
    subst st'. unfold deleteRegistration. cbn [fst with_registrations registrations].
    lia. }
  assert (events st' = events st) as Hevs by done.
  specialize (Hcap _ _ Hev).
  assert (0 <= getEventRegistrationCount st' (reg_eventId r)) as Hpos.
  { unfold getEventRegistrationCount. lia. }
  assert (getEvent st' (reg_eventId r) = Some event) as Hev'.
  { unfold getEvent. by rewrite Hevs. }
  assert (reply = register hmac_sha256_hex JSON_stringify st' now fetch data) as ->.
  { subst reply. unfold post_registrations. rewrite Hdata, Hev'.
    by rewrite bool_decide_eq_false_2 by lia. }
  split; [|split].
  - unfold register.
    destruct (createRegistration st' now data) as [[st1 registration]|]; [|done].
    destruct (registrationCreatedPayload registration _); [|done].
    by destruct (triggerWebhooks st1 fetch "registration.created" _)
      as [sent [[|]|]].
  - intros Hok. split.
    + unfold register.
      destruct (createRegistration st' now data) as [[st1 registration]|];
        [|by right].
      destruct (registrationCreatedPayload registration _); [|by right].
      destruct (triggerWebhooks st1 fetch "registration.created" _)
        as [sent [[|]|]]; by left.
    + destruct (register_stores st' now fetch data Hok) as [_ ->].
      by rewrite decide_True.
  - intros Hno. unfold register, createRegistration. by rewrite Hno.
Qed.

(** ** The dispatcher's requests *)

(** X9.  [triggerWebhooks] sends one request to each active subscriber of
    the event type, in the order of the table, and none to anyone else: each
    is a POST to the subscriber's URL with the serialised payload as its body
    and a JSON content type.  The network has no say in this: nothing is
    retried, and a failing subscriber does not stop the requests to the
    others. *)
Theorem dispatch_one_post_per_subscriber (st : Storage) (fetch : Network)
    (eventType : string) (payload : JsObject) :
  let sent := (triggerWebhooks st fetch eventType payload).1 in
  map fst sent = getWebhooksByEvent st eventType ∧
  Forall (fun wr =>
            req_url wr.2 = wh_url wr.1 ∧
            req_method wr.2 = "POST" ∧
            req_body wr.2 = JSON_stringify payload ∧
            header "Content-Type" (req_headers wr.2) = Some "application/json")
         sent.
Proof.
  cbv zeta. rewrite triggerWebhooks_requests. split.
  - rewrite map_map. cbn [fst]. apply map_id.
  - apply Forall_fmap, Forall_forall. intros w _. cbn [fst snd].
    destruct (deliveryRequest_signed hmac_sha256_hex JSON_stringify payload w)
      as (_ & ? & ? & ? & ?).
    done.
Qed.

(** ** [POST /api/webhooks/test] *)

Lemma substring_length n s : (String.length (String.substring 0 n s) <= n)%nat.
Proof.
  revert s. induction n as [|n IH]; intros [|c s]; simpl; try lia.
  specialize (IH s). lia.
Qed.

(** X10.  The test endpoint writes nothing to the storage and sends at most
    one request, to the webhook it was given and only if that webhook is
    active, whatever event types the webhook subscribes to.  Its report never
    carries more than 1000 characters of the response, and its success flag
    is exactly a 2xx status, also when the response could not be read. *)
Theorem webhook_test_reads_only (st : Storage) (now : string) (fetch : Network)
    (b : TestBody) :
  let r := post_webhooks_test st now fetch b in
  storage r = st ∧
  (length (requests r) <= 1)%nat ∧
  (forall w request, (w, request) ∈ requests r ->
     getWebhook st (webhookId b) = Some w ∧ wh_id w = webhookId b ∧
     wh_active w = Some true ∧ req_url request = wh_url w) ∧
  (forall ok code response, body r = TestReport ok code response ->
     (String.length response <= 1000)%nat ∧ (ok = true <-> 200 <= code <= 299)).
Proof.
  cbv zeta. unfold post_webhooks_test.
  assert (forall code m,
    storage (reply st code (Message m)) = st ∧
    (length (requests (reply st code (Message m))) <= 1)%nat ∧
    (forall w request, (w, request) ∈ requests (reply st code (Message m)) ->
       getWebhook st (webhookId b) = Some w ∧ wh_id w = webhookId b ∧
       wh_active w = Some true ∧ req_url request = wh_url w) ∧
    (forall ok code' response,
       body (reply st code (Message m)) = TestReport ok code' response ->
       (String.length response <= 1000)%nat ∧ (ok = true <-> 200 <= code' <= 299)))
    as Hreply.
  { intros code m. cbn. split; [done|]. split; [lia|]. split; [|done].
    by intros w request ?%elem_of_nil. }
  destruct ((webhookId b =? 0) || falsy (eventType b) || falsy (data b));
    [apply Hreply|].
  destruct (getWebhook st (webhookId b)) as [webhook|] eqn:Hw; [|apply Hreply].
  case_bool_decide as Hactive; cbn [negb]; [|apply Hreply].
  assert (wh_id webhook = webhookId b) as Hid.
  { unfold getWebhook in Hw. apply head_Some_elem_of in Hw.
    by apply list_elem_of_filter in Hw as [? _]. }
  match goal with |- context [fetch webhook ?q] => destruct (fetch webhook q) end;
    cbn [storage requests body length]; (split; [done|]); (split; [lia|]);
    (split; [|try done]).
  - by intros w request [= -> ->]%list_elem_of_singleton.
  - by intros w request [= -> ->]%list_elem_of_singleton.
  - intros ok code response [= <- <- <-]. split; [apply substring_length|].
    apply response_ok_spec.
Qed.

(** ** [POST /api/webhooks/trigger] *)

Lemma lower_to_end_spec s :
  lower_to_end s = true <-> s ≠ EmptyString ∧ all_lower s.
Proof.
  unfold all_lower. induction s as [|c s IH]; [by split; [|intros [? _]]|].
  cbn [lower_to_end list_ascii_of_string]. rewrite Forall_cons.
  destruct s as [|c' s].
  - cbn [list_ascii_of_string]. split.
    + intros Hc. split; [done|]. split; [done|constructor].
    + by intros (_ & ? & _).
  - rewrite andb_true_iff, IH. split.
    + by intros (? & _ & ?).
    + by intros (_ & ? & ?).
Qed.

Lemma all_lower_cons c s : all_lower (String c s) <-> is_lower c = true ∧ all_lower s.
Proof.
  unfold all_lower. cbn [list_ascii_of_string].
  apply (Forall_cons (fun c => is_lower c = true)).
Qed.

Lemma lower_dot_lower_spec seen s :
  lower_dot_lower seen s = true <->
  exists a b, s = a +:+ "." +:+ b ∧ (seen = true ∨ a ≠ EmptyString) ∧
              all_lower a ∧ b ≠ EmptyString ∧ all_lower b.
Proof.
  revert seen. induction s as [|c s IH]; intros seen.
  - split; [done|]. intros (a & b & Hs & _). by destruct a.
  - cbn [lower_dot_lower]. destruct (is_lower c) eqn:Hc.
    + rewrite IH. split.
      * intros (a & b & -> & _ & Ha & Hb). exists (String c a), b.
        rewrite append_String. split; [done|]. split; [by right|].
        split; [by apply all_lower_cons|done].
      * intros (a & b & Hs & _ & Ha & Hb). destruct a as [|c' a].
        { rewrite append_empty_l in Hs. injection Hs as -> _. by vm_compute in Hc. }
        rewrite append_String in Hs. injection Hs as -> ->.
        apply all_lower_cons in Ha as [_ Ha].
        exists a, b. split; [done|]. split; [by left|]. by split.
    + destruct (Ascii.eqb c ".") eqn:Hdot.
      * apply Ascii.eqb_eq in Hdot as ->. rewrite andb_true_iff, lower_to_end_spec.
        split.
        { intros (-> & ? & ?). exists EmptyString, s. rewrite append_empty_l.
          split; [done|]. split; [by left|]. split; [constructor|done]. }
        intros (a & b & Hs & Hseen & Ha & Hb). destruct a as [|c' a].
        { rewrite append_empty_l in Hs. injection Hs as ->.
          by destruct Hseen as [->|?]. }
        rewrite append_String in Hs. injection Hs as <- _.
        apply all_lower_cons in Ha as [Ha _]. by vm_compute in Ha.
      * split; [done|]. intros (a & b & Hs & _ & Ha & _). destruct a as [|c' a].
        { rewrite append_empty_l in Hs. injection Hs as -> _. by vm_compute in Hdot. }
        rewrite append_String in Hs. injection Hs as <- _.
        apply all_lower_cons in Ha as [Ha _]. congruence.
Qed.

(** X11.  The event types [POST /api/webhooks/trigger] lets through are
    exactly the strings made of one or more letters [a-z], a dot, and one or
    more letters [a-z]: the names need not be among the four event types of
    the schema. *)
Theorem event_type_pattern (s : string) :
  event_type_matches s = true <->
  exists a b, s = a +:+ "." +:+ b ∧ a ≠ EmptyString ∧ b ≠ EmptyString ∧
              all_lower a ∧ all_lower b.
Proof.
  unfold event_type_matches. rewrite lower_dot_lower_spec. split.
  - intros (a & b & ? & [?|?] & ? & ? & ?); [done|]. by exists a, b.
  - intros (a & b & ? & ? & ? & ? & ?). exists a, b.
    split; [done|]. split; [by right|]. by split.
Qed.

Lemma triggerWebhooks_true_iff st fetch eventType payload :
  (triggerWebhooks st fetch eventType payload).2 = Normal true <->
  exists w, w ∈ getWebhooksByEvent st eventType ∧ delivered fetch payload w.
Proof.
  rewrite triggerWebhooks_result. split.
  - intros [= (w & Hw & Hd)%existsb_exists]. exists w. split.
    + by apply list_elem_of_In.
    + by apply (fulfilled_true_settle hmac_sha256_hex JSON_stringify).
  - intros (w & Hw & Hd). f_equal. apply existsb_exists. exists w. split.
    + by apply list_elem_of_In.
    + by apply (fulfilled_true_settle hmac_sha256_hex JSON_stringify).
Qed.

Lemma get_not_key k (o : JsObject) : k ∉ o.*1 -> JsObject.get k o = None.
Proof.
  induction o as [|[k' v] o IH]; [done|]. cbn [fmap list_fmap fst JsObject.get].
  rewrite not_elem_of_cons. intros [? ?]. rewrite decide_False by done. by apply IH.
Qed.

Lemma get_fold_put k (entries o : JsObject) :
  NoDup entries.*1 ->
  JsObject.get k
    (fold_left (fun o' kv => JsObject.put (fst kv) (snd kv) o') entries o)
  = match JsObject.get k entries with
    | Some v => Some v
    | None => JsObject.get k o
    end.
Proof.
  revert o. induction entries as [|[k1 v1] entries IH]; intros o Hnd; [done|].
  cbn [fmap list_fmap fst] in Hnd. apply NoDup_cons in Hnd as [Hk1 Hnd].
  cbn [fold_left fst snd JsObject.get]. rewrite IH by done.
  case_decide as Hk.
  - subst k1. rewrite get_not_key by done. apply JsObjectFacts.get_put_eq.
  - by rewrite JsObjectFacts.get_put_ne.
Qed.

(** X12.  The two keys [POST /api/webhooks/trigger] adds to the data cannot
    be set by the caller: in what is sent, [manual_trigger] is [true] and
    [triggered_at] is the time of the request, whatever the data held under
    these keys; every other key of the data is sent with its value, and no
    other key is. *)
Theorem trigger_metadata_wins (props : JsObject) (now : string) :
  NoDup props.*1 ->
  let sent := enrich (JObj props) now in
  JsObject.get "manual_trigger" sent = Some (JBool true) ∧
  JsObject.get "triggered_at" sent = Some (JStr now) ∧
  (forall k, k ≠ "manual_trigger" -> k ≠ "triggered_at" ->
     JsObject.get k sent = JsObject.get k props).
Proof.
  intros Hnd. cbv zeta. unfold enrich, spread. cbn [own_entries]. split; [|split].
  - apply JsObjectFacts.get_put_eq.
  - rewrite JsObjectFacts.get_put_ne by done. apply JsObjectFacts.get_put_eq.
  - intros k ? ?. rewrite !JsObjectFacts.get_put_ne by done.
    rewrite get_fold_put by done. by destruct (JsObject.get k props).
Qed.

(** X13.  A request to [POST /api/webhooks/trigger] with a well-formed
    event type and an object as data is answered with 200 whatever the
    subscribers do, and changes nothing in the storage.  The message says
    that a webhook was triggered exactly when some active subscriber of that
    event type took the enriched data with a 2xx answer; every request
    carries the enriched data. *)
Theorem trigger_endpoint_reports_delivery (st : Storage) (now : string)
    (fetch : Network) (eventType : string) (data : JsValue) :
  event_type_matches eventType = true ->
  is_object data = true ->
  let r := post_webhooks_trigger st now fetch (Some (JStr eventType)) (Some data) in
  reply_storage r = st ∧
  reply_code r = 200 ∧
  (reply_json r = message_json "Webhook triggered successfully" <->
   exists w, w ∈ getWebhooksByEvent st eventType ∧
             delivered fetch (enrich data now) w) ∧
  (reply_json r = message_json "Webhook triggered successfully" ∨
   reply_json r = message_json "No webhooks were triggered") ∧
  reply_requests r
  = map (fun w => (w, deliveryRequest (enrich data now) w))
      (getWebhooksByEvent st eventType).
Proof.
  intros Htype Hdata. cbv zeta. unfold post_webhooks_trigger.
  assert (falsy (Some (JStr eventType)) = false) as ->.
  { destruct eventType; [by vm_compute in Htype|done]. }
  rewrite Htype. cbn [negb].
  assert (falsy (Some data) = false) as -> by (by destruct data).
  change (default JNull (Some data)) with data.
  rewrite Hdata. cbn [negb orb].
  pose proof (triggerWebhooks_true_iff st fetch eventType (enrich data now)) as Htrue.
  pose proof (triggerWebhooks_requests hmac_sha256_hex JSON_stringify
                st fetch eventType (enrich data now)) as Hsent.
  destruct (triggerWebhooks_total hmac_sha256_hex JSON_stringify
              st fetch eventType (enrich data now)) as [b Hb].
  destruct (triggerWebhooks st fetch eventType (enrich data now)) as [sent success].
  cbn [fst snd] in *. subst success.
  cbn [reply_storage reply_code reply_json reply_requests].
  split; [done|]. split; [done|]. split; [|split; [|done]].
  - rewrite <- Htrue. by destruct b.
  - destruct b; [by left|by right].
Qed.

(** ** [validateZapierSignature] *)

(** X14.  The middleware turns a request away only when the request carries
    a non-empty signature, the webhook of the route exists and has a
    non-empty secret, and the signature is not the HMAC of the serialised
    body under that secret.  A request without a signature passes, also for
    a webhook that has a secret. *)
Theorem zapier_signature_rejects_iff (st : Storage) (signature : option string)
    (webhookId : option Z) (body : JsObject) :
  validateZapierSignature st signature webhookId body = unauthorized <->
  exists s id w secret,
    signature = Some s ∧ s ≠ EmptyString ∧
    webhookId = Some id ∧ getWebhook st id = Some w ∧
    wh_secret w = Some secret ∧ secret ≠ EmptyString ∧
    s ≠ hmac_sha256_hex secret (JSON_stringify body).
Proof.
  unfold validateZapierSignature. split.
  - destruct signature as [s|]; [|by simpl].
    change (default EmptyString (Some s)) with s.
    destruct (truthy_string s) eqn:Hs; [|done]. cbn [negb].
    apply truthy_string_spec in Hs.
    destruct webhookId as [id|]; [|done]. cbn [mbind option_bind].
    destruct (getWebhook st id) as [w|] eqn:Hw; [|done].
    destruct (wh_secret w) as [secret|] eqn:Hsecret; [|done].
    destruct (truthy_string secret) eqn:Hne; [|done]. cbn [negb].
    apply truthy_string_spec in Hne.
    case_bool_decide as Heq; [done|]. intros _. by exists s, id, w, secret.
  - intros (s & id & w & secret & -> & Hs & -> & Hw & Hsecret & Hne & Hdiff).
    change (default EmptyString (Some s)) with s.
    cbn [mbind option_bind]. rewrite Hw, Hsecret.
    apply truthy_string_spec in Hs, Hne. rewrite Hs, Hne. cbn [negb].
    by rewrite bool_decide_eq_false_2.
Qed.

(** X15.  What the dispatcher sends to a webhook passes the middleware of
    that webhook: with the signature header of the request and the payload
    as body, the request is let through, whether the webhook has a secret or
    not. *)
Theorem dispatched_request_passes_validation (st : Storage) (w : Webhook)
    (payload : JsObject) :
  getWebhook st (wh_id w) = Some w ->
  validateZapierSignature st
    (header "X-Webhook-Signature" (req_headers (deliveryRequest payload w)))
    (Some (wh_id w)) payload
  = next.
Proof.
  intros Hw.
  destruct (deliveryRequest_signed hmac_sha256_hex JSON_stringify payload w)
    as ((_ & Hsigned) & Hbody & _).
  unfold validateZapierSignature.
  destruct (header "X-Webhook-Signature" _) as [s|]; [|by simpl].
  change (default EmptyString (Some s)) with s.
  destruct (truthy_string s); [|done]. cbn [negb mbind option_bind]. rewrite Hw.
  destruct (wh_secret w) as [secret|]; [|done].
  destruct (truthy_string secret) eqn:Hne; [|done]. cbn [negb].
  apply truthy_string_spec in Hne. specialize (Hsigned secret eq_refl Hne).
  rewrite Hbody in Hsigned. injection Hsigned as ->.
  by rewrite bool_decide_eq_true_2.
Qed.

(** ** The table of webhooks *)

Lemma getWebhook_None_filter st id :
  getWebhook st id = None -> filter (fun w => wh_id w = id) (webhooks st) = [].
Proof. unfold getWebhook. by destruct (filter _ _). Qed.

(** X16.  A webhook created under a fresh identifier is read back as the
    row [createWebhook] returned, and the other webhooks are read as before.
    From then on it is dispatched to, after the subscribers that were there,
    for exactly the event types it names, unless it was created with
    [active: false]; a webhook created without [active] is active. *)
Theorem created_webhook_joins_dispatch (st : Storage) (id : Z) (now : string)
    (ins : InsertWebhook) :
  getWebhook st id = None ->
  let st' := (createWebhook st id now ins).1 in
  let w := (createWebhook st id now ins).2 in
  getWebhook st' id = Some w ∧
  (forall id', id' ≠ id -> getWebhook st' id' = getWebhook st id') ∧
  (forall t, iw_active ins ≠ Some false -> t ∈ iw_events ins ->
     getWebhooksByEvent st' t = (getWebhooksByEvent st t ++ [w])%list) ∧
  (forall t, iw_active ins = Some false ∨ t ∉ iw_events ins ->
     getWebhooksByEvent st' t = getWebhooksByEvent st t).
Proof.
  intros Hfresh%getWebhook_None_filter. cbv zeta.
  unfold createWebhook, getWebhook, getWebhooksByEvent.
  cbn [fst snd with_webhooks webhooks]. split; [|split; [|split]].
  - rewrite filter_app, Hfresh. cbn [app]. rewrite filter_cons. cbn [wh_id].
    by rewrite decide_True.
  - intros id' Hne. rewrite filter_app, filter_cons, filter_nil. cbn [wh_id].
    rewrite decide_False by done. by rewrite app_nil_r.
  - intros t Hactive Ht. rewrite filter_app, filter_cons, filter_nil.
    cbn [wh_active wh_events]. rewrite decide_True; [done|]. split; [|done].
    by destruct (iw_active ins) as [[|]|].
  - intros t Hoff. rewrite filter_app, filter_cons, filter_nil.
    cbn [wh_active wh_events]. rewrite decide_False; [by rewrite app_nil_r|].
    intros [Hactive Ht]. destruct Hoff as [Hoff|Hoff]; [|done].
    by rewrite Hoff in Hactive.
Qed.

Lemma dispatch_without id (f : Webhook -> Webhook) t (l : list Webhook) :
  (forall w, wh_active (f w) ≠ Some true) ->
  filter (fun w => wh_active w = Some true ∧ t ∈ wh_events w)
    (map (fun w => if decide (wh_id w = id) then f w else w) l)
  = filter (fun w => wh_id w ≠ id)
      (filter (fun w => wh_active w = Some true ∧ t ∈ wh_events w) l).
Proof.
  intros Hoff. induction l as [|w l IH]; [done|]. cbn [map].
  rewrite (filter_cons _ w l).
  destruct (decide (wh_id w = id)) as [Hid|Hid].
  - rewrite filter_cons, decide_False by (intros [? _]; by eapply Hoff).
    rewrite IH. case_decide; [|done]. rewrite filter_cons.
    by rewrite decide_False by (by intros ?).
  - rewrite filter_cons, IH. case_decide; [|done].
    by rewrite filter_cons, decide_True.
Qed.

(** X17.  An update that sets [active] to anything but [true] takes the
    webhook out of every dispatch, whatever else the update changes: the
    subscribers of each event type are then those of before without that
    webhook. *)
Theorem deactivated_webhook_gets_nothing (st st' : Storage) (id : Z)
    (u : WebhookUpdate) (a : option bool) (r : option Webhook) :
  wu_active u = Some a ->
  a ≠ Some true ->
  updateWebhook st id u = Normal (st', r) ->
  forall t, getWebhooksByEvent st' t
            = filter (fun w => wh_id w ≠ id) (getWebhooksByEvent st t).
Proof.
  intros Hu Ha. unfold updateWebhook.
  destruct (no_webhook_values u); [done|]. intros [= <- _] t.
  unfold getWebhooksByEvent. cbn [with_webhooks webhooks].
  apply dispatch_without. intros w. cbn [apply_webhook_update wh_active].
  by rewrite Hu.
Qed.

Lemma delete_dispatch id t (l : list Webhook) :
  filter (fun w => wh_active w = Some true ∧ t ∈ wh_events w)
    (filter (fun w => wh_id w ≠ id) l)
  = filter (fun w => wh_id w ≠ id)
      (filter (fun w => wh_active w = Some true ∧ t ∈ wh_events w) l).
Proof.
  induction l as [|w l IH]; [done|]. rewrite !(filter_cons _ w l).
  repeat case_decide; rewrite ?filter_cons; repeat case_decide; try done.
  by rewrite IH.
Qed.

Lemma filter_key_after_delete {A} (key : A -> Z) id id' (l : list A) :
  filter (fun x => key x = id') (filter (fun x => key x ≠ id) l)
  = if decide (id' = id) then [] else filter (fun x => key x = id') l.
Proof.
  induction l as [|x l IH]; [by case_decide|]. rewrite !(filter_cons _ x l).
  repeat case_decide; rewrite ?filter_cons; repeat case_decide;
    rewrite ?IH; repeat case_decide; congruence.
Qed.

(** X18.  After [deleteWebhook] the webhook is gone and receives nothing:
    the subscribers of each event type are those of before without it, the
    other webhooks are read as before, and the result tells whether a row
    was there. *)
Theorem deleted_webhook_gets_nothing (st : Storage) (id : Z) :
  let st' := (deleteWebhook st id).1 in
  getWebhook st' id = None ∧
  (forall id', id' ≠ id -> getWebhook st' id' = getWebhook st id') ∧
  (forall t, getWebhooksByEvent st' t
             = filter (fun w => wh_id w ≠ id) (getWebhooksByEvent st t)) ∧
  ((deleteWebhook st id).2 = true <-> is_Some (getWebhook st id)).
Proof.
  cbv zeta. unfold deleteWebhook, getWebhook, getWebhooksByEvent.
  cbn [fst snd with_webhooks webhooks]. split; [|split; [|split]].
  - rewrite (filter_key_after_delete wh_id). by rewrite decide_True.
  - intros id' Hne. rewrite (filter_key_after_delete wh_id).
    by rewrite decide_False.
  - intros t. apply delete_dispatch.
  - split.
    + intros Hb%bool_decide_eq_true. by apply head_is_Some.
    + intros Hs%head_is_Some. by apply bool_decide_eq_true.
Qed.

(** ** Events *)

(** X19.  Deleting an event deletes none of its registrations.  They stay
    in the table, and from then on the manual trigger of such a registration
    answers 404 for the missing event and sends nothing, as does a new
    registration for the deleted event. *)
Theorem deleted_event_keeps_registrations (st : Storage) (id : Z) :
  let st' := (deleteEvent st id).1 in
  getEvent st' id = None ∧
  registrations st' = registrations st ∧
  (forall now fetch rid r,
     getRegistration st rid = Some r -> reg_eventId r = id ->
     let h := post_registration_webhook st' now fetch (Some rid) in
     status h = 404 ∧ body h = Message "Associated event not found" ∧
     requests h = [] ∧ storage h = st') ∧
  (forall now fetch data,
     ins_eventId data = id ->
     let h := post_registrations st' now fetch (Some data) in
     status h = 404 ∧ body h = Message "Event not found" ∧
     requests h = [] ∧ storage h = st').
Proof.
  cbv zeta.
  assert (getEvent (deleteEvent st id).1 id = None) as Hgone.
  { unfold getEvent, deleteEvent. cbn [fst with_events events].
    rewrite (filter_key_after_delete ev_id). by rewrite decide_True. }
  split; [done|]. split; [done|]. split.
  - intros now fetch rid r Hr Hid. unfold post_registration_webhook.
    change (getRegistration (deleteEvent st id).1 rid) with (getRegistration st rid).
    by rewrite Hr, Hid, Hgone.
  - intros now fetch data Hid. unfold post_registrations. by rewrite Hid, Hgone.
Qed.

Lemma apply_event_as_update e : apply_event_update (event_as_update e) e = e.
Proof. by destruct e. Qed.

Lemma getEvent_relinked st eventId event id :
  getEvent st eventId = Some event ->
  head (filter (fun e => ev_id e = id)
          (map (fun e => if decide (ev_id e = eventId)
                         then apply_event_update (event_as_update event) e else e)
             (events st)))
  = getEvent st id.
Proof.
  unfold getEvent. intros Hevent.
  assert (ev_id event = eventId) as Hid.
  { apply head_Some_elem_of in Hevent. by apply list_elem_of_filter in Hevent as [? _]. }
  destruct (decide (id = eventId)) as [->|Hne].
  - rewrite Hevent. induction (events st) as [|e l IH]; [done|]. cbn [map].
    rewrite filter_cons in Hevent. rewrite filter_cons.
    destruct (decide (ev_id e = eventId)) as [He|He].
    + injection Hevent as ->. rewrite apply_event_as_update. by rewrite decide_True.
    + rewrite decide_False by done. by apply IH.
  - clear Hevent. induction (events st) as [|e l IH]; [done|]. cbn [map].
    rewrite (filter_cons _ e l), filter_cons.
    destruct (decide (ev_id e = eventId)) as [He|He].
    + change (ev_id (apply_event_update (event_as_update event) e))
        with (ev_id event).
      rewrite !decide_False by congruence. apply IH.
    + case_decide; [|apply IH]. cbn [head]. done.
Qed.

(** X20.  The endpoint that links a form to an event links nothing: every
    event, the one of the request included, is read after the request as it
    was before, so that the event keeps the form it had, and an event made
    by [createEvent] has none.  The endpoint still answers 200, with that
    unchanged event, when the event and the form exist. *)
Theorem link_form_changes_no_event (st : Storage) (forms : list Form)
    (userId eventId formId : option Z) :
  let r := post_event_form st forms userId eventId formId in
  (forall id, getEvent (reply_storage r) id = getEvent st id) ∧
  registrations (reply_storage r) = registrations st ∧
  webhooks (reply_storage r) = webhooks st ∧
  reply_requests r = [] ∧
  (forall id now ins st' event,
     createEvent st id now ins = Normal (st', event) -> ev_formId event = None) ∧
  (forall id fid event form,
     requireAuth userId = true -> eventId = Some id -> formId = Some fid ->
     getEvent st id = Some event -> getForm forms fid = Some form ->
     reply_code r = 200 ∧ reply_json r = JObj (event_json event)).
Proof.
  assert (forall id now ins st' event,
            createEvent st id now ins = Normal (st', event) -> ev_formId event = None)
    as Hcreated.
  { intros id now ins st' event. unfold createEvent.
    destruct (event_refused ins); [done|]. by intros [= _ <-]. }
  cbv zeta. unfold post_event_form.
  destruct (requireAuth userId); cbn [negb]; [|by split_and!].
  destruct eventId as [id|], formId as [fid|]; try by split_and!.
  destruct (getEvent st id) as [event|] eqn:Hevent;
    [|split_and!; try done; by intros * _ [= <-] _ ?; simplify_eq].
  destruct (getForm forms fid) as [form|] eqn:Hform;
    [|split_and!; try done; by intros * _ _ [= <-] _ ?; simplify_eq].
  unfold updateEvent. cbn [no_event_values event_as_update].
  cbn [reply_storage reply_code reply_json reply_requests with_events events
       registrations webhooks].
  split_and!; try done.
  - intros i. by apply getEvent_relinked.
  - intros id' fid' event' form' _ [= <-] [= <-] Hevent' _.
    rewrite Hevent in Hevent'. injection Hevent' as <-. split; [done|].
    assert (head (map (apply_event_update (event_as_update event))
                    (filter (fun e => ev_id e = id) (events st))) = Some event) as ->;
      [|done].
    unfold getEvent in Hevent. destruct (filter _ (events st)) as [|e l]; [done|].
    injection Hevent as ->. cbn [map head]. by rewrite apply_event_as_update.
Qed.

(** ** [PATCH /api/registrations/:id] and the registration table *)

(** X21.  What the subscribers answer to the attendance webhook changes
    nothing of a [PATCH]: the reply, the stored rows and the requests are the
    same on every network.  A body without the key [attended] sends nothing,
    and only a request answered with 200 sends anything. *)
Theorem patch_whatever_network (st : Storage) (now : string) (fetch fetch' : Network)
    (id : option Z) (b : PatchBody) :
  patch_registration st now fetch id b = patch_registration st now fetch' id b ∧
  (patch_has_attended b = false ->
   reply_requests (patch_registration st now fetch id b) = []) ∧
  (reply_code (patch_registration st now fetch id b) ≠ 200 ->
   reply_requests (patch_registration st now fetch id b) = []).
Proof.
  unfold patch_registration.
  destruct (patch_validated b) as [validatedData|answer]; [|done].
  destruct id as [id|]; [|done].
  destruct (updateRegistrationRow st id validatedData) as [[st' [registration|]]|];
    try done.
  cbn [reply_requests reply_code]. split_and!; [|by intros ->|done].
  destruct (patch_has_attended b); [|done].
  destruct (getEvent st' (reg_eventId registration)) as [event|]; [|done].
  by rewrite (requests_whatever_network st' fetch fetch').
Qed.

(** X22.  The button of the registration table marks a registration as
    sent whether or not anything was delivered: whenever the manual trigger
    answers with a 2xx status, which it also does when no subscriber exists
    or every delivery failed, the handler reports success and the stored
    webhook status is [sent]. *)
Theorem table_marks_sent_without_delivery (st : Storage) (now : string)
    (fetch : Network) (id : Z) :
  status (post_registration_webhook st now fetch (Some id)) = 200 ->
  (handleTriggerWebhook st now fetch id).2 = true ∧
  exists r, getRegistration (handleTriggerWebhook st now fetch id).1 id = Some r ∧
            reg_webhookStatus r = Some "sent".
Proof.
  unfold handleTriggerWebhook. intros Hok. rewrite Hok.
  change (response_ok 200) with true. cbn [negb fst snd].
  assert (exists r, getRegistration
                      (storage (post_registration_webhook st now fetch (Some id))) id
                    = Some r) as [r Hr].
  { revert Hok. unfold post_registration_webhook.
    destruct (getRegistration st id) as [r|] eqn:Hr; [|done].
    destruct (getEvent st (reg_eventId r)); [|done].
    destruct (manualTriggerPayload r _ now); [|done].
    destruct (triggerWebhooks st fetch "registration.created" _) as [sent [[|]|]];
      cbn [status storage]; intros _; [|by eauto|by eauto].
    rewrite getRegistration_update, Hr. by eauto. }
  unfold patch_registration, updateRegistrationRow.
  cbn [patch_validated no_registration_values webhookStatus_sent].
  fold webhookStatus_sent. change (update_refused webhookStatus_sent) with false.
  cbv iota.
  rewrite getRegistration_update, Hr.
  cbn [fmap option_fmap option_map reply_storage]. split; [done|].
  rewrite getRegistration_update, Hr.
  cbn [fmap option_fmap option_map]. eexists. split; [done|].
  assert (reg_id r = id) as Hid.
  { unfold getRegistration in Hr. apply head_Some_elem_of in Hr.
    by apply list_elem_of_filter in Hr as [? _]. }
  by rewrite decide_True.
Qed.

(** ** [POST /api/webhooks/test-event] *)

(** X23.  For an event that exists, the test of [event.created] answers 200
    with [success: true] whatever the subscribers do, and writes nothing.
    The number of free seats it sends is never negative, and it is zero
    exactly when a registration for that event would be refused for
    capacity. *)
Theorem test_event_reports_free_seats (st : Storage) (now origin : string)
    (fetch : Network) (id : Z) (event : Event) :
  id ≠ 0 ->
  getEvent st id = Some event ->
  let r := post_webhooks_test_event st now fetch origin id in
  let p := eventCreatedPayload event (getEventRegistrationCount st id) origin now in
  reply_code r = 200 ∧
  reply_json r = JObj [ ("success", JBool true);
                        ("message", JStr "Event webhook triggered successfully") ] ∧
  reply_storage r = st ∧
  reply_requests r
  = map (fun w => (w, deliveryRequest p w)) (getWebhooksByEvent st "event.created") ∧
  exists n,
    JsObject.get "available_spots" p = Some (JNum n) ∧ 0 <= n ∧
    (n = 0 <->
     forall now' fetch' data,
       ins_eventId data = id ->
       body (post_registrations st now' fetch' (Some data))
       = Message "Event is at full capacity").
Proof.
  intros Hid Hevent. cbv zeta. unfold post_webhooks_test_event.
  rewrite (proj2 (Z.eqb_neq id 0)) by done.
  unfold getEventWithRegistrationCount. rewrite Hevent.
  pose proof (triggerWebhooks_requests hmac_sha256_hex JSON_stringify st fetch
                "event.created"
                (eventCreatedPayload event (getEventRegistrationCount st id) origin now))
    as Hsent.
  destruct (triggerWebhooks st fetch "event.created" _) as [sent success].
  cbn [fst] in Hsent. cbn [reply_code reply_json reply_storage reply_requests].
  split_and!; try done.
  exists (available_spots (ev_capacity event) (getEventRegistrationCount st id)).
  split; [done|]. unfold available_spots. split; [lia|]. split.
  - intros Hnone now' fetch' data Hdata. unfold post_registrations.
    rewrite Hdata, Hevent. by rewrite bool_decide_eq_true_2 by lia.
  - intros Hfull.
    specialize (Hfull now fetch
                  {| ins_eventId := id; ins_formData := []; ins_status := None;
                     ins_webhookStatus := None; ins_attended := None;
                     ins_attendanceNotes := None |} eq_refl).
    revert Hfull. unfold post_registrations. cbn [ins_eventId]. rewrite Hevent.
    case_bool_decide as Hcount; [lia|]. unfold register.
    match goal with
    | |- context [createRegistration st now ?d] =>
        destruct (createRegistration st now d) as [[st1 registration]|]; [|done]
    end.
    destruct (registrationCreatedPayload registration _); [|done].
    by destruct (triggerWebhooks st1 fetch "registration.created" _) as [? [[|]|]].
Qed.

(** ** The participant's name *)

Lemma head_omap_Some {A B} (f : A -> option B) (l : list A) (y : B) :
  head (omap f l) = Some y -> exists x, x ∈ l ∧ f x = Some y.
Proof.
  induction l as [|x l IH]; [done|]. cbn [omap list_omap].
  destruct (f x) as [y'|] eqn:Hx.
  - intros [= <-]. exists x. split; [left|done].
  - intros (x' & ? & ?)%IH. exists x'. split; [by right|done].
Qed.

(** X25.  The name [extractParticipantName] gives is the first and the last
    name with one space between them, or the one of the two that is not
    empty, without a space.  It is empty only when neither is there and a
    text field whose key contains [name], or is [participant], holds the
    empty string; the keys [fullname] and [full_name] need no case of their
    own. *)
Theorem participant_name_shape (formData : JsObject) :
  let c := extractStandardFields formData in
  let name := extractParticipantName formData in
  (firstName c ≠ EmptyString -> lastName c ≠ EmptyString ->
   name = firstName c +:+ " " +:+ lastName c) ∧
  (firstName c ≠ EmptyString -> lastName c = EmptyString -> name = firstName c) ∧
  (firstName c = EmptyString -> lastName c ≠ EmptyString -> name = lastName c) ∧
  (name = EmptyString ->
   firstName c = EmptyString ∧ lastName c = EmptyString ∧
   exists key,
     (key, JStr EmptyString) ∈ formData ∧
     (JsString.includes (JsString.toLowerCase key) "name" = true ∨
      JsString.toLowerCase key = "participant")).
Proof.
  cbv zeta. unfold extractParticipantName, join_truthy.
  destruct (extractStandardFields formData) as [f l e]. cbn [firstName lastName].
  rewrite !filter_cons, filter_nil.
  destruct (truthy_string f) eqn:Hf, (truthy_string l) eqn:Hl;
    cbn [orb]; repeat case_decide; try done.
  - apply truthy_string_spec in Hf, Hl. rewrite join_cons_cons. cbn [JsString.join].
    split_and!; try done. intros Hempty. by destruct f.
  - apply truthy_string_spec in Hf.
    assert (l = EmptyString) as ->.
    { destruct (decide (l = EmptyString)) as [|Hne]; [done|].
      apply truthy_string_spec in Hne. congruence. }
    cbn [JsString.join]. split_and!; try done.
  - apply truthy_string_spec in Hl.
    assert (f = EmptyString) as ->.
    { destruct (decide (f = EmptyString)) as [|Hne]; [done|].
      apply truthy_string_spec in Hne. congruence. }
    cbn [JsString.join]. split_and!; try done.
  - assert (f = EmptyString) as ->.
    { destruct (decide (f = EmptyString)) as [|Hne]; [done|].
      apply truthy_string_spec in Hne. congruence. }
    assert (l = EmptyString) as ->.
    { destruct (decide (l = EmptyString)) as [|Hne]; [done|].
      apply truthy_string_spec in Hne. congruence. }
    split_and!; try done. intros Hname. split; [done|]. split; [done|].
    destruct (head (omap name_like formData)) as [s|] eqn:Hhead; [|done].
    change (default "Unknown Participant" (Some s)) with s in Hname. subst s.
    apply head_omap_Some in Hhead as ([key value] & Hin & Hlike).
    unfold name_like in Hlike. destruct value as [| | |s| |]; try done.
    exists key. revert Hlike.
    destruct (JsString.includes (JsString.toLowerCase key) "name") eqn:Hinc.
    + intros [= ->]. split; [done|by left].
    + destruct (decide (JsString.toLowerCase key = "fullname")) as [Hk|?];
        [by rewrite Hk in Hinc|].
      destruct (decide (JsString.toLowerCase key = "full_name")) as [Hk|?];
        [by rewrite Hk in Hinc|].
      rewrite !bool_decide_eq_false_2 by done. cbn [orb].
      case_bool_decide; intros [= ->]. split; [done|by right].
Qed.

(** ** [POST /api/events] *)

(** X26.  Without a session [POST /api/events] stores and sends nothing.
    With one, what the subscribers of [event.created] answer changes neither
    the reply nor the stored rows.  When the database takes the values of an
    accepted body, the event is stored, answered with 201 and sent to each
    subscriber as the stored row, and the row has no form, also when the
    request named one.  When the database refuses them, the answer is 500,
    and nothing is stored or sent. *)
Theorem created_event_has_no_form (st : Storage) (id : Z) (now : string)
    (fetch fetch' : Network) (userId : option Z) (input : Validated InsertEvent) :
  let r := post_events st id now fetch userId input in
  r = post_events st id now fetch' userId input ∧
  (requireAuth userId = false ->
   reply_code r = 401 ∧ reply_storage r = st ∧ reply_requests r = []) ∧
  (forall data,
     requireAuth userId = true -> input = Accepted data ->
     event_refused data = false -> getEvent st id = None ->
     exists event,
       reply_code r = 201 ∧
       getEvent (reply_storage r) id = Some event ∧
       reply_json r = JObj (event_json event) ∧
       ev_formId event = None ∧
       ev_title event = ie_title data ∧
       ev_capacity event = ie_capacity data ∧
       reply_requests r
       = map (fun w => (w, deliveryRequest (event_json event) w))
           (getWebhooksByEvent st "event.created")) ∧
  (forall data,
     requireAuth userId = true -> input = Accepted data ->
     event_refused data = true ->
     reply_code r = 500 ∧ reply_json r = message_json "Failed to create event" ∧
     reply_storage r = st ∧ reply_requests r = []).
Proof.
  cbv zeta. unfold post_events.
  destruct (requireAuth userId); cbn [negb]; [|by split_and!].
  destruct input as [data|answer]; [|by split_and!].
  unfold createEvent. destruct (event_refused data) eqn:Hrefused.
  { split_and!; [done|done| |].
    - intros data' _ [= <-] ?. congruence.
    - by intros data' _ [= <-] _. }
  cbv beta iota zeta.
  match goal with
  | |- context [triggerWebhooks ?s fetch "event.created" (event_json ?e)] =>
      set (st' := s); set (event := e)
  end.
  pose proof (triggerWebhooks_requests hmac_sha256_hex JSON_stringify st' fetch
                "event.created" (event_json event)) as Hsent.
  pose proof (requests_whatever_network st' fetch fetch' "event.created"
                (event_json event)) as Hsame.
  destruct (triggerWebhooks st' fetch "event.created" _) as [sent success].
  destruct (triggerWebhooks st' fetch' "event.created" _) as [sent' success'].
  cbn [fst] in Hsent, Hsame. subst sent'.
  cbn [reply_code reply_storage reply_json reply_requests].
  split_and!; try done; [|by intros data' _ [= <-]; congruence].
  intros data' _ [= <-] _ Hfresh. exists event.
  split_and!; try done.
  unfold getEvent in *. subst st'. cbn [with_events events]. rewrite filter_app.
  destruct (filter _ (events st)); [|done]. cbn [app]. rewrite filter_cons.
  subst event. cbn [ev_id]. by rewrite decide_True.
Qed.

(** ** The payload of [POST /api/webhooks/test] *)

(** X27.  In the test of a webhook the data of the caller is spread last:
    what is sent holds every key of the data with the value of the data,
    also under [event_type], [test] and [timestamp], and these three keep
    the values of the endpoint only where the data has no such key. *)
Theorem test_payload_data_wins (st : Storage) (now : string) (fetch : Network)
    (b : TestBody) (props : JsObject) (w : Webhook) (request : Request) :
  data b = Some (JObj props) ->
  NoDup props.*1 ->
  (w, request) ∈ requests (post_webhooks_test st now fetch b) ->
  exists payload,
    req_body request = JSON_stringify payload ∧
    forall k,
      JsObject.get k payload
      = match JsObject.get k props with
        | Some v => Some v
        | None =>
            JsObject.get k
              [ ("event_type", default JNull (eventType b));
                ("test", JBool true);
                ("timestamp", JStr now) ]
        end.
Proof.
  intros Hdata Hnd. unfold post_webhooks_test. rewrite Hdata.
  destruct ((webhookId b =? 0) || falsy (eventType b) || falsy (Some (JObj props)));
    [by intros ?%elem_of_nil|].
  destruct (getWebhook st (webhookId b)) as [webhook|]; [|by intros ?%elem_of_nil].
  case_bool_decide; cbn [negb]; [|by intros ?%elem_of_nil].
  change (default JNull (Some (JObj props))) with (JObj props).
  match goal with |- context [fetch webhook ?q] => destruct (fetch webhook q) end;
    cbn [requests]; intros [= -> ->]%list_elem_of_singleton;
    (eexists; split; [reflexivity|]); intros k; unfold spread; cbn [own_entries];
    by rewrite get_fold_put.
Qed.

End EndpointFacts.


Lemma deleted_registration_frees_a_seat_witness :
  let st' := (deleteRegistration full_storage 1).1 in
  let reply :=
    post_registrations sample_hmac sample_stringify st' "2025-01-01T11:00:00.000Z"
      all_ok (Some (submission ada_form)) in
  body reply ≠ Message "Event is at full capacity" ∧
  (registration_refused (submission ada_form) = false ->
   (status reply = 201 ∨ status reply = 500) ∧
   getEventRegistrationCount (storage reply) 1
   = getEventRegistrationCount st' 1 + 1) ∧
  (registration_refused (submission ada_form) = true ->
   status reply = 500 ∧ storage reply = st').
Proof.
  apply (deleted_registration_frees_a_seat sample_hmac sample_stringify full_storage
           "2025-01-01T11:00:00.000Z" all_ok 1
           {| reg_id := 1; reg_eventId := 1; reg_formData := ada_form;
              reg_status := Some "confirmed"; reg_webhookStatus := Some "sent";
              reg_attended := Some false; reg_attendanceNotes := None;
              reg_createdAt := "2025-01-01T10:00:00.000Z" |}
           launch (submission ada_form)).
  - intros id event. unfold getEvent. change (events full_storage) with [launch].
    rewrite filter_cons, filter_nil. case_decide; [|done].
    intros [= <-]. subst id. by vm_compute.
  - by vm_compute.
  - by vm_compute.
  - reflexivity.
Defined.

Lemma trigger_metadata_wins_witness :
  let sent :=
    enrich (JObj [("manual_trigger", JBool false); ("seat", JStr "12A")])
      "2025-01-01T10:00:00.000Z" in
  JsObject.get "manual_trigger" sent = Some (JBool true) ∧
  JsObject.get "triggered_at" sent = Some (JStr "2025-01-01T10:00:00.000Z") ∧
  (forall k, k ≠ "manual_trigger" -> k ≠ "triggered_at" ->
     JsObject.get k sent
     = JsObject.get k [("manual_trigger", JBool false); ("seat", JStr "12A")]).
Proof.
  apply (trigger_metadata_wins
           [("manual_trigger", JBool false); ("seat", JStr "12A")]).
  cbn [fmap list_fmap fst]. apply NoDup_cons. split.
  - by intros [=]%list_elem_of_singleton.
  - apply NoDup_singleton.
Defined.

Lemma trigger_endpoint_reports_delivery_witness :
  let r :=
    post_webhooks_trigger sample_hmac sample_stringify sample_storage
      "2025-01-01T10:00:00.000Z" all_ok (Some (JStr "registration.created"))
      (Some (JObj [("seat", JStr "12A")])) in
  reply_storage r = sample_storage ∧
  reply_code r = 200 ∧
  (reply_json r = message_json "Webhook triggered successfully" <->
   exists w, w ∈ getWebhooksByEvent sample_storage "registration.created" ∧
             delivered sample_hmac sample_stringify all_ok
               (enrich (JObj [("seat", JStr "12A")]) "2025-01-01T10:00:00.000Z") w) ∧
  (reply_json r = message_json "Webhook triggered successfully" ∨
   reply_json r = message_json "No webhooks were triggered") ∧
  reply_requests r
  = map (fun w => (w, deliveryRequest sample_hmac sample_stringify
                        (enrich (JObj [("seat", JStr "12A")])
                           "2025-01-01T10:00:00.000Z") w))
      (getWebhooksByEvent sample_storage "registration.created").
Proof.
  apply (trigger_endpoint_reports_delivery sample_hmac sample_stringify sample_storage
           "2025-01-01T10:00:00.000Z" all_ok "registration.created"
           (JObj [("seat", JStr "12A")])); reflexivity.
Defined.

Lemma dispatched_request_passes_validation_witness :
  validateZapierSignature sample_hmac sample_stringify sample_storage
    (header "X-Webhook-Signature"
       (req_headers
          (deliveryRequest sample_hmac sample_stringify [("seat", JStr "12A")]
             zapier_hook)))
    (Some (wh_id zapier_hook)) [("seat", JStr "12A")]
  = next.
Proof.
  apply (dispatched_request_passes_validation sample_hmac sample_stringify
           sample_storage zapier_hook).
  reflexivity.
Defined.

Lemma created_webhook_joins_dispatch_witness :
  let ins :=
    {| iw_name := "crm"; iw_url := "https://hooks.example/d"; iw_secret := Some "";
       iw_events := ["registration.created"]; iw_active := None |} in
  let st' := (createWebhook sample_storage 4 "2025-01-01T10:00:00.000Z" ins).1 in
  let w := (createWebhook sample_storage 4 "2025-01-01T10:00:00.000Z" ins).2 in
  getWebhook st' 4 = Some w ∧
  (forall id', id' ≠ 4 -> getWebhook st' id' = getWebhook sample_storage id') ∧
  (forall t, iw_active ins ≠ Some false -> t ∈ iw_events ins ->
     getWebhooksByEvent st' t = (getWebhooksByEvent sample_storage t ++ [w])%list) ∧
  (forall t, iw_active ins = Some false ∨ t ∉ iw_events ins ->
     getWebhooksByEvent st' t = getWebhooksByEvent sample_storage t).
Proof.
  apply (created_webhook_joins_dispatch sample_storage 4). reflexivity.
Defined.

Lemma deactivated_webhook_gets_nothing_witness :
  exists st' r,
    updateWebhook sample_storage 1 switch_off = Normal (st', r) ∧
    getWebhooksByEvent st' "registration.created" = [unsigned_hook].
Proof.
  eexists _, _. split; [reflexivity|].
  rewrite (deactivated_webhook_gets_nothing sample_storage _ 1 switch_off
             (Some false) _ eq_refl ltac:(discriminate) eq_refl).
  reflexivity.
Defined.

Lemma table_marks_sent_without_delivery_witness :
  (handleTriggerWebhook sample_hmac sample_stringify undelivered_storage
     "2025-01-01T11:00:00.000Z" all_failing 1).2 = true ∧
  exists r,
    getRegistration
      (handleTriggerWebhook sample_hmac sample_stringify undelivered_storage
         "2025-01-01T11:00:00.000Z" all_failing 1).1 1 = Some r ∧
    reg_webhookStatus r = Some "sent".
Proof.
  apply (table_marks_sent_without_delivery sample_hmac sample_stringify
           undelivered_storage "2025-01-01T11:00:00.000Z" all_failing 1).
  by vm_compute.
Defined.

Lemma test_event_reports_free_seats_witness :
  let r :=
    post_webhooks_test_event sample_hmac sample_stringify full_storage
      "2025-01-01T11:00:00.000Z" all_failing "https://events.example" 1 in
  let p :=
    eventCreatedPayload launch (getEventRegistrationCount full_storage 1)
      "https://events.example" "2025-01-01T11:00:00.000Z" in
  reply_code r = 200 ∧
  reply_json r = JObj [ ("success", JBool true);
                        ("message", JStr "Event webhook triggered successfully") ] ∧
  reply_storage r = full_storage ∧
  reply_requests r
  = map (fun w => (w, deliveryRequest sample_hmac sample_stringify p w))
      (getWebhooksByEvent full_storage "event.created") ∧
  exists n,
    JsObject.get "available_spots" p = Some (JNum n) ∧ 0 <= n ∧
    (n = 0 <->
     forall now' fetch' data,
       ins_eventId data = 1 ->
       body (post_registrations sample_hmac sample_stringify full_storage now' fetch'
               (Some data))
       = Message "Event is at full capacity").
Proof.
  apply (test_event_reports_free_seats sample_hmac sample_stringify full_storage
           "2025-01-01T11:00:00.000Z" "https://events.example" all_failing 1 launch).
  - discriminate.
  - by vm_compute.
Defined.

(** ** Users and their passwords *)

Section CredentialFacts.

Variable bcrypt_hash : string -> string -> string.
Variable bcrypt_compare : string -> string -> bool.

Local Abbreviation createUser := (createUser bcrypt_hash).
Local Abbreviation updateUser := (updateUser bcrypt_hash).
Local Abbreviation verifyUserCredentials := (verifyUserCredentials bcrypt_compare).

Lemma filter_username_update salt updates id name (l : list User) :
  uu_username updates = None ->
  filter (fun u => user_username u = name)
    (map (fun u => if decide (user_id u = id)
                   then apply_user_update bcrypt_hash salt updates u else u) l)
  = map (fun u => if decide (user_id u = id)
                  then apply_user_update bcrypt_hash salt updates u else u)
      (filter (fun u => user_username u = name) l).
Proof.
  intros Hname. induction l as [|u l IH]; [done|]. cbn [map].
  rewrite (filter_cons _ u l), filter_cons, IH.
  assert (user_username
            (if decide (user_id u = id)
             then apply_user_update bcrypt_hash salt updates u else u)
          = user_username u) as ->.
  { case_decide; [|done]. cbn [apply_user_update user_username]. by rewrite Hname. }
  by case_decide.
Qed.

(** X24.  Changing the password of a user does not retire the old one.
    After [createUser] and an [updateUser] with a new password, the password
    the account was created with still passes [verifyUserCredentials]: the
    update stores the hash of the new password and leaves the clear password
    of the row as it was, and the check compares with that column first. *)
Theorem first_password_outlives_change (users users1 users2 : list User) (id : Z)
    (now salt salt' : string) (ins : InsertUser) (newPassword : string)
    (u : User) (r : option User) :
  createUser users id now salt ins = Normal (users1, u) ->
  newPassword ≠ EmptyString ->
  updateUser users1 id salt' (change_password newPassword) = Normal (users2, r) ->
  exists u',
    verifyUserCredentials users2 (iu_username ins) (iu_password ins) = Some u' ∧
    user_id u' = id ∧
    user_password u' = iu_password ins ∧
    user_password_hash u' = Some (bcrypt_hash salt' newPassword).
Proof.
  unfold createUser. intros Hcreate Hnew.
  destruct (getUserByUsername users (iu_username ins)) eqn:Hfree; [done|].
  injection Hcreate as <- <-. unfold updateUser.
  cbn [no_user_values change_password uu_username]. intros [= <- _].
  unfold verifyUserCredentials, getUserByUsername.
  rewrite filter_username_update by done. rewrite filter_app.
  assert (filter (fun x => user_username x = iu_username ins) users = []) as ->.
  { unfold getUserByUsername in Hfree. by destruct (filter _ users). }
  cbn [app]. rewrite filter_cons. cbn [user_username].
  rewrite decide_True by done. rewrite filter_nil. cbn [map head user_id].
  rewrite decide_True by done.
  apply truthy_string_spec in Hnew.
  cbn [apply_user_update user_password uu_password change_password default
       from_option user_password_hash user_id].
  change (Datatypes.id newPassword) with newPassword.
  rewrite Hnew. rewrite bool_decide_eq_true_2 by done.
  eexists. split; [done|].
  cbn [apply_user_update user_id user_password user_password_hash uu_password
       change_password].
  change (default EmptyString (Some newPassword)) with newPassword.
  by rewrite Hnew.
Qed.

End CredentialFacts.

Lemma first_password_outlives_change_witness :
  exists users1 u users2 r u',
    createUser sample_bcrypt_hash [] 1 "2025-01-01T10:00:00.000Z" "salt" ada_account
    = Normal (users1, u) ∧
    updateUser sample_bcrypt_hash users1 1 "salt" (change_password "second")
    = Normal (users2, r) ∧
    verifyUserCredentials sample_bcrypt_compare users2 "ada" "first" = Some u' ∧
    user_password_hash u' = Some (sample_bcrypt_hash "salt" "second").
Proof.
  eexists _, _, _, _.
  destruct (first_password_outlives_change sample_bcrypt_hash sample_bcrypt_compare
              [] _ _ 1 "2025-01-01T10:00:00.000Z" "salt" "salt" ada_account "second"
              _ _ eq_refl ltac:(discriminate) eq_refl)
    as (u' & Hverify & _ & _ & Hhash).
  exists u'. split; [reflexivity|]. split; [reflexivity|]. split; [exact Hverify|].
  exact Hhash.
Defined.

Lemma test_payload_data_wins_witness :
  exists payload,
    req_body
      (testRequest sample_hmac sample_stringify
         (spread (JObj [("test", JBool false)])
            [ ("event_type", JStr "registration.created"); ("test", JBool true);
              ("timestamp", JStr "2025-01-01T10:00:00.000Z") ])
         zapier_hook)
    = sample_stringify payload ∧
    forall k,
      JsObject.get k payload
      = match JsObject.get k [("test", JBool false)] with
        | Some v => Some v
        | None =>
            JsObject.get k
              [ ("event_type", JStr "registration.created"); ("test", JBool true);
                ("timestamp", JStr "2025-01-01T10:00:00.000Z") ]
        end.
Proof.
  apply (test_payload_data_wins sample_hmac sample_stringify sample_storage
           "2025-01-01T10:00:00.000Z" all_ok
           {| webhookId := 1; eventType := Some (JStr "registration.created");
              data := Some (JObj [("test", JBool false)]) |}
           [("test", JBool false)] zapier_hook).
  - reflexivity.
  - apply NoDup_singleton.
  - apply list_elem_of_singleton. reflexivity.
Defined.

Lemma created_event_has_no_form_witness :
  let r :=
    post_events sample_hmac sample_stringify sample_storage 2
      "2025-01-01T10:00:00.000Z" all_failing (Some 1) (Accepted workshop) in
  let r' :=
    post_events sample_hmac sample_stringify sample_storage 2
      "2025-01-01T10:00:00.000Z" all_failing (Some 1) (Accepted broken_workshop) in
  (exists event,
     reply_code r = 201 ∧ getEvent (reply_storage r) 2 = Some event ∧
     ev_formId event = None) ∧
  reply_code r' = 500 ∧ reply_json r' = message_json "Failed to create event" ∧
  reply_storage r' = sample_storage ∧ reply_requests r' = [].
Proof.
  split.
  - destruct (proj1 (proj2 (proj2
                (created_event_has_no_form sample_hmac sample_stringify sample_storage 2
                   "2025-01-01T10:00:00.000Z" all_failing all_ok (Some 1)
                   (Accepted workshop))))
                workshop eq_refl eq_refl eq_refl eq_refl)
      as (event & Hcode & Hstored & _ & Hform & _).
    exists event. split; [exact Hcode|]. split; [exact Hstored|exact Hform].
  - exact (proj2 (proj2 (proj2
             (created_event_has_no_form sample_hmac sample_stringify
                sample_storage 2 "2025-01-01T10:00:00.000Z" all_failing all_ok
                (Some 1) (Accepted broken_workshop))))
             broken_workshop eq_refl eq_refl eq_refl).
Defined.
